(** * Demultiplexing of paired-end FASTQ reads: a shallow embedding

    The development follows [fastq/demux.py] and [fastq.py] of the
    repository.  Python values are modelled as follows:

    - [str] as [string]; slices, [strip], [split] and [isdigit] are written
      out below;
    - [int] as [Z];
    - [float] as the binary64 numbers of [SpecFloat] ([spec_float] with
      precision 53 and maximal exponent 1024), so products, quotients and
      [math.floor] round as they do in Python;
    - a raised exception as the [Raise] branch of [result];
    - an insertion-ordered [dict] whose order is observable (the barcode
      table) as an association list, the counter dictionaries as [gmap]. *)

From Stdlib Require Import ZArith Ascii String List Lia Bool.
From Stdlib Require Import DecimalString Decimal DecimalZ.
From Stdlib Require Import Floats.
From stdpp Require Import base option list gmap strings.

Open Scope string_scope.
Open Scope Z_scope.

(** ** Exceptions and fallible computations *)

Inductive exn : Type :=
| ValueError (msg : string)
| KeyError (msg : string)
| TypeError (msg : string)
| AttributeError (msg : string)
| IndexError (msg : string)
| OverflowError (msg : string)
| ZeroDivisionError (msg : string).

Inductive result (A : Type) : Type :=
| Ok (a : A)
| Raise (e : exn).
Arguments Ok {A} a.
Arguments Raise {A} e.

Definition bind {A B : Type} (m : result A) (k : A -> result B) : result B :=
  match m with
  | Ok a => k a
  | Raise e => Raise e
  end.

Notation "'let*' x ':=' m 'in' k" := (bind m (fun x => k))
  (at level 10, x pattern, m at level 100, k at level 200).

Definition is_ok {A : Type} (m : result A) : bool :=
  match m with Ok _ => true | Raise _ => false end.

(** ** Python built-ins used by the demultiplexer *)

Module Py.

Definition chars (s : string) : list ascii := list_ascii_of_string s.
Definition str (l : list ascii) : string := string_of_list_ascii l.

Definition len (s : string) : Z := Z.of_nat (String.length s).

(** [s[:n]] for a literal [n >= 0]. *)
Definition slice_to (n : nat) (s : string) : string :=
  str (take n (chars s)).

(** [s[k:]]: a negative [k] counts from the end, and every bound is
    clipped to the string. *)
Definition slice_from (k : Z) (s : string) : string :=
  let start := if k <? 0 then Z.max 0 (len s + k) else k in
  str (drop (Z.to_nat start) (chars s)).

(** Whitespace removed by [str.strip()] (the ASCII part of it). *)
Definition is_space (c : ascii) : bool :=
  let n := nat_of_ascii c in
  ((9 <=? n) && (n <=? 13) || (28 <=? n) && (n <=? 32))%nat.

Fixpoint lstrip (l : list ascii) : list ascii :=
  match l with
  | c :: l' => if is_space c then lstrip l' else l
  | [] => []
  end.

Definition strip (s : string) : string :=
  str (List.rev (lstrip (List.rev (lstrip (chars s))))).

(** [s.split(sep)] for a one-character separator: never empty. *)
Fixpoint split_chars (sep : ascii) (l : list ascii) : list (list ascii) :=
  match l with
  | [] => [[]]
  | c :: l' =>
      if Ascii.eqb c sep then [] :: split_chars sep l'
      else match split_chars sep l' with
           | w :: ws => (c :: w) :: ws
           | [] => [[c]]
           end
  end.

Definition split (sep : ascii) (s : string) : list string :=
  map str (split_chars sep (chars s)).

(** [l[i]] for [i >= 0], raising [IndexError] out of range. *)
Definition index {A : Type} (l : list A) (i : nat) : result A :=
  match l !! i with
  | Some x => Ok x
  | None => Raise (IndexError "list index out of range")
  end.

(** [l[-1]] on a list of strings. *)
Definition last_str (l : list string) : result string :=
  match last l with
  | Some x => Ok x
  | None => Raise (IndexError "list index out of range")
  end.

(** Truth value of a string: empty strings are false. *)
Definition truthy_str (s : string) : bool :=
  match s with EmptyString => false | String _ _ => true end.

(** Values an optional integer argument can take. *)
Inductive arg : Type :=
| None_
| Int (z : Z).

(** [str(x)] on such a value. *)
Definition str_of (x : arg) : string :=
  match x with
  | None_ => "None"
  | Int z => NilZero.string_of_int (Z.to_int z)
  end.

Definition is_digit (c : ascii) : bool :=
  let n := nat_of_ascii c in ((48 <=? n) && (n <=? 57))%nat.

(** [s.isdigit()]: at least one character, all of them digits. *)
Definition isdigit (s : string) : bool :=
  match chars s with
  | [] => false
  | l => forallb is_digit l
  end.

(** [int(x)] for the arguments whose [str] passed [isdigit]. *)
Definition int_of (x : arg) : result Z :=
  match x with
  | None_ => Raise (TypeError "int() argument must be a string or a number")
  | Int z => Ok z
  end.

(** *** Floats *)

Definition float : Type := spec_float.

Definition lit (f : PrimFloat.float) : float := Prim2SF f.

Definition is_finite (f : float) : bool :=
  match f with
  | S754_zero _ | S754_finite _ _ _ => true
  | S754_infinity _ | S754_nan => false
  end.

(** Truth value of a float: only the two zeros are false. *)
Definition truthy_float (f : float) : bool :=
  match f with S754_zero _ => false | _ => true end.

(** [float(z)], correctly rounded; too large an integer overflows. *)
Definition float_of_int (z : Z) : result float :=
  let f := binary_normalize prec emax z 0 false in
  if is_finite f then Ok f
  else Raise (OverflowError "int too large to convert to float").

(** [n * f] for an [int] and a [float]. *)
Definition mul_int_float (n : Z) (f : float) : result float :=
  let* x := float_of_int n in Ok (SFmul prec emax x f).

(** An integer as a float that has not been rounded yet. *)
Definition unrounded (z : Z) : float :=
  match z with
  | Z0 => S754_zero false
  | Zpos p => S754_finite false p 0
  | Zneg p => S754_finite true p 0
  end.

(** [a / b] on two [int]s (true division): the quotient of the two
    integers, rounded once. *)
Definition truediv (a b : Z) : result float :=
  if b =? 0 then Raise (ZeroDivisionError "division by zero")
  else
    let q := SFdiv prec emax (unrounded a) (unrounded b) in
    if is_finite q then Ok q
    else Raise (OverflowError "integer division result too large for a float").

(** [math.floor(f)]. *)
Definition floor (f : float) : result Z :=
  match f with
  | S754_nan => Raise (ValueError "cannot convert float NaN to integer")
  | S754_infinity _ => Raise (OverflowError "cannot convert float infinity to integer")
  | S754_zero _ => Ok 0
  | S754_finite s m e =>
      let v := if s then Z.neg m else Z.pos m in
      Ok (if 0 <=? e then v * 2 ^ e else v / 2 ^ (- e))
  end.

(** [f <= z] for a [float] and an [int]: Python compares exactly. *)
Definition float_le_int (f : float) (z : Z) : bool :=
  match f with
  | S754_nan => false
  | S754_infinity s => s
  | S754_zero _ => 0 <=? z
  | S754_finite s m e =>
      let v := if s then Z.neg m else Z.pos m in
      if 0 <=? e then v * 2 ^ e <=? z else v <=? z * 2 ^ (- e)
  end.

(** [round(n / 2)] for an [int] [n]: the quotient [n / 2] is an exact
    float, and [round] takes a tie to the even neighbour. *)
Definition round_half (n : Z) : Z :=
  let q := n / 2 in
  if n mod 2 =? 0 then q else if Z.even q then q else q + 1.

End Py.

(** ** Nucleotide sequences *)

Module Sequence.

(** Modelled from the spec: [Sequence.reverse_complements] of the
    [sequence] module, which [src/] does not contain.  The spec gives the
    pairing A-T, C-G, N-N; any other character is left as it is. *)
Definition complement (c : ascii) : ascii :=
  if Ascii.eqb c "A" then "T"
  else if Ascii.eqb c "T" then "A"
  else if Ascii.eqb c "C" then "G"
  else if Ascii.eqb c "G" then "C"
  else c.

Definition reverse_complements (s : string) : string :=
  Py.str (List.rev (map complement (Py.chars s))).

End Sequence.

(** ** Barcodes in Illumina headers ([fastq.py]) *)

Module IlluminaFASTQ.

Definition is_base (c : ascii) : bool :=
  Ascii.eqb c "A" || Ascii.eqb c "C" || Ascii.eqb c "G" ||
  Ascii.eqb c "T" || Ascii.eqb c "N".

(** [[ACGTN]{n}] at the head of [l]: what follows it, if it matches. *)
Fixpoint bases (n : nat) (l : list ascii) : option (list ascii) :=
  match n with
  | O => Some l
  | S n' =>
      match l with
      | c :: l' => if is_base c then bases n' l' else None
      | [] => None
      end
  end.

(** [re.match(dual_index_pattern, barcode)] for the pattern
    [[ACGTN]{8}\+[ACGTN]{8}]: [re.match] anchors at the start only, so
    anything may follow the sixteen bases. *)
Definition dual_index_match (barcode : string) : bool :=
  match bases 8 (Py.chars barcode) with
  | Some (c :: l) => Ascii.eqb c "+" && bool_decide (is_Some (bases 8 l))
  | _ => false
  end.

Definition convert_barcode (barcode : string) : result string :=
  let idx := Py.split "+" barcode in
  let* i7 := Py.index idx 0 in
  let* i5_raw := Py.index idx 1 in
  let i5 := Sequence.reverse_complements i5_raw in
  Ok (i7 ++ "+" ++ i5).

(** The two lines every caller uses to bring a header barcode into its
    canonical form:
    [if re.match(dual_index_pattern, barcode): barcode = convert_barcode(barcode)]. *)
Definition canonicalise (barcode : string) : result string :=
  if dual_index_match barcode then convert_barcode barcode else Ok barcode.

(** A dual-index barcode of the data model: the whole string is eight
    bases, a plus sign and eight bases. *)
Definition is_dual_index (barcode : string) : bool :=
  dual_index_match barcode && (String.length barcode =? 17)%nat.

End IlluminaFASTQ.

(** ** Reads and read pairs *)

(** A [dnaio] sequence record. *)
Record Read : Type := mkRead {
  name : string;
  sequence : string;
  qualities : string
}.

Module ReadPair.

(** Modelled from the spec: [ReadPair] of the [fastq_pair] module, which
    [src/] does not contain.  A pair is valid iff both headers agree on
    the segment before the first whitespace once a terminal [/1] or [/2]
    is ignored; an invalid pair is a fatal error.  The barcode of a pair
    is what follows the final colon of the header of R1. *)
Fixpoint until_space (l : list ascii) : list ascii :=
  match l with
  | c :: l' => if Py.is_space c then [] else c :: until_space l'
  | [] => []
  end.

Definition drop_mate (l : list ascii) : list ascii :=
  match List.rev l with
  | d :: slash :: r =>
      if Ascii.eqb slash "/" && (Ascii.eqb d "1" || Ascii.eqb d "2")
      then List.rev r else l
  | _ => l
  end.

Definition identifier (r : Read) : list ascii :=
  drop_mate (until_space (Py.chars (name r))).

Definition valid (read1 read2 : Read) : bool :=
  bool_decide (identifier read1 = identifier read2).

Definition reads (read1 read2 : Read) : result (Read * Read) :=
  if valid read1 read2 then Ok (read1, read2)
  else Raise (ValueError "Read pair mismatch").

Definition barcode (read1 read2 : Read) : result string :=
  if valid read1 read2 then Py.last_str (Py.split ":" (name read1))
  else Raise (ValueError "Read pair mismatch").

End ReadPair.

(** ** Edit distance *)

Module editdistance.

Definition min3 (a b c : nat) : nat := Nat.min a (Nat.min b c).

Definition cost (x y : ascii) : nat := if Ascii.eqb x y then 0%nat else 1%nat.

(** The Levenshtein distance as its textbook recurrence. *)
Fixpoint lev (a b : list ascii) : nat :=
  match a with
  | [] => length b
  | x :: a' =>
      (fix lev_x (b : list ascii) : nat :=
         match b with
         | [] => length a
         | y :: b' =>
             min3 (S (lev a' b)) (S (lev_x b')) (cost x y + lev a' b')
         end) b
  end.

(** The same distance computed row by row, as [editdistance.eval] does:
    [row] holds the distances of the current suffix of [a] to every
    suffix of [b], longest first. *)
Fixpoint first_row (b : list ascii) : list nat :=
  match b with
  | [] => [0%nat]
  | _ :: b' => length b :: first_row b'
  end.

Fixpoint next_row (x : ascii) (b : list ascii) (prev : list nat) : list nat :=
  match b, prev with
  | y :: b', p :: prev' =>
      let r := next_row x b' prev' in
      min3 (S p) (S (hd 0%nat r)) (cost x y + hd 0%nat prev') :: r
  | _, p :: _ => [S p]
  | _, [] => []
  end.

Definition rows (a b : list ascii) : list nat :=
  fold_right (fun x prev => next_row x b prev) (first_row b) a.

Definition eval (a b : string) : Z :=
  Z.of_nat (hd 0%nat (rows (Py.chars a) (Py.chars b))).

End editdistance.

(** ** The interface of the alignment library *)

Module Parasail.

(** [parasail.matrix_create(alphabet, match, mismatch)]. *)
Record Matrix : Type := matrix_create {
  alphabet : string;
  match_score : Z;
  mismatch_score : Z
}.

(** The fields of an alignment result that the demultiplexer reads. *)
Record Result : Type := mkResult {
  matches : Z;
  score : Z;
  end_ref : Z
}.

(** [parasail.sg_de_stats(s1, s2, open, extend, matrix)]. *)
Definition aligner : Type := string -> string -> Z -> Z -> Matrix -> Result.

End Parasail.

(** ** A reference aligner *)

Module SemiGlobal.

(** Modelled from the spec: the aligner itself is the [parasail]
    library, which is not part of the repository and enters the workers
    as an argument.  This is the aligner the spec describes, for use
    where a concrete one is needed: the whole adapter is aligned, every
    matched base scores [match_score], every substitution
    [mismatch_score], every inserted or deleted base costs the gap
    penalty, the part of the probe after the alignment is free, and of
    the alignments with the best score the leftmost one is taken.
    [end_ref] is the index in the probe of the last aligned base. *)

(** A cell of the table: the best score and the matches on its path. *)
Definition cell : Type := Z * Z.

Definition gap (g : Z) (c : cell) : cell := (fst c - g, snd c).

Definition pair (m : Parasail.Matrix) (x y : ascii) (c : cell) : cell :=
  if Ascii.eqb x y then (fst c + Parasail.match_score m, snd c + 1)
  else (fst c + Parasail.mismatch_score m, snd c).

Definition best (c1 c2 : cell) : cell := if fst c1 <? fst c2 then c2 else c1.

Fixpoint fill (g : Z) (m : Parasail.Matrix) (x : ascii) (ref : list ascii)
    (prev : list cell) (left : cell) : list cell :=
  match ref, prev with
  | y :: ref', diag :: ((up :: _) as prev') =>
      let c := best (best (pair m x y diag) (gap g up)) (gap g left) in
      c :: fill g m x ref' prev' c
  | _, _ => []
  end.

Definition next_row (g : Z) (m : Parasail.Matrix) (ref : list ascii)
    (prev : list cell) (x : ascii) : list cell :=
  match prev with
  | c0 :: _ => let c := gap g c0 in c :: fill g m x ref prev c
  | [] => []
  end.

Fixpoint first_row (g : Z) (n : nat) (c : cell) : list cell :=
  c :: match n with
       | O => []
       | S n' => first_row g n' (gap g c)
       end.

Definition last_row (g : Z) (m : Parasail.Matrix) (query ref : list ascii) : list cell :=
  fold_left (next_row g m ref) query (first_row g (length ref) (0, 0)).

(** The leftmost cell of a row with the highest score, and its column. *)
Fixpoint leftmost (row : list cell) (j : Z) (c0 : cell) (j0 : Z) : cell * Z :=
  match row with
  | [] => (c0, j0)
  | c :: row' =>
      if fst c0 <? fst c then leftmost row' (j + 1) c j
      else leftmost row' (j + 1) c0 j0
  end.

Definition sg_de_stats : Parasail.aligner :=
  fun s1 s2 open extend matrix =>
    match last_row open matrix (Py.chars s1) (Py.chars s2) with
    | c :: row =>
        let (b, j) := leftmost row 1 c 0 in
        Parasail.mkResult (snd b) (fst b) (j - 1)
    | [] => Parasail.mkResult 0 0 (-1)
    end.

End SemiGlobal.

(** ** Counters *)

Abbreviation Counts := (gmap string Z).

Module FASTQWorker.

(** Modelled from the spec: [FASTQWorker] of the [processor] module,
    which [src/] does not contain.  A worker owns a counter dictionary,
    empty when the worker is created; [add_count(key, val=1)] increments
    the counter [key] by [val], an absent counter standing at zero. *)
Definition new_counts : Counts := ∅.

Definition get (counts : Counts) (key : string) : Z :=
  default 0 (counts !! key).

Definition add_count (counts : Counts) (key : string) (val : Z) : Counts :=
  <[key := get counts key + val]> counts.

End FASTQWorker.

(** ** The writer ([DemultiplexWriter]) *)

(** The files on disk: the records each FASTQ file holds. *)
Abbreviation Files := (gmap string (list Read)).

(** A barcode table: barcode to filename prefix, in insertion order.  A
    prefix is [None] or a string. *)
Abbreviation BarcodeDict := (list (string * option string)).

Module DemultiplexWriter.

Definition BARCODE_NOT_MATCHED : string := "NO_MATCH".

(** [prefix + ".R1.fastq.gz"] raises on [None]. *)
Definition paired_end_filenames (prefix : option string) : result (string * string) :=
  match prefix with
  | Some p => Ok (p ++ ".R1.fastq.gz", p ++ ".R2.fastq.gz")
  | None => Raise (TypeError "unsupported operand type(s) for +: 'NoneType' and 'str'")
  end.

(** The object [dnaio.open(r1_out, file2=r2_out, mode='w')] returns. *)
Record handle : Type := mkHandle {
  file1 : string;
  file2 : string
}.

(** The writer: its two attributes and the entries of the dictionary it
    is. *)
Record t : Type := mkWriter {
  barcode_dict : BarcodeDict;
  prefix_dict : gmap string handle;
  entries : gmap string (option handle)
}.

Definition init (barcode_dict : BarcodeDict) : t :=
  {| barcode_dict := barcode_dict; prefix_dict := ∅; entries := ∅ |}.

(** Truth value of a prefix: [None] and the empty string are false. *)
Definition truthy_prefix (prefix : option string) : bool :=
  match prefix with
  | Some p => Py.truthy_str p
  | None => false
  end.

(** [self[barcode] = fp]. *)
Definition setitem (w : t) (barcode : string) (fp : option handle) : t :=
  {| barcode_dict := barcode_dict w;
     prefix_dict := prefix_dict w;
     entries := <[barcode := fp]> (entries w) |}.

(** [self.prefix_dict[prefix]] when [prefix in self.prefix_dict.keys()]. *)
Definition opened (w : t) (prefix : option string) : option handle :=
  match prefix with
  | Some p => prefix_dict w !! p
  | None => None
  end.

Definition dnaio_open (files : Files) (r1_out r2_out : string) : handle * Files :=
  (mkHandle r1_out r2_out, <[r2_out := []]> (<[r1_out := []]> files)).

Fixpoint open_items (items : BarcodeDict) (w : t) (files : Files) : result (t * Files) :=
  match items with
  | [] => Ok (w, files)
  | (barcode, prefix) :: items' =>
      let w := if truthy_prefix prefix then w else setitem w barcode None in
      match opened w prefix with
      | Some fp => open_items items' (setitem w barcode (Some fp)) files
      | None =>
          let* out := paired_end_filenames prefix in
          let (fp, files) := dnaio_open files (fst out) (snd out) in
          let w := {| barcode_dict := barcode_dict w;
                      prefix_dict := <[default "" prefix := fp]> (prefix_dict w);
                      entries := entries w |} in
          open_items items' (setitem w barcode (Some fp)) files
      end
  end.

Definition open (w : t) (files : Files) : result (t * Files) :=
  open_items (barcode_dict w) w files.

(** [self.get(barcode)] followed by [if not fp]. *)
Definition get (w : t) (barcode : string) : option handle :=
  match entries w !! barcode with
  | Some (Some fp) => Some fp
  | _ => None
  end.

Definition handle_write (fp : handle) (files : Files) (read1 read2 : Read) : Files :=
  let files := <[file1 fp := (default [] (files !! file1 fp) ++ [read1])%list]> files in
  <[file2 fp := (default [] (files !! file2 fp) ++ [read2])%list]> files.

Definition write (w : t) (files : Files) (barcode : string) (read1 read2 : Read) : Files :=
  match get w barcode with
  | None => files
  | Some fp => handle_write fp files read1 read2
  end.

(** [for fp in self.values(): fp.close()]: a [None] entry has no
    [close]. *)
Definition close (w : t) : result unit :=
  if bool_decide (map_Forall (fun _ fp => is_Some fp) (entries w)) then Ok tt
  else Raise (AttributeError "'NoneType' object has no attribute 'close'").

End DemultiplexWriter.

(** ** The worker ([DemultiplexWorker]) *)

(** What a run of a worker ends in: it returns its counters (leaving the
    files and the progress queue behind), it raises, or it waits for ever
    on an input queue that holds no further item. *)
Inductive outcome : Type :=
| Returned (counts : Counts) (files : Files) (out_queue : list Z)
| Raised (e : exn)
| Blocked.

(** [min(l)] on a list of integers. *)
Definition py_min (l : list Z) : result Z :=
  match l with
  | [] => Raise (ValueError "min() arg is an empty sequence")
  | x :: l' => Ok (fold_left Z.min l' x)
  end.

Module DemultiplexWorker.

Record t : Type := mkWorker {
  barcode_dict : BarcodeDict;
  adapters : list string;
  min_match_length : Z;
  error_rate : Py.float;
  score : Z;
  penalty : Z;
  score_matrix : Parasail.Matrix;
  (** set by the dual-index worker only *)
  max_error : gmap string Z
}.

(** 0.1 *)
Definition DEFAULT_ERROR_RATE : Py.float := Py.lit 0x1.999999999999ap-4%float.

Definition create_score_matrix (score penalty : Z) : Parasail.Matrix :=
  Parasail.matrix_create "ACGTN" score (-1 * penalty).

(** [__init__]; the class attribute [DEFAULT_ERROR_RATE] is the one of
    the class being constructed.  [min] runs over the halved lengths;
    halving is exact and monotone, so the shortest length is taken first
    and [round] applied to its half. *)
Definition init (default_error_rate : Py.float) (barcode_dict : BarcodeDict)
    (error_rate : option Py.float) (score penalty : Py.arg) : result t :=
  let adapters := map fst barcode_dict in
  let* shortest := py_min (map Py.len adapters) in
  let min_match_length := Py.round_half shortest in
  let error_rate :=
    match error_rate with
    | Some e => if Py.truthy_float e then e else default_error_rate
    | None => default_error_rate
    end in
  let* score := if Py.isdigit (Py.str_of score) then Py.int_of score else Ok 1 in
  let* penalty := if Py.isdigit (Py.str_of penalty) then Py.int_of penalty else Ok 10 in
  if penalty =? 0 then Raise (ValueError "Mismatch penalty must be greater than 1.")
  else Ok {| barcode_dict := barcode_dict;
             adapters := adapters;
             min_match_length := min_match_length;
             error_rate := error_rate;
             score := score;
             penalty := penalty;
             score_matrix := create_score_matrix score penalty;
             max_error := ∅ |}.

(** One batch: every pair is processed and handed to the writer. *)
Fixpoint process_batch
    (process_read_pair : Read * Read -> Counts -> result (string * Read * Read * Counts))
    (writer : DemultiplexWriter.t) (reads : list (Read * Read))
    (counts : Counts) (files : Files) : result (Counts * Files) :=
  match reads with
  | [] => Ok (counts, files)
  | read_pair :: reads' =>
      let* r := process_read_pair read_pair counts in
      let '(barcode, read1, read2, counts) := r in
      let files := DemultiplexWriter.write writer files barcode read1 read2 in
      process_batch process_read_pair writer reads' counts files
  end.

(** The [while True] loop of [start]: an item of the input queue is a
    batch or the poison value [None]. *)
Fixpoint run
    (process_read_pair : Read * Read -> Counts -> result (string * Read * Read * Counts))
    (writer : DemultiplexWriter.t) (in_queue : list (option (list (Read * Read))))
    (counts : Counts) (files : Files) (out_queue : list Z) : outcome :=
  match in_queue with
  | [] => Blocked
  | None :: _ => Returned counts files out_queue
  | Some reads :: in_queue' =>
      match process_batch process_read_pair writer reads counts files with
      | Raise e => Raised e
      | Ok (counts, files) =>
          let counts := FASTQWorker.add_count counts "total" (Z.of_nat (length reads)) in
          run process_read_pair writer in_queue' counts files
            (out_queue ++ [Z.of_nat (length reads)])%list
      end
  end.

(** [start]: the writer is opened on entry and closed on every exit. *)
Definition start
    (process_read_pair : Read * Read -> Counts -> result (string * Read * Read * Counts))
    (self : t) (counts : Counts) (files : Files)
    (in_queue : list (option (list (Read * Read)))) : outcome :=
  match DemultiplexWriter.open (DemultiplexWriter.init (barcode_dict self)) files with
  | Raise e => Raised e
  | Ok (writer, files) =>
      match run process_read_pair writer in_queue counts files [] with
      | Returned counts files out_queue =>
          match DemultiplexWriter.close writer with
          | Ok _ => Returned counts files out_queue
          | Raise e => Raised e
          end
      | o => o
      end
  end.

End DemultiplexWorker.

(** ** Inline barcodes ([DemultiplexInlineWorker]) *)

Module DemultiplexInlineWorker.

Import DemultiplexWorker.

(** 0.2 *)
Definition DEFAULT_ERROR_RATE : Py.float := Py.lit 0x1.999999999999ap-3%float.

Definition init := DemultiplexWorker.init DEFAULT_ERROR_RATE.

Section WithAligner.

Variable sg_de_stats : Parasail.aligner.

(** The inner loop of [trim_adapters] on one read: [continue] moves on
    to the next adapter, [break] leaves with the read trimmed, and a
    read no adapter matches keeps the empty string. *)
Fixpoint trim_read (self : t) (adapters : list string) (read : Read)
    : result (string * Read) :=
  match adapters with
  | [] => Ok ("", read)
  | adapter :: adapters' =>
      let result :=
        sg_de_stats adapter (Py.slice_to 20 (sequence read))
          (penalty self) (penalty self) (score_matrix self) in
      if Parasail.matches result <=? min_match_length self
      then trim_read self adapters' read
      else
        let* distance :=
          Py.truediv (score self * Parasail.matches result - Parasail.score result)
            (penalty self) in
        let* max_distance :=
          bind (Py.mul_int_float (Py.len adapter) (error_rate self)) Py.floor in
        if Py.float_le_int distance max_distance
        then Ok (adapter,
                 {| name := name read;
                    sequence := Py.slice_from (Parasail.end_ref result + 1) (sequence read);
                    qualities := Py.slice_from (Parasail.end_ref result + 1) (qualities read) |})
        else trim_read self adapters' read
  end.

Definition trim_adapters (self : t) (read1 read2 : Read)
    : result (string * string * Read * Read) :=
  let* m1 := trim_read self (adapters self) read1 in
  let* m2 := trim_read self (adapters self) read2 in
  Ok (fst m1, fst m2, snd m1, snd m2).

Definition process_read_pair (self : t) (read_pair : Read * Read) (counts : Counts)
    : result (string * Read * Read * Counts) :=
  let (read1, read2) := read_pair in
  let* checked := ReadPair.reads read1 read2 in
  let (read1, read2) := checked in
  let* trimmed := trim_adapters self read1 read2 in
  let '(adapter1, adapter2, read1, read2) := trimmed in
  let counts :=
    if Py.truthy_str adapter1
    then FASTQWorker.add_count counts (adapter1 ++ "_1") 1 else counts in
  let counts :=
    if Py.truthy_str adapter2
    then FASTQWorker.add_count counts (adapter2 ++ "_2") 1 else counts in
  let adapter := if Py.len adapter2 <? Py.len adapter1 then adapter1 else adapter2 in
  if Py.truthy_str adapter
  then
    let counts := FASTQWorker.add_count counts adapter 1 in
    let counts := FASTQWorker.add_count counts "matched" 1 in
    Ok (adapter, read1, read2, counts)
  else
    let counts := FASTQWorker.add_count counts "unmatched" 1 in
    Ok (DemultiplexWriter.BARCODE_NOT_MATCHED, read1, read2, counts).

Definition start (self : t) := DemultiplexWorker.start (process_read_pair self) self.

End WithAligner.

End DemultiplexInlineWorker.

(** ** Barcodes in the header ([DemultiplexDualIndexWorker]) *)

Module DemultiplexDualIndexWorker.

Import DemultiplexWorker.

(** The dictionary comprehension of [__init__]. *)
Fixpoint max_errors (error_rate : Py.float) (adapters : list string)
    (acc : gmap string Z) : result (gmap string Z) :=
  match adapters with
  | [] => Ok acc
  | adapter :: adapters' =>
      let* m := bind (Py.mul_int_float (Py.len adapter) error_rate) Py.floor in
      max_errors error_rate adapters' (<[adapter := m]> acc)
  end.

Definition init (barcode_dict : BarcodeDict) (error_rate : option Py.float)
    (score penalty : Py.arg) : result t :=
  let* self := DemultiplexWorker.init DemultiplexWorker.DEFAULT_ERROR_RATE
                 barcode_dict error_rate score penalty in
  let* max_error := max_errors (DemultiplexWorker.error_rate self) (adapters self) ∅ in
  Ok {| barcode_dict := DemultiplexWorker.barcode_dict self;
        adapters := adapters self;
        min_match_length := min_match_length self;
        error_rate := DemultiplexWorker.error_rate self;
        score := DemultiplexWorker.score self;
        penalty := DemultiplexWorker.penalty self;
        score_matrix := score_matrix self;
        max_error := max_error |}.

Fixpoint match_loop (self : t) (adapters : list string) (barcode : string)
    : option string :=
  match adapters with
  | [] => None
  | adapter :: adapters' =>
      let mismatch := editdistance.eval barcode adapter in
      if mismatch <? default 0 (max_error self !! adapter)
      then Some adapter
      else match_loop self adapters' barcode
  end.

Definition match_adapters (self : t) (barcode : string) : option string :=
  match_loop self (adapters self) barcode.

Definition process_read_pair (self : t) (read_pair : Read * Read) (counts : Counts)
    : result (string * Read * Read * Counts) :=
  let (read1, read2) := read_pair in
  let* barcode := ReadPair.barcode read1 read2 in
  let* barcode := IlluminaFASTQ.canonicalise barcode in
  let barcode := match_adapters self barcode in
  if negb (Py.truthy_str (default "" barcode))
  then
    let counts := FASTQWorker.add_count counts "unmatched" 1 in
    Ok (DemultiplexWriter.BARCODE_NOT_MATCHED, read1, read2, counts)
  else
    let counts := FASTQWorker.add_count counts "matched" 1 in
    let counts := FASTQWorker.add_count counts (default "" barcode) 1 in
    Ok (default "" barcode, read1, read2, counts).

Definition start (self : t) := DemultiplexWorker.start (process_read_pair self) self.

End DemultiplexDualIndexWorker.

(** ** Statistics ([DemultiplexInline.save_statistics]) *)

Module DemultiplexInline.

(** A cell of a CSV row, before [csv.writer] formats it. *)
Inductive cell : Type :=
| Str (s : string)
| Num (z : Z)
| Flt (f : Py.float).

(** The CSV files on disk: the rows each one holds. *)
Abbreviation Disk := (gmap string (list (list cell))).

Definition header_row (header : string) : list cell :=
  [Str "sample"; Str "barcode";
   Str "read1_percent"; Str "read2_percent"; Str ("total_percent_" ++ header);
   Str "total_reads"; Str (header ++ "_reads"); Str ("non" ++ header ++ "_reads")].

(** The [for adapter in self.adapters] loop: the rows written, and the
    exception that ended the loop early, if any. *)
Fixpoint adapter_rows (counts : Counts) (sample_name : string) (total unmatched : Z)
    (adapters : list string) : list (list cell) * option exn :=
  match adapters with
  | [] => ([], None)
  | adapter :: adapters' =>
      let r1 := FASTQWorker.get counts (adapter ++ "_1") in
      let r2 := FASTQWorker.get counts (adapter ++ "_2") in
      let matched := FASTQWorker.get counts adapter in
      match Py.truediv r1 total, Py.truediv r2 total, Py.truediv matched total with
      | Ok p1, Ok p2, Ok p =>
          let row := [Str sample_name; Str adapter; Flt p1; Flt p2; Flt p;
                      Num total; Num matched; Num unmatched] in
          let (rows, e) := adapter_rows counts sample_name total unmatched adapters' in
          (row :: rows, e)
      | Raise e, _, _ | Ok _, Raise e, _ | Ok _, Ok _, Raise e => ([], Some e)
      end
  end.

(** [save_statistics]: the disk it leaves behind and what it returns
    ([None], the path) or raises.  The file is opened for writing, and
    so created or emptied, before any counter is looked at. *)
Definition save_statistics (counts : Counts) (adapters : list string) (disk : Disk)
    (csv_file_path : string) (sample_name header : option string)
    : Disk * result (option string) :=
  let header := if Py.truthy_str (default "" header) then default "" header else "" in
  let sample_name :=
    if Py.truthy_str (default "" sample_name) then default "" sample_name else "" in
  let rows := [header_row header] in
  match counts !! "total" with
  | None => (<[csv_file_path := rows]> disk, Raise (KeyError "Total read count is missing."))
  | Some total =>
      if total =? 0 then (<[csv_file_path := rows]> disk, Ok None)
      else
        match counts !! "unmatched" with
        | None =>
            (<[csv_file_path := rows]> disk,
             Raise (KeyError "Unmatched read count is missing."))
        | Some unmatched =>
            match adapter_rows counts sample_name total unmatched adapters with
            | (more, Some e) => (<[csv_file_path := (rows ++ more)%list]> disk, Raise e)
            | (more, None) =>
                (<[csv_file_path := (rows ++ more)%list]> disk, Ok (Some csv_file_path))
            end
        end
  end.

End DemultiplexInline.

(** ** Inferring the adapters ([DemultiplexDualIndex.determine_adapters]) *)

Module DemultiplexDualIndex.

(** The loop over the records of the R1 file: [counter] is incremented
    after the record is counted, and the loop is left once it exceeds
    3000. *)
Fixpoint count_barcodes (fastq_in : list Read) (barcode_counts : Counts) (counter : Z)
    : result Counts :=
  match fastq_in with
  | [] => Ok barcode_counts
  | read1 :: fastq_in' =>
      let* barcode := Py.last_str (Py.split ":" (Py.strip (name read1))) in
      let* barcode := IlluminaFASTQ.canonicalise barcode in
      let c := FASTQWorker.get barcode_counts barcode in
      let c := c + 1 in
      let barcode_counts := <[barcode := c]> barcode_counts in
      let counter := counter + 1 in
      if 3000 <? counter then Ok barcode_counts
      else count_barcodes fastq_in' barcode_counts counter
  end.

(** [major_barcodes] is a method of [BarcodeStatistics] that [src/] does
    not contain; the spec leaves the selection to the implementation, so
    it is an argument here. *)
Definition determine_adapters (major_barcodes : Counts -> list string)
    (r1 : list Read) : result (list string) :=
  let* barcode_counts := count_barcodes r1 ∅ 0 in
  Ok (major_barcodes barcode_counts).

(** The number of records that went into a table of counts. *)
Definition counted (barcode_counts : Counts) : Z :=
  map_fold (fun _ c acc => c + acc) 0 barcode_counts.

End DemultiplexDualIndex.

(** ** Further built-ins *)

Module PyLib.

(** [s.split(sep, 1)]: cut at the first separator only. *)
Fixpoint split_once_chars (sep : ascii) (l : list ascii) : list (list ascii) :=
  match l with
  | [] => [[]]
  | c :: l' =>
      if Ascii.eqb c sep then [[]; l']
      else match split_once_chars sep l' with
           | w :: ws => (c :: w) :: ws
           | [] => [[c]]
           end
  end.

Definition split_once (sep : ascii) (s : string) : list string :=
  map Py.str (split_once_chars sep (Py.chars s)).

(** [s.split()]: the words between runs of whitespace. *)
Fixpoint words_chars (l : list ascii) : list (list ascii) :=
  match l with
  | [] => []
  | c :: l' =>
      if Py.is_space c then words_chars l'
      else match l' with
           | c' :: _ =>
               if Py.is_space c' then [c] :: words_chars l'
               else match words_chars l' with
                    | w :: ws => (c :: w) :: ws
                    | [] => [[c]]
                    end
           | [] => [[c]]
           end
  end.

Definition words (s : string) : list string :=
  map Py.str (words_chars (Py.chars s)).

(** [s.startswith(c)] for a one-character prefix. *)
Definition startswith (c : ascii) (s : string) : bool :=
  match s with
  | String c' _ => Ascii.eqb c' c
  | EmptyString => false
  end.

(** [s.endswith(c)] for a one-character suffix. *)
Definition endswith (c : ascii) (s : string) : bool :=
  match last (Py.chars s) with
  | Some c' => Ascii.eqb c' c
  | None => false
  end.

(** [os.path.join(a, b)] on a POSIX system. *)
Definition path_join (a b : string) : string :=
  if startswith "/" b then b
  else if negb (Py.truthy_str a) || endswith "/" a then a ++ b
  else a ++ "/" ++ b.

(** An insertion-ordered [dict] as a list of items: [d.get(k)] and
    [d[k] = v], which keeps the place of a key that is there already. *)
Fixpoint get {K V : Type} `{EqDecision K} (d : list (K * V)) (k : K) : option V :=
  match d with
  | [] => None
  | (k', v) :: d' => if decide (k = k') then Some v else get d' k
  end.

Fixpoint setitem {K V : Type} `{EqDecision K} (d : list (K * V)) (k : K) (v : V)
    : list (K * V) :=
  match d with
  | [] => [(k, v)]
  | (k', v') :: d' =>
      if decide (k = k') then (k, v) :: d' else (k', v') :: setitem d' k v
  end.

End PyLib.

(** ** The process ([DemultiplexProcess]) *)

Module DemultiplexProcess.

(** The attributes of the process; [workspace] is set by the processor
    class the process inherits from, and is given here. *)
Record t : Type := mkProcess {
  barcode_dict : BarcodeDict;
  error_rate : option Py.float;
  score : Py.arg;
  penalty : Py.arg;
  adapters : list string;
  output_list : list (list (string * string));
  workspace : string
}.

Definition init (workspace : string) (barcode_dict : BarcodeDict)
    (error_rate : option Py.float) (score penalty : Py.arg) : t :=
  {| barcode_dict := barcode_dict;
     error_rate := error_rate;
     score := score;
     penalty := penalty;
     adapters := map fst barcode_dict;
     output_list := [];
     workspace := workspace |}.

(** ["%s_%s" % (k, ident)] under the workspace. *)
Definition shard_prefix (workspace : string) (k ident : string) : string :=
  PyLib.path_join workspace (k ++ "_" ++ ident).

(** [get_worker_args(i)]: the arguments of worker [i], and the process
    with the table of the worker appended to [output_list]. *)
Definition get_worker_args (self : t) (i : Z)
    : (list (string * string) * option Py.float * Py.arg * Py.arg) * t :=
  let ident := "Process_" ++ Py.str_of (Py.Int i) in
  let output_dict :=
    map (fun kv => (fst kv, shard_prefix (workspace self) (fst kv) ident))
      (barcode_dict self) in
  ((output_dict, error_rate self, score self, penalty self),
   {| barcode_dict := barcode_dict self;
      error_rate := error_rate self;
      score := score self;
      penalty := penalty self;
      adapters := adapters self;
      output_list := (output_list self ++ [output_dict])%list;
      workspace := workspace self |}).

(** The list comprehension of [prepare_concatenation]: what the workers
    have for a barcode, where they have anything. *)
Fixpoint shards_of (barcode : string) (output_list : list (list (string * string)))
    : list string :=
  match output_list with
  | [] => []
  | output_dict :: output_list' =>
      match PyLib.get output_dict barcode with
      | Some path =>
          if Py.truthy_str path then path :: shards_of barcode output_list'
          else shards_of barcode output_list'
      | None => shards_of barcode output_list'
      end
  end.

(** The first loop of [prepare_concatenation]. *)
Fixpoint collect_prefixes (items : BarcodeDict) (output_list : list (list (string * string)))
    (prefix_dict : list (option string * list string))
    : list (option string * list string) :=
  match items with
  | [] => prefix_dict
  | (barcode, file_prefix) :: items' =>
      let path_list := default [] (PyLib.get prefix_dict file_prefix) in
      let path_list := (path_list ++ shards_of barcode output_list)%list in
      collect_prefixes items' output_list (PyLib.setitem prefix_dict file_prefix path_list)
  end.

(** [prepare_concatenation]: [list(set(v))] holds the elements of [v]
    once each, in an order the language leaves open, so the value is the
    set. *)
Definition prepare_concatenation (barcode_dict : BarcodeDict)
    (output_list : list (list (string * string)))
    : list (option string * gset string) :=
  map (fun kv => (fst kv, list_to_set (snd kv)))
    (collect_prefixes barcode_dict output_list []).

(** The inner loop of [parse_barcode_outputs]. *)
Fixpoint assign (barcode_list : list string) (file_prefix : option string)
    (barcode_dict : BarcodeDict) : BarcodeDict :=
  match barcode_list with
  | [] => barcode_dict
  | barcode :: barcode_list' =>
      assign barcode_list' file_prefix (PyLib.setitem barcode_dict barcode file_prefix)
  end.

(** The barcodes and the prefix one argument names. *)
Definition barcode_list_of (output : string) : list string :=
  PyLib.words (Py.strip (hd "" (PyLib.split_once "=" output))).

Definition file_prefix_of (output : string) : option string :=
  match PyLib.split_once "=" output with
  | _ :: p :: _ => Some p
  | _ => None
  end.

Fixpoint parse_loop (barcode_outputs : list string) (barcode_dict : BarcodeDict)
    : BarcodeDict :=
  match barcode_outputs with
  | [] => barcode_dict
  | output :: barcode_outputs' =>
      parse_loop barcode_outputs'
        (assign (barcode_list_of output) (file_prefix_of output) barcode_dict)
  end.

Definition parse_barcode_outputs (barcode_outputs : list string) : BarcodeDict :=
  parse_loop barcode_outputs [].

End DemultiplexProcess.

(** ** Barcodes of a FASTQ file ([IlluminaFASTQ], [BarcodeStatistics]) *)

Module BarcodeCount.

(** The loop of [__process_barcode] over the lines of the file, numbered
    from [i]: a line that starts with [@] and ends in a dual-index barcode
    is handed to [method] under the canonical barcode. *)
Fixpoint process_barcode {V : Type} (method : gmap string V -> string -> Z -> V)
    (lines : list string) (i : Z) (barcode_dict : gmap string V)
    : result (gmap string V) :=
  match lines with
  | [] => Ok barcode_dict
  | line :: lines' =>
      if negb (PyLib.startswith "@" line)
      then process_barcode method lines' (i + 1) barcode_dict
      else
        let* barcode := Py.last_str (Py.split ":" (Py.strip line)) in
        if IlluminaFASTQ.dual_index_match barcode
        then
          let* barcode := IlluminaFASTQ.convert_barcode barcode in
          process_barcode method lines' (i + 1)
            (<[barcode := method barcode_dict barcode i]> barcode_dict)
        else process_barcode method lines' (i + 1) barcode_dict
  end.

(** [__count_barcode] and [__group_barcode]. *)
Definition count_barcode (barcode_dict : Counts) (barcode : string) (row_number : Z) : Z :=
  default 0 (barcode_dict !! barcode) + 1.

Definition group_barcode (barcode_dict : gmap string (list Z)) (barcode : string)
    (row_number : Z) : list Z :=
  (default [] (barcode_dict !! barcode) ++ [row_number])%list.

(** [count_by_barcode(threshold)] on the lines of the file. *)
Definition count_by_barcode (lines : list string) (threshold : Z) : result Counts :=
  let* barcode_dict := process_barcode count_barcode lines 1 ∅ in
  Ok (filter (fun kv => threshold < snd kv) barcode_dict).

(** [group_by_barcode(threshold)] on the lines of the file. *)
Definition group_by_barcode (lines : list string) (threshold : Z)
    : result (gmap string (list Z)) :=
  let* barcode_dict := process_barcode group_barcode lines 1 ∅ in
  if 0 <? threshold
  then Ok (filter (fun kv => threshold <? Z.of_nat (length (snd kv))) barcode_dict)
  else Ok barcode_dict.

(** [BarcodeStatistics(barcode_dict).filter_by_reads(threshold).barcode_dict]. *)
Definition filter_by_reads (barcode_dict : Counts) (threshold : Z) : Counts :=
  filter (fun kv => threshold < snd kv) barcode_dict.

End BarcodeCount.

(** ** Reads of a compressed FASTQ file ([FASTQRead], [FASTQGzip]) *)

Module FASTQRead.

Record t : Type := mkFASTQRead {
  identifier : string;
  sequence : string;
  description : string;
  quality : string
}.

Definition init (lines : list string) : result t :=
  match lines with
  | [l0; l1; l2; l3] => Ok (mkFASTQRead l0 l1 l2 l3)
  | _ => Raise (ValueError "lines must be a list of 4 strings.")
  end.

End FASTQRead.

Module FASTQGzip.

(** The reader: the lines the decompressed stream still holds, and the
    number of reads handed out. *)
Record t : Type := mkFASTQGzip {
  gzip : list string;
  current : Z
}.

(** [self.gzip.readline()]: the next line, the empty string at the end
    of the stream. *)
Definition readline (self : t) : string * t :=
  match gzip self with
  | [] => ("", self)
  | line :: rest => (line, {| gzip := rest; current := current self |})
  end.

(** [__next__]: four lines make a read; [None] stands for
    [StopIteration]. *)
Definition next (self : t) : result (option FASTQRead.t * t) :=
  let (l0, self) := readline self in
  let (l1, self) := readline self in
  let (l2, self) := readline self in
  let (l3, self) := readline self in
  let* read := FASTQRead.init [l0; l1; l2; l3] in
  if Py.truthy_str (FASTQRead.identifier read)
  then Ok (Some read, {| gzip := gzip self; current := current self + 1 |})
  else Ok (None, self).

(** [list(self)]: [__next__] until [StopIteration], in at most [fuel]
    rounds; [None] when the rounds do not suffice. *)
Fixpoint to_list (fuel : nat) (self : t) : option (result (list FASTQRead.t * t)) :=
  match fuel with
  | O => None
  | S fuel' =>
      match next self with
      | Raise e => Some (Raise e)
      | Ok (None, self) => Some (Ok ([], self))
      | Ok (Some read, self) =>
          match to_list fuel' self with
          | Some (Ok (reads, self)) => Some (Ok (read :: reads, self))
          | r => r
          end
      end
  end.

(** [read_count]: the stream is opened anew on the lines of the file and
    read to its end. *)
Definition read_count (fuel : nat) (self : t) (file : list string)
    : option (result (Z * t)) :=
  match to_list fuel {| gzip := file; current := current self |} with
  | Some (Ok (reads, self)) => Some (Ok (Z.of_nat (length reads), self))
  | Some (Raise e) => Some (Raise e)
  | None => None
  end.

End FASTQGzip.

(** * Specification-side definitions

    The definitions of this part follow the words of the specification;
    the properties below compare them with the code above. *)

(** ** Construction and statistics *)

(** The value [int(x) if str(x).isdigit() else d] of the constructor. *)
Definition digits_or (x : Py.arg) (d : Z) : Z :=
  match x with
  | Py.Int z => if 0 <=? z then z else d
  | Py.None_ => d
  end.

(** The header: [if not header: header = ""]. *)
Definition header_of (header : option string) : string := default "" header.

(** ** Runs and counters *)

(** The batches a worker takes from its input queue before the first
    poison value. *)
Fixpoint batches {A : Type} (in_queue : list (option A)) : list A :=
  match in_queue with
  | Some reads :: in_queue' => reads :: batches in_queue'
  | _ => []
  end.

(** The names of the three counters every worker keeps. *)
Definition counter_name (key : string) : Prop :=
  key = "total" \/ key = "matched" \/ key = "unmatched".

(** What one pair does to the three counters: [total] is left alone and
    exactly one of [matched] and [unmatched] goes up by one. *)
Definition counts_one_pair
    (process_read_pair : Read * Read -> Counts -> result (string * Read * Read * Counts))
    : Prop :=
  forall read_pair counts barcode read1 read2 counts',
    process_read_pair read_pair counts = Ok (barcode, read1, read2, counts') ->
    FASTQWorker.get counts' "total" = FASTQWorker.get counts "total" /\
    FASTQWorker.get counts' "matched" + FASTQWorker.get counts' "unmatched"
    = FASTQWorker.get counts "matched" + FASTQWorker.get counts "unmatched" + 1.

(** Every entry of the writer is a file. *)
Definition entries_open (w : DemultiplexWriter.t) : Prop :=
  map_Forall (fun (_ : string) (fp : option DemultiplexWriter.handle) => is_Some fp)
    (DemultiplexWriter.entries w).

(** ** Dual-index matching *)

(** The barcode the header of a pair carries, in canonical form. *)
Definition header_barcode (read_pair : Read * Read) : result string :=
  bind (ReadPair.barcode (fst read_pair) (snd read_pair)) IlluminaFASTQ.canonicalise.

(** A pair whose header barcode is exactly an adapter of the worker. *)
Definition exact_pair (self : DemultiplexWorker.t) (read_pair : Read * Read) : Prop :=
  exists c, header_barcode read_pair = Ok c /\ In c (DemultiplexWorker.adapters self).

(** The threshold of an adapter in the dual-index worker:
    [self.max_error.get(adapter, 0)]. *)
Definition threshold (self : DemultiplexWorker.t) (adapter : string) : Z :=
  default 0 (DemultiplexWorker.max_error self !! adapter).

(** The suffixes of a list, longest first. *)
Fixpoint suffixes (b : list ascii) : list (list ascii) :=
  b :: match b with
       | [] => []
       | _ :: b' => suffixes b'
       end.

(** ** The workers of the examples *)

(** The workers of the examples: the inline worker for the adapters
    [AAAA] and [GGGGGG] and the dual-index worker for the adapter
    [AAAAAAAA+GGGGGGGG], both with the default parameters. *)
Definition inline_example : DemultiplexWorker.t :=
  {| DemultiplexWorker.barcode_dict := [("AAAA", Some "a"); ("GGGGGG", Some "g")];
     DemultiplexWorker.adapters := ["AAAA"; "GGGGGG"];
     DemultiplexWorker.min_match_length := 2;
     DemultiplexWorker.error_rate := DemultiplexInlineWorker.DEFAULT_ERROR_RATE;
     DemultiplexWorker.score := 1;
     DemultiplexWorker.penalty := 10;
     DemultiplexWorker.score_matrix := DemultiplexWorker.create_score_matrix 1 10;
     DemultiplexWorker.max_error := ∅ |}.

Definition dual_example : DemultiplexWorker.t :=
  {| DemultiplexWorker.barcode_dict := [("AAAAAAAA+GGGGGGGG", Some "s1")];
     DemultiplexWorker.adapters := ["AAAAAAAA+GGGGGGGG"];
     DemultiplexWorker.min_match_length := 8;
     DemultiplexWorker.error_rate := DemultiplexWorker.DEFAULT_ERROR_RATE;
     DemultiplexWorker.score := 1;
     DemultiplexWorker.penalty := 10;
     DemultiplexWorker.score_matrix := DemultiplexWorker.create_score_matrix 1 10;
     DemultiplexWorker.max_error := {["AAAAAAAA+GGGGGGGG" := 1]} |}.

(** ** A pair in the inline worker *)

(** The barcode a pair is filed under: the longer of the two adapters,
    the second on a tie, [NO_MATCH] when that is the empty string. *)
Definition pair_barcode (adapter1 adapter2 : string) : string :=
  let adapter := if Py.len adapter2 <? Py.len adapter1 then adapter1 else adapter2 in
  if Py.truthy_str adapter then adapter else DemultiplexWriter.BARCODE_NOT_MATCHED.

(** ** Inline matching, as the spec words it *)

Module InlineSpec.

Section WithAligner.

Variable sg_de_stats : Parasail.aligner.
Variable self : DemultiplexWorker.t.

(** The probe of a read: the first 20 bases of its sequence. *)
Definition probe (read : Read) : string := Py.slice_to 20 (sequence read).

Definition align (adapter : string) (read : Read) : Parasail.Result :=
  sg_de_stats adapter (probe read)
    (DemultiplexWorker.penalty self) (DemultiplexWorker.penalty self)
    (DemultiplexWorker.score_matrix self).

(** The distance the score implies:
    [(score * matches - alignment_score) / penalty]. *)
Definition distance (adapter : string) (read : Read) : result Py.float :=
  Py.truediv
    (DemultiplexWorker.score self * Parasail.matches (align adapter read)
     - Parasail.score (align adapter read))
    (DemultiplexWorker.penalty self).

(** [floor(|adapter| * error_rate)]. *)
Definition max_distance (adapter : string) : result Z :=
  bind (Py.mul_int_float (Py.len adapter) (DemultiplexWorker.error_rate self)) Py.floor.

(** An adapter is accepted when more than [min_match_length] bases match
    and the distance is at most [floor(|adapter| * error_rate)]. *)
Definition accepted (read : Read) (adapter : string) : Prop :=
  DemultiplexWorker.min_match_length self < Parasail.matches (align adapter read) /\
  exists d m,
    distance adapter read = Ok d /\ max_distance adapter = Ok m /\
    Py.float_le_int d m = true.

(** An adapter is rejected when the test is made and fails. *)
Definition rejected (read : Read) (adapter : string) : Prop :=
  Parasail.matches (align adapter read) <= DemultiplexWorker.min_match_length self \/
  exists d m,
    distance adapter read = Ok d /\ max_distance adapter = Ok m /\
    Py.float_le_int d m = false.

(** A read with sequence and quality cut on the left to
    [[end_ref + 1 :]]. *)
Definition trimmed (read : Read) (adapter : string) : Read :=
  let k := Parasail.end_ref (align adapter read) + 1 in
  {| name := name read;
     sequence := Py.slice_from k (sequence read);
     qualities := Py.slice_from k (qualities read) |}.

(** The adapter a read is matched with and the read that is emitted: the
    first adapter, in the order of the table, that is accepted, and the
    read trimmed for it; the empty string and the read as it is when
    every adapter is rejected. *)
Definition first_accepted (read : Read) (adapter : string) (read' : Read) : Prop :=
  (adapter = "" /\ read' = read /\
   Forall (rejected read) (DemultiplexWorker.adapters self)) \/
  (exists before after,
     DemultiplexWorker.adapters self = (before ++ adapter :: after)%list /\
     Forall (rejected read) before /\
     accepted read adapter /\
     read' = trimmed read adapter).

End WithAligner.

End InlineSpec.

(** ** The files of a prefix and the records a run emits *)

(** The handle [open] gives a prefix. *)
Definition handle_of (p : string) : DemultiplexWriter.handle :=
  DemultiplexWriter.mkHandle (p ++ ".R1.fastq.gz") (p ++ ".R2.fastq.gz").

(** A name that is a file of some prefix of the table. *)
Definition named_by (bd : BarcodeDict) (n : string) : Prop :=
  exists b p, In (b, Some p) bd /\
              (n = DemultiplexWriter.file1 (handle_of p) \/
               n = DemultiplexWriter.file2 (handle_of p)).

(** The writer knows the prefixes it has opened by their files, and these
    files are empty. *)
Definition opened_empty (w : DemultiplexWriter.t) (files : Files) : Prop :=
  forall p h, DemultiplexWriter.prefix_dict w !! p = Some h ->
    h = handle_of p /\
    files !! DemultiplexWriter.file1 h = Some [] /\
    files !! DemultiplexWriter.file2 h = Some [].

(** What a batch hands to the writer, pair by pair, until a pair raises. *)
Fixpoint emitted
    (process_read_pair : Read * Read -> Counts -> result (string * Read * Read * Counts))
    (reads : list (Read * Read)) (counts : Counts) : list (string * Read * Read) :=
  match reads with
  | [] => []
  | read_pair :: reads' =>
      match process_read_pair read_pair counts with
      | Ok (barcode, read1, read2, counts') =>
          (barcode, read1, read2) :: emitted process_read_pair reads' counts'
      | Raise _ => []
      end
  end.

(** The pairs of [emitted] whose barcode the table sends to the prefix
    [p]. *)
Definition routed (bd : BarcodeDict) (p : string) (l : list (string * Read * Read))
    : list (string * Read * Read) :=
  filter (fun e => PyLib.get bd (fst (fst e)) = Some (Some p)) l.

(** ** Definitions for the further properties *)

(** The counters a batch leaves behind. *)
Fixpoint counts_after
    (process_read_pair : Read * Read -> Counts -> result (string * Read * Read * Counts))
    (reads : list (Read * Read)) (counts : Counts) : Counts :=
  match reads with
  | [] => counts
  | read_pair :: reads' =>
      match process_read_pair read_pair counts with
      | Ok (_, _, _, counts') => counts_after process_read_pair reads' counts'
      | Raise _ => counts
      end
  end.

(** What a run hands to the writer: the pairs of the batches before the
    poison value, in the order of the queue. *)
Fixpoint run_emitted
    (process_read_pair : Read * Read -> Counts -> result (string * Read * Read * Counts))
    (in_queue : list (option (list (Read * Read)))) (counts : Counts)
    : list (string * Read * Read) :=
  match in_queue with
  | Some reads :: in_queue' =>
      (emitted process_read_pair reads counts
       ++ run_emitted process_read_pair in_queue'
            (FASTQWorker.add_count (counts_after process_read_pair reads counts)
               "total" (Z.of_nat (length reads))))%list
  | _ => []
  end.

(** The writes of a list of emitted pairs, one after the other. *)
Definition write_all (w : DemultiplexWriter.t) (l : list (string * Read * Read))
    (files : Files) : Files :=
  fold_left (fun fs e => DemultiplexWriter.write w fs (fst (fst e)) (snd (fst e)) (snd e))
    l files.

(** The barcode the dual-index worker files a pair under: the adapter
    its header barcode is matched with, [NO_MATCH] without one. *)
Definition dual_barcode (self : DemultiplexWorker.t) (read_pair : Read * Read) : string :=
  match header_barcode read_pair with
  | Ok c =>
      match DemultiplexDualIndexWorker.match_adapters self c with
      | Some adapter =>
          if Py.truthy_str adapter then adapter else DemultiplexWriter.BARCODE_NOT_MATCHED
      | None => DemultiplexWriter.BARCODE_NOT_MATCHED
      end
  | Raise _ => DemultiplexWriter.BARCODE_NOT_MATCHED
  end.

(** The pairs of an input that a table sends to the prefix [p], given the
    barcode of every pair. *)
Definition pairs_for (bd : BarcodeDict) (barcode_of : Read * Read -> string) (p : string)
    (pairs : list (Read * Read)) : list (Read * Read) :=
  filter (fun read_pair => PyLib.get bd (barcode_of read_pair) = Some (Some p)) pairs.

(** What the inline worker hands to the writer for a pair: the barcode
    chosen from the two adapters and the two reads as the trimming loop
    leaves them. *)
Definition inline_output (sg_de_stats : Parasail.aligner) (self : DemultiplexWorker.t)
    (read_pair : Read * Read) : string * Read * Read :=
  match DemultiplexInlineWorker.trim_read sg_de_stats self
          (DemultiplexWorker.adapters self) (fst read_pair),
        DemultiplexInlineWorker.trim_read sg_de_stats self
          (DemultiplexWorker.adapters self) (snd read_pair) with
  | Ok (adapter1, read1), Ok (adapter2, read2) =>
      (pair_barcode adapter1 adapter2, read1, read2)
  | _, _ => (DemultiplexWriter.BARCODE_NOT_MATCHED, fst read_pair, snd read_pair)
  end.

(** ** Matching in table order *)

(** The number of edits the dual-index worker allows for an adapter:
    [floor(|adapter| * error_rate)]. *)
Definition allowed (error_rate : Py.float) (adapter : string) : Z :=
  match bind (Py.mul_int_float (Py.len adapter) error_rate) Py.floor with
  | Ok m => m
  | Raise _ => 0
  end.

(** The first adapter of a list within the allowed number of edits of a
    barcode. *)
Definition first_within (error_rate : Py.float) (adapters : list string)
    (barcode : string) : option string :=
  List.find (fun adapter => editdistance.eval barcode adapter <? allowed error_rate adapter)
    adapters.

(** ** Reads cut on the left *)

(** A string without its first [n] characters. *)
Definition chop (n : nat) (s : string) : string := Py.str (drop n (Py.chars s)).

(** [read'] is [read] with [n] characters cut off its sequence and [m]
    off its qualities. *)
Definition cut_from (read : Read) (n m : nat) (read' : Read) : Prop :=
  name read' = name read /\
  sequence read' = chop n (sequence read) /\
  qualities read' = chop m (qualities read).

(** ** Arguments of the form [BARCODE=PREFIX] *)

(** The last argument of a command line that names a barcode. *)
Definition last_naming (barcode : string) (barcode_outputs : list string) : option string :=
  List.find (fun output => bool_decide (barcode ∈ DemultiplexProcess.barcode_list_of output))
    (List.rev barcode_outputs).

(** A barcode as the parser makes them: not empty, and free of
    whitespace and of the equals sign. *)
Definition barcode_word (barcode : string) : Prop :=
  barcode <> "" /\
  forall c, In c (Py.chars barcode) -> Py.is_space c = false /\ c <> "="%char.

(** ** Shards and their concatenation *)

(** What the workers have for the barcodes of a table that share the
    prefix [file_prefix], in the order of the table. *)
Definition shards_for (barcode_dict : BarcodeDict)
    (output_list : list (list (string * string))) (file_prefix : option string)
    : list string :=
  concat (map (fun bp => DemultiplexProcess.shards_of (fst bp) output_list)
            (filter (fun bp => snd bp = file_prefix) barcode_dict)).

(** The process after [get_worker_args] has been called for the workers
    [ids], one after the other. *)
Definition spawned (self : DemultiplexProcess.t) (ids : list Z) : DemultiplexProcess.t :=
  fold_left (fun self i => snd (DemultiplexProcess.get_worker_args self i)) ids self.

(** The prefix under which worker [i] writes the reads of a barcode. *)
Definition shard (workspace barcode : string) (i : Z) : string :=
  DemultiplexProcess.shard_prefix workspace barcode ("Process_" ++ Py.str_of (Py.Int i)).

(** ** Header lines of a FASTQ file *)

(** The canonical barcode of a line, when the line starts with [@] and
    ends in a dual-index barcode. *)
Definition line_barcode (line : string) : option string :=
  if PyLib.startswith "@" line
  then
    match Py.last_str (Py.split ":" (Py.strip line)) with
    | Ok raw =>
        if IlluminaFASTQ.dual_index_match raw
        then match IlluminaFASTQ.convert_barcode raw with
             | Ok barcode => Some barcode
             | Raise _ => None
             end
        else None
    | Raise _ => None
    end
  else None.

(** The numbers of the lines that carry a barcode, the first line having
    the number [i]. *)
Fixpoint rows_of (barcode : string) (lines : list string) (i : Z) : list Z :=
  match lines with
  | [] => []
  | line :: lines' =>
      if decide (line_barcode line = Some barcode)
      then i :: rows_of barcode lines' (i + 1)
      else rows_of barcode lines' (i + 1)
  end.

(** The number of lines that carry a barcode. *)
Definition reads_of (barcode : string) (lines : list string) : Z :=
  Z.of_nat (length (filter (fun line => line_barcode line = Some barcode) lines)).

(** ** Pairs whose headers agree *)

(** The two reads of a pair carry one identifier. *)
Definition valid_pair (read_pair : Read * Read) : Prop :=
  ReadPair.valid (fst read_pair) (snd read_pair) = true.

(** ** Pairs and the counter of a key *)

(** The number of pairs that a worker files under a key. *)
Definition filed_under (barcode_of : Read * Read -> string) (key : string)
    (pairs : list (Read * Read)) : Z :=
  Z.of_nat (length (filter (fun read_pair => barcode_of read_pair = key) pairs)).

(** The adapters the inline worker finds on the two reads of a pair, the
    empty string standing for none. *)
Definition inline_adapters (sg_de_stats : Parasail.aligner) (self : DemultiplexWorker.t)
    (read_pair : Read * Read) : string * string :=
  match DemultiplexInlineWorker.trim_read sg_de_stats self
          (DemultiplexWorker.adapters self) (fst read_pair),
        DemultiplexInlineWorker.trim_read sg_de_stats self
          (DemultiplexWorker.adapters self) (snd read_pair) with
  | Ok (adapter1, _), Ok (adapter2, _) => (adapter1, adapter2)
  | _, _ => ("", "")
  end.

(** A name without an underscore, as every barcode of the data model. *)
Definition no_underscore (s : string) : Prop := ~ In "_"%char (Py.chars s).

(** ** Records of an R1 file *)

(** Results can be compared. *)
#[global] Instance exn_eq_dec : EqDecision exn.
Proof. solve_decision. Defined.

#[global] Instance result_eq_dec {A : Type} `{EqDecision A} : EqDecision (result A).
Proof. solve_decision. Defined.

(** The barcode a record of the R1 file is counted under: what follows
    the last colon of its name, in canonical form when it is a dual-index
    barcode and as it stands otherwise. *)
Definition record_barcode (read1 : Read) : result string :=
  bind (Py.last_str (Py.split ":" (Py.strip (name read1)))) IlluminaFASTQ.canonicalise.

(** The number of records, among the first [n], counted under a barcode. *)
Definition records_of (barcode : string) (n : nat) (fastq_in : list Read) : Z :=
  Z.of_nat (length (filter (fun read1 => record_barcode read1 = Ok barcode)
                      (take n fastq_in))).

(** ** Lines of a stream *)

(** The lines [readline] hands out are never empty: a line keeps its
    newline, and the last line of a stream that does not end in one has
    at least a character. *)
Definition proper_lines (file : list string) : Prop :=
  Forall (fun line => line <> "") file.

(** The reads four lines at a time make of a stream, the last one filled
    up with empty strings. *)
Fixpoint reads_of_lines (file : list string) : list FASTQRead.t :=
  match file with
  | l0 :: l1 :: l2 :: l3 :: rest =>
      FASTQRead.mkFASTQRead l0 l1 l2 l3 :: reads_of_lines rest
  | [l0; l1; l2] => [FASTQRead.mkFASTQRead l0 l1 l2 ""]
  | [l0; l1] => [FASTQRead.mkFASTQRead l0 l1 "" ""]
  | [l0] => [FASTQRead.mkFASTQRead l0 "" "" ""]
  | [] => []
  end.

(** * Properties *)

(** ** Strings as lists of characters *)

Lemma chars_str (l : list ascii) : Py.chars (Py.str l) = l.
Proof. apply list_ascii_of_string_of_list_ascii. Qed.

Lemma str_chars (s : string) : Py.str (Py.chars s) = s.
Proof. apply string_of_list_ascii_of_string. Qed.

Lemma chars_app (s1 s2 : string) :
  Py.chars (s1 ++ s2) = (Py.chars s1 ++ Py.chars s2)%list.
Proof. induction s1 as [|c s1 IH]; simpl; [reflexivity | now rewrite <- IH]. Qed.

Lemma chars_length (s : string) : length (Py.chars s) = String.length s.
Proof. induction s as [|c s IH]; simpl; [reflexivity | now rewrite IH]. Qed.

Lemma chars_inj (s1 s2 : string) : Py.chars s1 = Py.chars s2 -> s1 = s2.
Proof. intros H. rewrite <- (str_chars s1), <- (str_chars s2). now rewrite H. Qed.

(** ** Canonical form of a dual-index barcode *)

Section Canonicalise.

Import IlluminaFASTQ.

Lemma complement_involutive (c : ascii) :
  Sequence.complement (Sequence.complement c) = c.
Proof.
  unfold Sequence.complement.
  destruct (Ascii.eqb_spec c "A") as [->|HA]; [reflexivity|].
  destruct (Ascii.eqb_spec c "T") as [->|HT]; [reflexivity|].
  destruct (Ascii.eqb_spec c "C") as [->|HC]; [reflexivity|].
  destruct (Ascii.eqb_spec c "G") as [->|HG]; [reflexivity|].
  apply Ascii.eqb_neq in HA, HT, HC, HG. now rewrite HA, HT, HC, HG.
Qed.

Lemma complement_base (c : ascii) :
  is_base c = true -> is_base (Sequence.complement c) = true.
Proof.
  unfold is_base, Sequence.complement.
  destruct (Ascii.eqb_spec c "A") as [->|HA]; [reflexivity|].
  destruct (Ascii.eqb_spec c "T") as [->|HT]; [reflexivity|].
  destruct (Ascii.eqb_spec c "C") as [->|HC]; [reflexivity|].
  destruct (Ascii.eqb_spec c "G") as [->|HG]; [reflexivity|].
  apply Ascii.eqb_neq in HA, HT, HC, HG. now rewrite HA, HT, HC, HG.
Qed.

Lemma base_not_plus (c : ascii) : is_base c = true -> Ascii.eqb c "+" = false.
Proof.
  unfold is_base. intros H.
  destruct (Ascii.eqb_spec c "+") as [->|?]; [discriminate H | reflexivity].
Qed.

Lemma revcomp_involutive (l : list ascii) :
  List.rev (map Sequence.complement (List.rev (map Sequence.complement l))) = l.
Proof.
  rewrite map_rev, rev_involutive, map_map.
  induction l as [|c l IH]; simpl; [reflexivity|].
  now rewrite complement_involutive, IH.
Qed.

Lemma revcomp_bases (l : list ascii) :
  forallb is_base l = true ->
  forallb is_base (List.rev (map Sequence.complement l)) = true.
Proof.
  rewrite !forallb_forall. intros H c Hc.
  apply in_rev, in_map_iff in Hc. destruct Hc as (c' & <- & Hc').
  apply complement_base, H, Hc'.
Qed.

(** [bases n] strips exactly [n] bases. *)
Lemma bases_some (n : nat) (l r : list ascii) :
  bases n l = Some r <->
  exists p, l = (p ++ r)%list /\ length p = n /\ forallb is_base p = true.
Proof.
  revert l. induction n as [|n IH]; intros l; simpl.
  - split.
    + intros [= ->]. exists []. auto.
    + intros (p & -> & Hp & _). destruct p; [reflexivity | discriminate].
  - destruct l as [|c l].
    + split; [discriminate|]. intros ([|c p] & Hl & Hp & _); discriminate.
    + destruct (is_base c) eqn:Hc.
      * rewrite IH. split.
        -- intros (p & -> & Hp & Hb). exists (c :: p). simpl. rewrite Hc, Hb. auto.
        -- intros ([|c' p] & Hl & Hp & Hb); [discriminate|].
           simpl in *. injection Hl as -> ->. exists p.
           apply andb_true_iff in Hb. intuition congruence.
      * split; [discriminate|].
        intros ([|c' p] & Hl & Hp & Hb); [discriminate|].
        simpl in *. injection Hl as -> ->. rewrite Hc in Hb. discriminate.
Qed.

(** A dual-index barcode is eight bases, a plus sign and eight bases. *)
Lemma is_dual_index_iff (b : string) :
  is_dual_index b = true <->
  exists i7 i5, Py.chars b = (i7 ++ "+"%char :: i5)%list /\
                length i7 = 8%nat /\ length i5 = 8%nat /\
                forallb is_base i7 = true /\ forallb is_base i5 = true.
Proof.
  unfold is_dual_index, dual_index_match. split.
  - intros H. apply andb_true_iff in H as [H Hlen].
    destruct (bases 8 (Py.chars b)) as [[|c l]|] eqn:H7; try discriminate.
    apply andb_true_iff in H as [Hc H5]. apply Ascii.eqb_eq in Hc as ->.
    apply bool_decide_eq_true in H5 as [r H5].
    apply bases_some in H7 as (i7 & Hb & L7 & B7).
    apply bases_some in H5 as (i5 & -> & L5 & B5).
    apply Nat.eqb_eq in Hlen. rewrite <- chars_length, Hb in Hlen.
    rewrite length_app in Hlen. simpl in Hlen. rewrite length_app in Hlen.
    destruct r; [|simpl in Hlen; lia].
    exists i7, i5. rewrite Hb, app_nil_r. auto.
  - intros (i7 & i5 & Hb & L7 & L5 & B7 & B5).
    assert (H7 : bases 8 (Py.chars b) = Some ("+"%char :: i5)).
    { apply bases_some. exists i7. auto. }
    assert (H5 : bases 8 i5 = Some []).
    { apply bases_some. exists i5. rewrite app_nil_r. auto. }
    rewrite H7. simpl Ascii.eqb. rewrite H5. simpl.
    rewrite <- chars_length, Hb, length_app. simpl. rewrite L7, L5. reflexivity.
Qed.

Lemma split_no_sep (sep : ascii) (l : list ascii) :
  forallb (fun c => negb (Ascii.eqb c sep)) l = true ->
  Py.split_chars sep l = [l].
Proof.
  induction l as [|c l IH]; simpl; [reflexivity|].
  intros H. apply andb_true_iff in H as [Hc Hl].
  apply negb_true_iff in Hc. rewrite Hc, (IH Hl). reflexivity.
Qed.

Lemma split_at_sep (sep : ascii) (p r : list ascii) :
  forallb (fun c => negb (Ascii.eqb c sep)) p = true ->
  Py.split_chars sep (p ++ sep :: r) = p :: Py.split_chars sep r.
Proof.
  induction p as [|c p IH]; simpl.
  - intros _. now rewrite Ascii.eqb_refl.
  - intros H. apply andb_true_iff in H as [Hc Hp].
    apply negb_true_iff in Hc. rewrite Hc, (IH Hp). reflexivity.
Qed.

Lemma bases_no_plus (l : list ascii) :
  forallb is_base l = true ->
  forallb (fun c => negb (Ascii.eqb c "+")) l = true.
Proof.
  rewrite !forallb_forall. intros H c Hc.
  now rewrite (base_not_plus c (H c Hc)).
Qed.

(** What [convert_barcode] returns on a dual-index barcode. *)
Lemma convert_dual_index (i7 i5 : list ascii) :
  forallb is_base i7 = true -> forallb is_base i5 = true ->
  convert_barcode (Py.str (i7 ++ "+"%char :: i5)) =
  Ok (Py.str (i7 ++ "+"%char :: List.rev (map Sequence.complement i5))).
Proof.
  intros B7 B5. unfold convert_barcode, Py.split. rewrite chars_str.
  rewrite split_at_sep by now apply bases_no_plus.
  rewrite split_no_sep by now apply bases_no_plus.
  simpl. unfold Sequence.reverse_complements. rewrite chars_str.
  f_equal. apply chars_inj.
  rewrite !chars_app, !chars_str. reflexivity.
Qed.

End Canonicalise.

(** C6, as amended.  On a dual-index barcode [b = i7 + "+" + i5] the
    canonical form is [i7 + "+" + revcomp(i5)], it is again a dual-index
    barcode, and canonicalising it once more gives [b] back: the
    canonicalisation is an involution on dual-index barcodes, not an
    idempotent map. *)
Theorem canonicalise_involutive (b : string) :
  IlluminaFASTQ.is_dual_index b = true ->
  exists i7 i5 c,
    b = i7 ++ "+" ++ i5 /\
    c = i7 ++ "+" ++ Sequence.reverse_complements i5 /\
    IlluminaFASTQ.canonicalise b = Ok c /\
    IlluminaFASTQ.is_dual_index c = true /\
    IlluminaFASTQ.canonicalise c = Ok b.
Proof.
  intros Hb. pose proof Hb as Hb'.
  apply is_dual_index_iff in Hb' as (i7 & i5 & Hc & L7 & L5 & B7 & B5).
  assert (Eb : b = Py.str (i7 ++ "+"%char :: i5)) by (now rewrite <- Hc, str_chars).
  set (c := Py.str (i7 ++ "+"%char :: List.rev (map Sequence.complement i5))).
  assert (Hdc : IlluminaFASTQ.is_dual_index c = true).
  { apply is_dual_index_iff.
    exists i7, (List.rev (map Sequence.complement i5)). unfold c. rewrite chars_str.
    rewrite length_rev, length_map. repeat split; auto using revcomp_bases. }
  exists (Py.str i7), (Py.str i5), c. repeat split.
  - subst b. apply chars_inj. now rewrite !chars_app, !chars_str.
  - unfold c, Sequence.reverse_complements. apply chars_inj.
    now rewrite !chars_app, !chars_str.
  - unfold IlluminaFASTQ.canonicalise.
    unfold IlluminaFASTQ.is_dual_index in Hb. apply andb_true_iff in Hb as [-> _].
    subst b. now apply convert_dual_index.
  - exact Hdc.
  - unfold IlluminaFASTQ.canonicalise.
    unfold IlluminaFASTQ.is_dual_index in Hdc. apply andb_true_iff in Hdc as [-> _].
    unfold c. rewrite convert_dual_index by auto using revcomp_bases.
    now rewrite revcomp_involutive, Eb.
Qed.

Lemma canonicalise_involutive_witness :
  exists i7 i5 c,
    "AAAAAAAA+CCCCCCCC" = i7 ++ "+" ++ i5 /\
    c = i7 ++ "+" ++ Sequence.reverse_complements i5 /\
    IlluminaFASTQ.canonicalise "AAAAAAAA+CCCCCCCC" = Ok c /\
    IlluminaFASTQ.is_dual_index c = true /\
    IlluminaFASTQ.canonicalise c = Ok "AAAAAAAA+CCCCCCCC".
Proof. apply (canonicalise_involutive "AAAAAAAA+CCCCCCCC"). reflexivity. Defined.

(** The canonical form of [AAAAAAAA+CCCCCCCC] is [AAAAAAAA+GGGGGGGG], whose
    canonical form is [AAAAAAAA+CCCCCCCC] again: canonicalising twice is
    not canonicalising once. *)
Lemma canonicalise_not_idempotent :
  IlluminaFASTQ.is_dual_index "AAAAAAAA+CCCCCCCC" = true /\
  IlluminaFASTQ.canonicalise "AAAAAAAA+CCCCCCCC" = Ok "AAAAAAAA+GGGGGGGG" /\
  bind (IlluminaFASTQ.canonicalise "AAAAAAAA+CCCCCCCC") IlluminaFASTQ.canonicalise
    = Ok "AAAAAAAA+CCCCCCCC" /\
  bind (IlluminaFASTQ.canonicalise "AAAAAAAA+CCCCCCCC") IlluminaFASTQ.canonicalise
    <> IlluminaFASTQ.canonicalise "AAAAAAAA+CCCCCCCC".
Proof. repeat split; try reflexivity. discriminate. Qed.

(** ** Construction of a worker *)

Section Construction.

Lemma uint_digits (d : Decimal.uint) :
  forallb Py.is_digit (Py.chars (NilEmpty.string_of_uint d)) = true.
Proof. induction d; simpl; auto. Qed.

Lemma isdigit_uint (d : Decimal.uint) :
  Py.isdigit (NilZero.string_of_uint d) = true.
Proof.
  unfold Py.isdigit.
  pose proof (uint_digits d) as H.
  destruct d; simpl in *; auto.
Qed.

(** [str(z).isdigit()] holds exactly of the integers that print without
    a sign. *)
Lemma isdigit_str_of_int (z : Z) :
  Py.isdigit (Py.str_of (Py.Int z)) = (0 <=? z).
Proof.
  destruct z as [|p|p]; unfold Py.str_of, Z.to_int, NilZero.string_of_int.
  - reflexivity.
  - apply isdigit_uint.
  - reflexivity.
Qed.

Lemma digits_or_spec (x : Py.arg) (d : Z) :
  (if Py.isdigit (Py.str_of x) then Py.int_of x else Ok d) = Ok (digits_or x d).
Proof.
  destruct x as [|z]; [reflexivity|].
  rewrite isdigit_str_of_int. simpl. now destruct (0 <=? z).
Qed.

(** [__init__] written out: it fails on an empty table and on a zero
    penalty, and on nothing else. *)
Lemma init_unfold (default_rate : Py.float) (bd : BarcodeDict)
    (er : option Py.float) (score penalty : Py.arg) :
  DemultiplexWorker.init default_rate bd er score penalty =
  match py_min (map Py.len (map fst bd)) with
  | Raise e => Raise e
  | Ok shortest =>
      if digits_or penalty 10 =? 0
      then Raise (ValueError "Mismatch penalty must be greater than 1.")
      else Ok {| DemultiplexWorker.barcode_dict := bd;
                 DemultiplexWorker.adapters := map fst bd;
                 DemultiplexWorker.min_match_length := Py.round_half shortest;
                 DemultiplexWorker.error_rate :=
                   match er with
                   | Some e => if Py.truthy_float e then e else default_rate
                   | None => default_rate
                   end;
                 DemultiplexWorker.score := digits_or score 1;
                 DemultiplexWorker.penalty := digits_or penalty 10;
                 DemultiplexWorker.score_matrix :=
                   DemultiplexWorker.create_score_matrix
                     (digits_or score 1) (digits_or penalty 10);
                 DemultiplexWorker.max_error := ∅ |}
  end.
Proof.
  unfold DemultiplexWorker.init.
  destruct (py_min _) as [shortest|e]; simpl; [|reflexivity].
  rewrite !digits_or_spec. reflexivity.
Qed.

Lemma digits_or_nonneg (x : Py.arg) (d : Z) : 0 <= d -> 0 <= digits_or x d.
Proof.
  intros Hd. destruct x as [|z]; simpl; [exact Hd|].
  destruct (Z.leb_spec 0 z); lia.
Qed.

End Construction.

(** C7, as amended.  A penalty of zero makes the constructor raise
    [ValueError]; a negative penalty (like an absent one) is replaced by
    the default 10 and the constructor goes on; whatever the penalty
    given, a worker that has been constructed has a penalty of at least
    1, which is the penalty given when that is positive. *)
Theorem penalty_validation (default_rate : Py.float) (bd : BarcodeDict)
    (er : option Py.float) (score penalty : Py.arg) :
  (penalty = Py.Int 0 ->
   exists msg,
     DemultiplexWorker.init default_rate bd er score penalty = Raise (ValueError msg)) /\
  (forall self,
     DemultiplexWorker.init default_rate bd er score penalty = Ok self ->
     1 <= DemultiplexWorker.penalty self /\
     DemultiplexWorker.penalty self =
       match penalty with
       | Py.Int z => if 0 <? z then z else 10
       | Py.None_ => 10
       end) /\
  (bd <> [] -> penalty <> Py.Int 0 ->
   exists self, DemultiplexWorker.init default_rate bd er score penalty = Ok self).
Proof.
  rewrite init_unfold. split; [|split].
  - intros ->. destruct (py_min _) as [m|e] eqn:Hm.
    + simpl. eauto.
    + destruct bd; simpl in Hm; [injection Hm as <-; eauto | discriminate].
  - intros self. destruct (py_min _); [|discriminate].
    destruct (Z.eqb_spec (digits_or penalty 10) 0) as [|Hne]; [discriminate|].
    intros [= <-]. simpl. split.
    + pose proof (digits_or_nonneg penalty 10). lia.
    + destruct penalty as [|z]; simpl in *; [reflexivity|].
      destruct (Z.leb_spec 0 z), (Z.ltb_spec 0 z); lia.
  - intros Hbd Hp. destruct bd as [|[a p] bd]; [congruence|]. simpl py_min.
    simpl. destruct (Z.eqb_spec (digits_or penalty 10) 0) as [H0|Hne]; eauto.
    exfalso. destruct penalty as [|z]; simpl in H0; [discriminate|].
    destruct (Z.leb_spec 0 z); [subst; congruence | discriminate].
Qed.

Lemma penalty_validation_witness :
  (exists msg,
     DemultiplexWorker.init DemultiplexWorker.DEFAULT_ERROR_RATE
       [("ACGT", Some "out")] None (Py.Int 1) (Py.Int 0) = Raise (ValueError msg)) /\
  (exists self,
     DemultiplexWorker.init DemultiplexWorker.DEFAULT_ERROR_RATE
       [("ACGT", Some "out")] None (Py.Int 1) (Py.Int 7) = Ok self).
Proof.
  split.
  - apply (proj1 (penalty_validation DemultiplexWorker.DEFAULT_ERROR_RATE
                    [("ACGT", Some "out")] None (Py.Int 1) (Py.Int 0))).
    reflexivity.
  - apply (proj2 (proj2 (penalty_validation DemultiplexWorker.DEFAULT_ERROR_RATE
                           [("ACGT", Some "out")] None (Py.Int 1) (Py.Int 7)))).
    + discriminate.
    + discriminate.
Defined.

(** A worker given the penalty -1 is constructed, with the penalty 10. *)
Lemma negative_penalty_accepted :
  exists self,
    DemultiplexWorker.init DemultiplexWorker.DEFAULT_ERROR_RATE
      [("ACGT", Some "out")] None (Py.Int 1) (Py.Int (-1)) = Ok self /\
    DemultiplexWorker.penalty self = 10.
Proof. eexists. split; reflexivity. Qed.

(** ** The error rate in effect *)

(** The table [max_error] holds, for every adapter, the floor of its length
    times the error rate. *)
Lemma max_errors_lookup (er : Py.float) (adapters : list string)
    (acc m : gmap string Z) :
  DemultiplexDualIndexWorker.max_errors er adapters acc = Ok m ->
  (forall a, In a adapters ->
     bind (Py.mul_int_float (Py.len a) er) Py.floor = Ok (default 0 (m !! a))) /\
  (forall a, ~ In a adapters -> m !! a = acc !! a).
Proof.
  revert acc. induction adapters as [|x adapters IH]; intros acc H; simpl in H.
  - injection H as <-. split; [intros a []|reflexivity].
  - destruct (bind (Py.mul_int_float (Py.len x) er) Py.floor) as [v|e] eqn:Hv;
      simpl in H; [|discriminate].
    destruct (IH _ H) as [Hin Hout]. split.
    + intros a [<-|Ha]; [|now apply Hin].
      destruct (in_dec string_dec x adapters) as [Hx|Hx]; [now apply Hin|].
      rewrite (Hout x Hx), lookup_insert_eq. exact Hv.
    + intros a Ha. rewrite Hout by (intros Hn; apply Ha; now right).
      apply lookup_insert_ne. intros ->. apply Ha. now left.
Qed.

Lemma match_loop_in (self : DemultiplexWorker.t) (l : list string) (barcode adapter : string) :
  DemultiplexDualIndexWorker.match_loop self l barcode = Some adapter ->
  In adapter l /\
  editdistance.eval barcode adapter
  < default 0 (DemultiplexWorker.max_error self !! adapter).
Proof.
  induction l as [|a l IH]; simpl; [discriminate|].
  destruct (Z.ltb_spec (editdistance.eval barcode a)
              (default 0 (DemultiplexWorker.max_error self !! a))) as [Hlt|Hge].
  - intros [= <-]. auto.
  - intros H. apply IH in H as [Hin Hlt]. auto.
Qed.

(** C8, as amended.  An error rate of zero counts as no error rate given:
    the worker is the one constructed without an error rate, and the rate
    in effect is the default of its class.  The inline worker accepts an
    adapter when more than [min_match_length] bases match and the distance
    is at most [floor(|adapter| * 0.2)]; the dual-index worker holds the
    threshold [floor(|adapter| * 0.1)] for every adapter and matches a
    barcode only with an adapter whose threshold its edit distance is
    below. *)
Theorem zero_error_rate_is_default (sg_de_stats : Parasail.aligner) (s : bool)
    (bd : BarcodeDict) (score penalty : Py.arg) :
  DemultiplexInlineWorker.init bd (Some (S754_zero s)) score penalty
    = DemultiplexInlineWorker.init bd None score penalty /\
  DemultiplexDualIndexWorker.init bd (Some (S754_zero s)) score penalty
    = DemultiplexDualIndexWorker.init bd None score penalty /\
  (forall self,
     DemultiplexInlineWorker.init bd (Some (S754_zero s)) score penalty = Ok self ->
     DemultiplexWorker.error_rate self = DemultiplexInlineWorker.DEFAULT_ERROR_RATE /\
     forall read adapter,
       InlineSpec.accepted sg_de_stats self read adapter <->
       DemultiplexWorker.min_match_length self
         < Parasail.matches (InlineSpec.align sg_de_stats self adapter read) /\
       exists d m,
         InlineSpec.distance sg_de_stats self adapter read = Ok d /\
         bind (Py.mul_int_float (Py.len adapter) DemultiplexInlineWorker.DEFAULT_ERROR_RATE)
           Py.floor = Ok m /\
         Py.float_le_int d m = true) /\
  (forall self,
     DemultiplexDualIndexWorker.init bd (Some (S754_zero s)) score penalty = Ok self ->
     DemultiplexWorker.error_rate self = DemultiplexWorker.DEFAULT_ERROR_RATE /\
     (forall adapter, In adapter (DemultiplexWorker.adapters self) ->
        bind (Py.mul_int_float (Py.len adapter) DemultiplexWorker.DEFAULT_ERROR_RATE) Py.floor
        = Ok (threshold self adapter)) /\
     (forall barcode adapter,
        DemultiplexDualIndexWorker.match_adapters self barcode = Some adapter ->
        In adapter (DemultiplexWorker.adapters self) /\
        editdistance.eval barcode adapter < threshold self adapter)).
Proof.
  split; [reflexivity|]. split; [reflexivity|]. split.
  - unfold DemultiplexInlineWorker.init. rewrite init_unfold. intros self.
    destruct (py_min _); [|discriminate].
    destruct (_ =? 0); [discriminate|]. intros [= <-].
    split; [reflexivity|]. intros read adapter. reflexivity.
  - unfold DemultiplexDualIndexWorker.init. rewrite init_unfold. intros self.
    destruct (py_min _); [|discriminate].
    destruct (_ =? 0); [discriminate|]. simpl.
    destruct (DemultiplexDualIndexWorker.max_errors _ _ _) as [m|e] eqn:Hm;
      [|discriminate].
    simpl. intros [= <-]. simpl. split; [reflexivity|]. split.
    + apply (max_errors_lookup _ _ _ _ Hm).
    + intros barcode adapter H. now apply match_loop_in in H.
Qed.

Lemma zero_error_rate_is_default_witness :
  (exists self,
     DemultiplexInlineWorker.init [("ACGTA", Some "out")] (Some (S754_zero false))
       (Py.Int 1) (Py.Int 10) = Ok self /\
     DemultiplexWorker.error_rate self = DemultiplexInlineWorker.DEFAULT_ERROR_RATE) /\
  (exists self,
     DemultiplexDualIndexWorker.init [("AAAAAAAA+CCCCCCCC", Some "out")]
       (Some (S754_zero false)) (Py.Int 1) (Py.Int 10) = Ok self /\
     DemultiplexWorker.error_rate self = DemultiplexWorker.DEFAULT_ERROR_RATE).
Proof.
  split.
  - eexists. split; [reflexivity|].
    apply (proj1 (proj2 (proj2 (zero_error_rate_is_default SemiGlobal.sg_de_stats false
             [("ACGTA", Some "out")] (Py.Int 1) (Py.Int 10))))).
    reflexivity.
  - eexists. split; [reflexivity|].
    apply (proj2 (proj2 (proj2 (zero_error_rate_is_default SemiGlobal.sg_de_stats false
             [("AAAAAAAA+CCCCCCCC", Some "out")] (Py.Int 1) (Py.Int 10))))).
    reflexivity.
Defined.

(** With an error rate of zero given, the inline worker still allows one
    error on an adapter of five bases, and accepts the read [ACGTCGGGG]
    for the adapter [ACGTA] at distance one; the dual-index worker accepts
    a barcode one edit away from an adapter of twenty characters. *)
Lemma zero_error_rate_not_exact :
  (exists self,
     DemultiplexInlineWorker.init [("ACGTA", Some "out")] (Some (S754_zero false))
       (Py.Int 1) (Py.Int 10) = Ok self /\
     bind (Py.mul_int_float (Py.len "ACGTA") (DemultiplexWorker.error_rate self)) Py.floor
       = Ok 1 /\
     SemiGlobal.sg_de_stats "ACGTA" "ACGTCGGGG" 10 10 (DemultiplexWorker.score_matrix self)
       = Parasail.mkResult 4 (-6) 3 /\
     DemultiplexInlineWorker.trim_read SemiGlobal.sg_de_stats self
       (DemultiplexWorker.adapters self) (mkRead "r" "ACGTCGGGG" "IIIIIIIII")
       = Ok ("ACGTA", mkRead "r" "CGGGG" "IIIII")) /\
  (exists self,
     DemultiplexDualIndexWorker.init [("AAAAAAAAAAAAAAAAAAAA", Some "out")]
       (Some (S754_zero false)) (Py.Int 1) (Py.Int 10) = Ok self /\
     editdistance.eval "AAAAAAAAAAAAAAAAAAAC" "AAAAAAAAAAAAAAAAAAAA" = 1 /\
     DemultiplexDualIndexWorker.match_adapters self "AAAAAAAAAAAAAAAAAAAC"
       = Some "AAAAAAAAAAAAAAAAAAAA").
Proof.
  split; eexists; (split; [reflexivity|]); repeat split; vm_compute; reflexivity.
Qed.

(** ** The writer *)

(** A barcode the table does not hold has no entry after [open], so a
    write under it leaves every file as it is. *)
Lemma open_items_absent (items : BarcodeDict) (w w' : DemultiplexWriter.t)
    (files files' : Files) (barcode : string) :
  DemultiplexWriter.open_items items w files = Ok (w', files') ->
  ~ In barcode (map fst items) ->
  DemultiplexWriter.entries w' !! barcode = DemultiplexWriter.entries w !! barcode.
Proof.
  revert w files. induction items as [|[b prefix] items IH]; intros w files H Hn; simpl in H.
  - now injection H as <- <-.
  - assert (Hb : b <> barcode) by (intros ->; apply Hn; now left).
    assert (Hi : ~ In barcode (map fst items)) by (intros Hi; apply Hn; now right).
    destruct (DemultiplexWriter.opened _ prefix) as [fp|].
    + rewrite (IH _ _ H Hi). simpl. rewrite lookup_insert_ne by exact Hb.
      destruct (DemultiplexWriter.truthy_prefix prefix); simpl; [reflexivity|].
      now apply lookup_insert_ne.
    + destruct (DemultiplexWriter.paired_end_filenames prefix) as [out|e];
        simpl in H; [|discriminate].
      rewrite (IH _ _ H Hi). simpl. rewrite lookup_insert_ne by exact Hb.
      destruct (DemultiplexWriter.truthy_prefix prefix); simpl; [reflexivity|].
      now apply lookup_insert_ne.
Qed.

(** C4.  The writer meant to give a barcode without a prefix the entry
    [None], but goes on to the lines that open a file for it.  With the
    prefix [None] the file names cannot be built and [open] raises; with
    the empty prefix the files [.R1.fastq.gz] and [.R2.fastq.gz] are
    opened and a pair written under the barcode lands in them.  Only a
    barcode that is no key of the table is discarded. *)
Theorem writer_keeps_pairs_without_prefix (read1 read2 : Read) :
  (exists msg,
     DemultiplexWriter.open (DemultiplexWriter.init [("NO_MATCH", None)]) ∅
     = Raise (TypeError msg)) /\
  (exists writer files,
     DemultiplexWriter.open (DemultiplexWriter.init [("NO_MATCH", Some "")]) ∅
     = Ok (writer, files) /\
     files !! ".R1.fastq.gz" = Some [] /\
     files !! ".R2.fastq.gz" = Some [] /\
     DemultiplexWriter.write writer files "NO_MATCH" read1 read2 !! ".R1.fastq.gz"
     = Some [read1] /\
     DemultiplexWriter.write writer files "NO_MATCH" read1 read2 !! ".R2.fastq.gz"
     = Some [read2]) /\
  (forall barcode_dict writer files barcode,
     DemultiplexWriter.open (DemultiplexWriter.init barcode_dict) ∅ = Ok (writer, files) ->
     ~ In barcode (map fst barcode_dict) ->
     DemultiplexWriter.write writer files barcode read1 read2 = files).
Proof.
  split; [|split].
  - eexists. reflexivity.
  - eexists. eexists. split; [reflexivity|].
    repeat split; vm_compute; reflexivity.
  - intros bd writer files barcode Ho Hn.
    unfold DemultiplexWriter.write, DemultiplexWriter.get.
    unfold DemultiplexWriter.open in Ho. simpl in Ho.
    rewrite (open_items_absent _ _ _ _ _ _ Ho Hn). simpl.
    now rewrite lookup_empty.
Qed.

Lemma writer_keeps_pairs_without_prefix_witness :
  exists writer files,
    DemultiplexWriter.open (DemultiplexWriter.init [("ACGT", Some "out")]) ∅
    = Ok (writer, files) /\
    DemultiplexWriter.write writer files "NO_MATCH"
      (mkRead "r" "ACGT" "IIII") (mkRead "r" "TTTT" "IIII") = files.
Proof.
  eexists. eexists. split; [reflexivity|].
  apply (proj2 (proj2 (writer_keeps_pairs_without_prefix
                         (mkRead "r" "ACGT" "IIII") (mkRead "r" "TTTT" "IIII")))
           [("ACGT", Some "out")]).
  - reflexivity.
  - simpl. intros [H|[]]. discriminate H.
Defined.

(** ** Statistics *)

Lemma header_of_spec (header : option string) :
  (if Py.truthy_str (default "" header) then default "" header else "") = header_of header.
Proof. unfold header_of. now destruct header as [[|c s]|]. Qed.

(** C5, as amended.  [save_statistics] raises [KeyError] when the counter
    [total] is absent, and when [total] is not zero and the counter
    [unmatched] is absent; it returns [None] when [total] is zero, whether
    [unmatched] is there or not.  In each of these cases the CSV file has
    been opened for writing before, so it is on disk and holds the header
    row alone. *)
Theorem save_statistics_early_exits (counts : Counts) (adapters : list string)
    (disk : DemultiplexInline.Disk) (csv_file_path : string)
    (sample_name header : option string) :
  let out := DemultiplexInline.save_statistics counts adapters disk csv_file_path
               sample_name header in
  let header_only := Some [DemultiplexInline.header_row (header_of header)] in
  (counts !! "total" = None ->
   snd out = Raise (KeyError "Total read count is missing.") /\
   fst out !! csv_file_path = header_only) /\
  (counts !! "total" = Some 0 ->
   snd out = Ok None /\ fst out !! csv_file_path = header_only) /\
  (forall total, counts !! "total" = Some total -> total <> 0 ->
   counts !! "unmatched" = None ->
   snd out = Raise (KeyError "Unmatched read count is missing.") /\
   fst out !! csv_file_path = header_only).
Proof.
  unfold DemultiplexInline.save_statistics. rewrite header_of_spec. simpl.
  split; [|split].
  - intros ->. simpl. now rewrite lookup_insert_eq.
  - intros ->. simpl. now rewrite lookup_insert_eq.
  - intros total -> Hne ->. apply Z.eqb_neq in Hne. rewrite Hne. simpl.
    now rewrite lookup_insert_eq.
Qed.

Lemma save_statistics_early_exits_witness :
  snd (DemultiplexInline.save_statistics {["total" := 0]} ["ACGT"] ∅ "stats.csv" None None)
  = Ok None /\
  fst (DemultiplexInline.save_statistics {["total" := 0]} ["ACGT"] ∅ "stats.csv" None None)
    !! "stats.csv"
  = Some [DemultiplexInline.header_row ""].
Proof.
  apply (proj1 (proj2 (save_statistics_early_exits {["total" := 0]} ["ACGT"] ∅
                         "stats.csv" None None))).
  reflexivity.
Defined.

(** On an empty disk, without the counter [total] the call raises and
    leaves the file [stats.csv] behind, with its header row; with [total]
    at zero it returns [None] and leaves the same file behind, and it does
    so without raising although the counter [unmatched] is absent. *)
Lemma save_statistics_leaves_file :
  (exists msg rows,
     DemultiplexInline.save_statistics ∅ ["ACGT"] ∅ "stats.csv" None None
     = ({["stats.csv" := rows]}, Raise (KeyError msg)) /\ length rows = 1%nat) /\
  (exists rows,
     ({["total" := 0]} : Counts) !! "unmatched" = None /\
     DemultiplexInline.save_statistics {["total" := 0]} ["ACGT"] ∅ "stats.csv" None None
     = ({["stats.csv" := rows]}, Ok None) /\ length rows = 1%nat).
Proof.
  split.
  - eexists. eexists. split; reflexivity.
  - eexists. split; [reflexivity|]. split; reflexivity.
Qed.

(** ** Inferring the adapters *)

Lemma split_chars_cons (sep : ascii) (l : list ascii) :
  exists w ws, Py.split_chars sep l = w :: ws.
Proof.
  induction l as [|c l (w & ws & IH)]; simpl; [eauto|].
  destruct (Ascii.eqb c sep); [eauto|]. rewrite IH. eauto.
Qed.

Lemma last_str_split (sep : ascii) (s : string) :
  exists b, Py.last_str (Py.split sep s) = Ok b.
Proof.
  unfold Py.last_str, Py.split.
  destruct (split_chars_cons sep (Py.chars s)) as (w & ws & ->).
  destruct (last (map Py.str (w :: ws))) as [b|] eqn:Hl; [eauto|].
  apply last_None in Hl. discriminate Hl.
Qed.

(** A string the pattern matches holds a plus sign, so [convert_barcode]
    finds both parts: canonicalising never raises. *)
Lemma canonicalise_ok (barcode : string) :
  exists c, IlluminaFASTQ.canonicalise barcode = Ok c.
Proof.
  unfold IlluminaFASTQ.canonicalise, IlluminaFASTQ.dual_index_match.
  destruct (IlluminaFASTQ.bases 8 (Py.chars barcode)) as [[|c l]|] eqn:H7; eauto.
  destruct (Ascii.eqb_spec c "+") as [->|]; simpl; eauto.
  destruct (bool_decide _); eauto.
  apply bases_some in H7 as (i7 & Hb & _ & B7).
  unfold IlluminaFASTQ.convert_barcode, Py.split. rewrite Hb.
  rewrite split_at_sep by now apply bases_no_plus.
  destruct (split_chars_cons "+" l) as (w & ws & ->). simpl. eauto.
Qed.

Lemma counted_insert (m : Counts) (k : string) :
  DemultiplexDualIndex.counted (<[k := FASTQWorker.get m k + 1]> m)
  = DemultiplexDualIndex.counted m + 1.
Proof.
  unfold DemultiplexDualIndex.counted, FASTQWorker.get.
  destruct (m !! k) as [v|] eqn:Hk; simpl.
  - rewrite <- insert_delete_eq.
    rewrite map_fold_insert_L; [|intros; lia|apply lookup_delete_eq].
    rewrite (map_fold_delete_L _ _ k v m); [lia|intros; lia|exact Hk].
  - rewrite map_fold_insert_L; [lia|intros; lia|exact Hk].
Qed.

(** The loop counts a record before it looks at [counter], so from
    [counter] on it counts up to [3001 - counter] records. *)
Lemma count_barcodes_counted (fastq_in : list Read) (barcode_counts : Counts)
    (counter : Z) :
  counter <= 3000 ->
  exists counts,
    DemultiplexDualIndex.count_barcodes fastq_in barcode_counts counter = Ok counts /\
    DemultiplexDualIndex.counted counts
    = DemultiplexDualIndex.counted barcode_counts
      + Z.min (Z.of_nat (length fastq_in)) (3001 - counter).
Proof.
  revert barcode_counts counter.
  induction fastq_in as [|read1 fastq_in IH]; intros barcode_counts counter Hc.
  - exists barcode_counts. split; [reflexivity|]. simpl length. lia.
  - cbn [DemultiplexDualIndex.count_barcodes].
    destruct (last_str_split ":" (Py.strip (name read1))) as [b ->].
    cbn [bind]. destruct (canonicalise_ok b) as [c ->]. cbn [bind].
    destruct (Z.ltb_spec 3000 (counter + 1)) as [Hlt|Hge].
    + eexists. split; [reflexivity|]. rewrite counted_insert.
      cbn [length]. lia.
    + destruct (IH (<[c := FASTQWorker.get barcode_counts c + 1]> barcode_counts)
                  (counter + 1)) as (counts & -> & Hn); [lia|].
      exists counts. split; [reflexivity|]. rewrite Hn, counted_insert.
      cbn [length]. lia.
Qed.

(** C9.  On an R1 file of more than 3,000 records the loop counts 3,001 of
    them: the record that takes [counter] past 3000 has already been
    counted when the loop is left.  Here the file holds 3,005 records
    with the barcode [AAAAAAAA+CCCCCCCC]. *)
Theorem determine_adapters_counts_3001 :
  exists counts,
    DemultiplexDualIndex.count_barcodes
      (replicate 3005 (mkRead "M0:1:FC:1:1:1:1 1:N:0:AAAAAAAA+CCCCCCCC" "ACGT" "IIII")) ∅ 0
    = Ok counts /\
    DemultiplexDualIndex.counted counts = 3001.
Proof.
  destruct (count_barcodes_counted
              (replicate 3005 (mkRead "M0:1:FC:1:1:1:1 1:N:0:AAAAAAAA+CCCCCCCC" "ACGT" "IIII"))
              ∅ 0) as (counts & H & Hn); [lia|].
  exists counts. split; [exact H|].
  rewrite Hn, length_replicate. reflexivity.
Qed.

(** ** Inline matching *)

Section InlineMatching.

Variable sg_de_stats : Parasail.aligner.
Variable self : DemultiplexWorker.t.

Local Abbreviation trim_read := (DemultiplexInlineWorker.trim_read sg_de_stats self).
Local Abbreviation accepted := (InlineSpec.accepted sg_de_stats self).
Local Abbreviation rejected := (InlineSpec.rejected sg_de_stats self).
Local Abbreviation trimmed := (InlineSpec.trimmed sg_de_stats self).

(** [continue]: a rejected adapter hands the read to the next one. *)
Lemma trim_read_continue (read : Read) (adapter : string) (rest : list string) :
  rejected read adapter ->
  trim_read (adapter :: rest) read = trim_read rest read.
Proof.
  intros [Hm|(d & m & Hd & Hmax & Hle)]; cbn [DemultiplexInlineWorker.trim_read].
  - apply Z.leb_le in Hm. unfold InlineSpec.align, InlineSpec.probe in Hm.
    now rewrite Hm.
  - destruct (_ <=? _); [reflexivity|].
    unfold InlineSpec.distance, InlineSpec.align, InlineSpec.probe in Hd.
    unfold InlineSpec.max_distance in Hmax.
    rewrite Hd. cbn [bind]. rewrite Hmax. cbn [bind]. now rewrite Hle.
Qed.

(** [break]: an accepted adapter ends the loop with the read trimmed. *)
Lemma trim_read_break (read : Read) (adapter : string) (rest : list string) :
  accepted read adapter ->
  trim_read (adapter :: rest) read = Ok (adapter, trimmed read adapter).
Proof.
  intros (Hm & d & m & Hd & Hmax & Hle); cbn [DemultiplexInlineWorker.trim_read].
  apply Z.leb_gt in Hm. unfold InlineSpec.align, InlineSpec.probe in Hm.
  rewrite Hm.
  unfold InlineSpec.distance, InlineSpec.align, InlineSpec.probe in Hd.
  unfold InlineSpec.max_distance in Hmax.
  rewrite Hd. cbn [bind]. rewrite Hmax. cbn [bind]. now rewrite Hle.
Qed.

(** What the test of one adapter comes to: the adapter is rejected, it is
    accepted, or the test raises. *)
Lemma adapter_test (read : Read) (adapter : string) :
  rejected read adapter \/ accepted read adapter \/
  (DemultiplexWorker.min_match_length self
     < Parasail.matches (InlineSpec.align sg_de_stats self adapter read) /\
   (is_ok (InlineSpec.distance sg_de_stats self adapter read) = false \/
    is_ok (InlineSpec.max_distance self adapter) = false)).
Proof.
  unfold InlineSpec.rejected, InlineSpec.accepted.
  destruct (Z.le_gt_cases (Parasail.matches (InlineSpec.align sg_de_stats self adapter read))
              (DemultiplexWorker.min_match_length self)) as [Hm|Hm]; [left; now left|].
  destruct (InlineSpec.distance sg_de_stats self adapter read) as [d|e] eqn:Hd;
    [|right; right; auto].
  destruct (InlineSpec.max_distance self adapter) as [m|e] eqn:Hmax;
    [|right; right; auto].
  destruct (Py.float_le_int d m) eqn:Hle.
  - right. left. eauto 10.
  - left. right. eauto 10.
Qed.

(** No adapter is both accepted and rejected. *)
Lemma accepted_not_rejected (read : Read) (adapter : string) :
  accepted read adapter -> ~ rejected read adapter.
Proof.
  intros (Hm & d & m & Hd & Hmax & Hle) [Hr|(d' & m' & Hd' & Hmax' & Hle')]; [lia|].
  congruence.
Qed.

Lemma trim_read_all_rejected (read : Read) (l : list string) :
  Forall (rejected read) l -> trim_read l read = Ok ("", read).
Proof.
  induction 1 as [|a l Ha _ IH]; [reflexivity|].
  now rewrite trim_read_continue.
Qed.

Lemma trim_read_first_accepted (read : Read) (before after : list string) (adapter : string) :
  Forall (rejected read) before -> accepted read adapter ->
  trim_read (before ++ adapter :: after) read = Ok (adapter, trimmed read adapter).
Proof.
  induction 1 as [|a l Ha _ IH]; intros Hacc; simpl app.
  - now apply trim_read_break.
  - rewrite trim_read_continue by exact Ha. now apply IH.
Qed.

(** A read that comes back from the loop comes back as it went in, every
    adapter rejected, or trimmed for the first adapter accepted. *)
Lemma trim_read_returns (read : Read) (l : list string) (adapter : string) (read' : Read) :
  trim_read l read = Ok (adapter, read') ->
  (adapter = "" /\ read' = read /\ Forall (rejected read) l) \/
  (exists before after,
     l = (before ++ adapter :: after)%list /\ Forall (rejected read) before /\
     accepted read adapter /\ read' = trimmed read adapter).
Proof.
  induction l as [|a l IH]; intros H.
  - injection H as <- <-. left. auto.
  - destruct (adapter_test read a) as [Hr|[Ha|(Hm & Hraise)]].
    + rewrite trim_read_continue in H by exact Hr.
      destruct (IH H) as [(-> & -> & Hall)|(before & after & -> & Hb & Hacc & ->)].
      * left. auto.
      * right. exists (a :: before), after. auto.
    + rewrite trim_read_break in H by exact Ha. injection H as <- <-.
      right. exists [], l. auto.
    + exfalso. cbn [DemultiplexInlineWorker.trim_read] in H.
      apply Z.leb_gt in Hm. unfold InlineSpec.align, InlineSpec.probe in Hm.
      rewrite Hm in H.
      unfold InlineSpec.distance, InlineSpec.max_distance,
        InlineSpec.align, InlineSpec.probe in Hraise.
      destruct (Py.truediv _ _) as [d|e]; [|discriminate H].
      cbn [bind] in H.
      destruct Hraise as [Hraise|Hraise]; [discriminate Hraise|].
      destruct (bind (Py.mul_int_float _ _) Py.floor) as [m|e]; [discriminate Hraise|].
      discriminate H.
Qed.

(** The adapter a read is matched with is one of the adapters of the
    worker, or the empty string. *)
Lemma trim_read_adapter (read : Read) (l : list string) (adapter : string) (read' : Read) :
  trim_read l read = Ok (adapter, read') -> adapter = "" \/ In adapter l.
Proof.
  intros H. apply trim_read_returns in H as [(-> & _)|(before & after & -> & _)]; [now left|].
  right. apply in_elt.
Qed.

(** The loop returns whenever the two floats of every test exist. *)
Lemma trim_read_total (read : Read) (l : list string) :
  Forall (fun adapter =>
            is_ok (InlineSpec.distance sg_de_stats self adapter read) = true /\
            is_ok (InlineSpec.max_distance self adapter) = true) l ->
  exists adapter read', trim_read l read = Ok (adapter, read').
Proof.
  induction 1 as [|a l [Hd Hm] _ (adapter & read' & IH)]; [eexists; eexists; reflexivity|].
  destruct (adapter_test read a) as [Hr|[Ha|(_ & [Hraise|Hraise])]].
  - rewrite trim_read_continue by exact Hr. eauto.
  - rewrite trim_read_break by exact Ha. eauto.
  - congruence.
  - congruence.
Qed.

End InlineMatching.

(** [round_half n] is the integer nearest to [n / 2], the even one of the
    two when [n] is odd. *)
Lemma round_half_spec (n : Z) :
  2 * Py.round_half n = n \/
  (Z.even (Py.round_half n) = true /\
   (2 * Py.round_half n = n + 1 \/ 2 * Py.round_half n = n - 1)).
Proof.
  unfold Py.round_half.
  pose proof (Z.div_mod n 2 ltac:(lia)) as Hdm.
  pose proof (Z.mod_pos_bound n 2 ltac:(lia)) as Hb.
  destruct (Z.eqb_spec (n mod 2) 0) as [H0|H0]; [left; lia|].
  right. destruct (Z.even (n / 2)) eqn:He.
  - split; [exact He|]. right. lia.
  - split; [|left; lia].
    rewrite Z.even_add, He. reflexivity.
Qed.

(** [min] returns an element of the list that no element is below. *)
Lemma py_min_spec (l : list Z) (m : Z) :
  py_min l = Ok m -> In m l /\ Forall (fun x => m <= x) l.
Proof.
  destruct l as [|x l]; [discriminate|]. simpl. intros [= <-].
  revert x. induction l as [|y l IH]; intros x; simpl.
  - split; [now left|]. constructor; [lia|constructor].
  - destruct (IH (Z.min x y)) as [Hin Hall]. split.
    + destruct Hin as [Hin|Hin]; [|right; now right].
      rewrite <- Hin.
      destruct (Z.min_spec x y) as [[_ Hm]|[_ Hm]]; rewrite Hm;
        [now left | right; now left].
    + inversion Hall as [|? ? H1 H2]; subst.
      constructor; [lia|]. constructor; [lia|]. exact H2.
Qed.

(** C1.  A worker that has been constructed compares the matches of an
    alignment with [min_match_length], the [round] of half the length of
    its shortest adapter.  A read leaves [trim_adapters] matched with the
    first adapter of the table that is accepted against its probe - more
    matches than [min_match_length] and a distance of at most
    [floor(|adapter| * error_rate)] - with its sequence and its qualities
    cut to [[end_ref + 1 :]], or with the empty string and as it was when
    every adapter is rejected; the two reads of a pair are matched
    independently.  The loop returns whenever the distance and the
    threshold of every adapter exist as numbers. *)
Theorem inline_acceptance (sg_de_stats : Parasail.aligner) (bd : BarcodeDict)
    (er : option Py.float) (score penalty : Py.arg) (self : DemultiplexWorker.t) :
  DemultiplexInlineWorker.init bd er score penalty = Ok self ->
  DemultiplexWorker.adapters self = map fst bd /\
  (exists shortest,
     In shortest (map Py.len (DemultiplexWorker.adapters self)) /\
     Forall (fun adapter => shortest <= Py.len adapter) (DemultiplexWorker.adapters self) /\
     DemultiplexWorker.min_match_length self = Py.round_half shortest) /\
  (forall read adapter read',
     DemultiplexInlineWorker.trim_read sg_de_stats self
       (DemultiplexWorker.adapters self) read = Ok (adapter, read') <->
     InlineSpec.first_accepted sg_de_stats self read adapter read') /\
  (forall read1 read2 adapter1 adapter2 read1' read2',
     DemultiplexInlineWorker.trim_adapters sg_de_stats self read1 read2
       = Ok (adapter1, adapter2, read1', read2') <->
     InlineSpec.first_accepted sg_de_stats self read1 adapter1 read1' /\
     InlineSpec.first_accepted sg_de_stats self read2 adapter2 read2') /\
  (forall read,
     Forall (fun adapter =>
               is_ok (InlineSpec.distance sg_de_stats self adapter read) = true /\
               is_ok (InlineSpec.max_distance self adapter) = true)
       (DemultiplexWorker.adapters self) ->
     exists adapter read',
       DemultiplexInlineWorker.trim_read sg_de_stats self
         (DemultiplexWorker.adapters self) read = Ok (adapter, read')).
Proof.
  intros Hinit.
  assert (Htrim : forall read adapter read',
     DemultiplexInlineWorker.trim_read sg_de_stats self
       (DemultiplexWorker.adapters self) read = Ok (adapter, read') <->
     InlineSpec.first_accepted sg_de_stats self read adapter read').
  { intros read adapter read'. split.
    - apply trim_read_returns.
    - intros [(-> & -> & Hall)|(before & after & -> & Hb & Hacc & ->)].
      + now apply trim_read_all_rejected.
      + now apply trim_read_first_accepted. }
  unfold DemultiplexInlineWorker.init in Hinit. rewrite init_unfold in Hinit.
  destruct (py_min _) as [shortest|] eqn:Hmin; [|discriminate].
  destruct (_ =? 0); [discriminate|]. injection Hinit as Hself.
  split; [now subst self|]. split; [|split; [|split]]; [| | |intros read; apply trim_read_total].
  - exists shortest. apply py_min_spec in Hmin as [Hin Hall].
    subst self. cbn [DemultiplexWorker.adapters DemultiplexWorker.min_match_length].
    split; [exact Hin|]. split; [|reflexivity].
    now rewrite Forall_map in Hall.
  - exact Htrim.
  - intros read1 read2 a1 a2 r1 r2. rewrite <- !Htrim.
    unfold DemultiplexInlineWorker.trim_adapters.
    destruct (DemultiplexInlineWorker.trim_read _ _ _ read1) as [[x1 y1]|e1]; cbn [bind].
    + destruct (DemultiplexInlineWorker.trim_read _ _ _ read2) as [[x2 y2]|e2]; cbn [bind fst snd].
      * split; [intros [= -> -> -> ->]; auto | intros [[= -> ->] [= -> ->]]; auto].
      * split; [discriminate | intros [_ H]; discriminate H].
    + split; [discriminate | intros [H _]; discriminate H].
Qed.

Lemma inline_acceptance_witness :
  exists self,
    DemultiplexInlineWorker.init [("AAAA", Some "out")] None (Py.Int 1) (Py.Int 10) = Ok self /\
    DemultiplexWorker.min_match_length self = 2 /\
    InlineSpec.first_accepted SemiGlobal.sg_de_stats self
      (mkRead "r" "AAAACGT" "IIIIIII") "AAAA" (mkRead "r" "CGT" "III").
Proof.
  eexists. split; [reflexivity|]. split; [reflexivity|].
  apply (proj1 (proj2 (proj2 (inline_acceptance SemiGlobal.sg_de_stats
           [("AAAA", Some "out")] None (Py.Int 1) (Py.Int 10) _ eq_refl)))).
  vm_compute. reflexivity.
Defined.

(** ** A pair in the inline worker *)

Section InlinePair.

Variable sg_de_stats : Parasail.aligner.
Variable self : DemultiplexWorker.t.

(** [process_read_pair] returns the two reads as [trim_adapters] left
    them and the barcode chosen from the two adapters. *)
Lemma process_read_pair_returns (read1 read2 read1' read2' : Read)
    (counts counts' : Counts) (barcode : string) :
  DemultiplexInlineWorker.process_read_pair sg_de_stats self (read1, read2) counts
    = Ok (barcode, read1', read2', counts') ->
  exists adapter1 adapter2,
    ReadPair.valid read1 read2 = true /\
    DemultiplexInlineWorker.trim_read sg_de_stats self
      (DemultiplexWorker.adapters self) read1 = Ok (adapter1, read1') /\
    DemultiplexInlineWorker.trim_read sg_de_stats self
      (DemultiplexWorker.adapters self) read2 = Ok (adapter2, read2') /\
    barcode = pair_barcode adapter1 adapter2.
Proof.
  unfold DemultiplexInlineWorker.process_read_pair, ReadPair.reads,
    DemultiplexInlineWorker.trim_adapters, pair_barcode.
  destruct (ReadPair.valid read1 read2); [|discriminate]. cbn [bind].
  destruct (DemultiplexInlineWorker.trim_read _ _ _ read1) as [[a1 r1]|]; [|discriminate].
  cbn [bind].
  destruct (DemultiplexInlineWorker.trim_read _ _ _ read2) as [[a2 r2]|]; [|discriminate].
  cbn [bind fst snd]. intros H. exists a1, a2.
  destruct (Py.truthy_str (if Py.len a2 <? Py.len a1 then a1 else a2));
    injection H as <- <- <- <-; auto.
Qed.

End InlinePair.

(** C10.  The reads a pair is emitted with are the reads as trimmed, each
    for the first adapter accepted for it alone: a read matched with an
    adapter has that adapter cut off, sequence and qualities, whichever
    adapter the pair is filed under.  The pair is filed under the adapter
    of R1 when that is the longer one and under the adapter of R2
    otherwise, so of two different adapters the one that loses has still
    been removed from its read. *)
Theorem trimming_independent_of_bucket (sg_de_stats : Parasail.aligner)
    (self : DemultiplexWorker.t) (read1 read2 read1' read2' : Read)
    (counts counts' : Counts) (barcode : string) :
  DemultiplexInlineWorker.process_read_pair sg_de_stats self (read1, read2) counts
    = Ok (barcode, read1', read2', counts') ->
  exists adapter1 adapter2,
    InlineSpec.first_accepted sg_de_stats self read1 adapter1 read1' /\
    InlineSpec.first_accepted sg_de_stats self read2 adapter2 read2' /\
    (adapter1 <> "" ->
     InlineSpec.accepted sg_de_stats self read1 adapter1 /\
     read1' = InlineSpec.trimmed sg_de_stats self read1 adapter1) /\
    (adapter2 <> "" ->
     InlineSpec.accepted sg_de_stats self read2 adapter2 /\
     read2' = InlineSpec.trimmed sg_de_stats self read2 adapter2) /\
    (Py.len adapter2 < Py.len adapter1 -> barcode = adapter1) /\
    (Py.len adapter1 <= Py.len adapter2 -> adapter2 <> "" -> barcode = adapter2).
Proof.
  intros H. apply process_read_pair_returns in H as (a1 & a2 & _ & H1 & H2 & ->).
  apply trim_read_returns in H1, H2. exists a1, a2.
  split; [exact H1|]. split; [exact H2|]. split; [|split; [|split]].
  - intros Hne. destruct H1 as [(-> & _)|(? & ? & _ & _ & Ha & Ht)]; [congruence|auto].
  - intros Hne. destruct H2 as [(-> & _)|(? & ? & _ & _ & Ha & Ht)]; [congruence|auto].
  - intros Hlt. unfold pair_barcode.
    apply Z.ltb_lt in Hlt. rewrite Hlt.
    destruct a1; [|reflexivity].
    apply Z.ltb_lt in Hlt. unfold Py.len in Hlt. simpl in Hlt. lia.
  - intros Hle Hne. unfold pair_barcode.
    apply Z.ltb_ge in Hle. rewrite Hle.
    destruct a2; [congruence|reflexivity].
Qed.

Lemma trimming_independent_of_bucket_witness :
  exists self,
    DemultiplexInlineWorker.init [("AAAA", Some "a"); ("GGGGGG", Some "g")]
      None (Py.Int 1) (Py.Int 10) = Ok self /\
    exists adapter1 adapter2,
      InlineSpec.first_accepted SemiGlobal.sg_de_stats self
        (mkRead "r" "AAAACGTACGT" "IIIIIIIIIII") adapter1 (mkRead "r" "CGTACGT" "IIIIIII") /\
      InlineSpec.first_accepted SemiGlobal.sg_de_stats self
        (mkRead "r" "GGGGGGCGTA" "IIIIIIIIII") adapter2 (mkRead "r" "CGTA" "IIII") /\
      (adapter1 <> "" ->
       InlineSpec.accepted SemiGlobal.sg_de_stats self
         (mkRead "r" "AAAACGTACGT" "IIIIIIIIIII") adapter1 /\
       mkRead "r" "CGTACGT" "IIIIIII"
       = InlineSpec.trimmed SemiGlobal.sg_de_stats self
           (mkRead "r" "AAAACGTACGT" "IIIIIIIIIII") adapter1) /\
      (adapter2 <> "" ->
       InlineSpec.accepted SemiGlobal.sg_de_stats self
         (mkRead "r" "GGGGGGCGTA" "IIIIIIIIII") adapter2 /\
       mkRead "r" "CGTA" "IIII"
       = InlineSpec.trimmed SemiGlobal.sg_de_stats self
           (mkRead "r" "GGGGGGCGTA" "IIIIIIIIII") adapter2) /\
      (Py.len adapter2 < Py.len adapter1 -> "GGGGGG" = adapter1) /\
      (Py.len adapter1 <= Py.len adapter2 -> adapter2 <> "" -> "GGGGGG" = adapter2).
Proof.
  eexists. split; [reflexivity|].
  match goal with
  | |- exists a1 a2, InlineSpec.first_accepted _ ?w _ _ _ /\ _ =>
      apply (trimming_independent_of_bucket SemiGlobal.sg_de_stats w
               (mkRead "r" "AAAACGTACGT" "IIIIIIIIIII") (mkRead "r" "GGGGGGCGTA" "IIIIIIIIII")
               (mkRead "r" "CGTACGT" "IIIIIII") (mkRead "r" "CGTA" "IIII")
               ∅
               (<["matched" := 1]> (<["GGGGGG" := 1]> (<["GGGGGG_2" := 1]> (<["AAAA_1" := 1]> ∅))))
               "GGGGGG")
  end.
  vm_compute. reflexivity.
Defined.

(** ** Counters *)

Lemma get_add_count_eq (counts : Counts) (key : string) (val : Z) :
  FASTQWorker.get (FASTQWorker.add_count counts key val) key
  = FASTQWorker.get counts key + val.
Proof. unfold FASTQWorker.add_count, FASTQWorker.get at 1. now rewrite lookup_insert_eq. Qed.

Lemma get_add_count_ne (counts : Counts) (key key' : string) (val : Z) :
  key <> key' ->
  FASTQWorker.get (FASTQWorker.add_count counts key val) key'
  = FASTQWorker.get counts key'.
Proof.
  intros Hne. unfold FASTQWorker.add_count, FASTQWorker.get at 1.
  now rewrite lookup_insert_ne.
Qed.

(** Counting under a key that is none of the three names leaves the three
    counters as they are. *)
Lemma get_add_count_other (counts : Counts) (key name : string) (val : Z) :
  ~ counter_name key -> counter_name name ->
  FASTQWorker.get (FASTQWorker.add_count counts key val) name
  = FASTQWorker.get counts name.
Proof. intros Hk Hn. apply get_add_count_ne. intros ->. contradiction. Qed.

Lemma get_new_counts (key : string) : FASTQWorker.get FASTQWorker.new_counts key = 0.
Proof. reflexivity. Qed.

Ltac peel_suffix a H :=
  repeat (destruct a as [|? a]; simpl in H; [discriminate H | injection H as _ H]);
  destruct a; discriminate H.

(** The keys [BARCODE_1] and [BARCODE_2] are none of the three names. *)
Lemma suffix_1_not_counter (a : string) : ~ counter_name (a ++ "_1").
Proof. intros [H|[H|H]]; peel_suffix a H. Qed.

Lemma suffix_2_not_counter (a : string) : ~ counter_name (a ++ "_2").
Proof. intros [H|[H|H]]; peel_suffix a H. Qed.

(** A barcode of the data model - bases, and a plus sign between the two
    indices - is none of the three names. *)
Lemma barcode_not_counter (a : string) :
  forallb (fun c => IlluminaFASTQ.is_base c || Ascii.eqb c "+") (Py.chars a) = true ->
  ~ counter_name a.
Proof. intros Hb H. destruct H as [H|[H|H]]; subst a; discriminate Hb. Qed.


(** ** A run of a worker *)

Section Run.

Variable process_read_pair : Read * Read -> Counts -> result (string * Read * Read * Counts).
Hypothesis one_pair : counts_one_pair process_read_pair.

Lemma process_batch_counts (writer : DemultiplexWriter.t) (reads : list (Read * Read))
    (counts counts' : Counts) (files files' : Files) :
  DemultiplexWorker.process_batch process_read_pair writer reads counts files
    = Ok (counts', files') ->
  FASTQWorker.get counts' "total" = FASTQWorker.get counts "total" /\
  FASTQWorker.get counts' "matched" + FASTQWorker.get counts' "unmatched"
  = FASTQWorker.get counts "matched" + FASTQWorker.get counts "unmatched"
    + Z.of_nat (length reads).
Proof.
  revert counts files. induction reads as [|read_pair reads IH]; intros counts files H.
  - injection H as <- <-. simpl. lia.
  - cbn [DemultiplexWorker.process_batch] in H.
    destruct (process_read_pair read_pair counts) as [[[[b r1] r2] c1]|e] eqn:Hp;
      [|discriminate H].
    cbn [bind] in H. apply IH in H as [Ht Hm].
    apply one_pair in Hp as [Ht1 Hm1]. cbn [length]. lia.
Qed.

(** The loop keeps [total - (matched + unmatched)] where it was, adds the
    length of every batch to [total] and puts it on the progress queue. *)
Lemma run_counts (writer : DemultiplexWriter.t)
    (in_queue : list (option (list (Read * Read))))
    (counts counts' : Counts) (files files' : Files) (out out' : list Z) :
  DemultiplexWorker.run process_read_pair writer in_queue counts files out
    = Returned counts' files' out' ->
  FASTQWorker.get counts' "total"
    - (FASTQWorker.get counts' "matched" + FASTQWorker.get counts' "unmatched")
  = FASTQWorker.get counts "total"
    - (FASTQWorker.get counts "matched" + FASTQWorker.get counts "unmatched") /\
  FASTQWorker.get counts' "total"
  = FASTQWorker.get counts "total" + Z.of_nat (length (concat (batches in_queue))) /\
  out' = (out ++ map (fun reads => Z.of_nat (length reads)) (batches in_queue))%list.
Proof.
  revert counts files out.
  induction in_queue as [|[reads|] in_queue IH]; intros counts files out H;
    cbn [DemultiplexWorker.run] in H.
  - discriminate H.
  - destruct (DemultiplexWorker.process_batch _ _ _ _ _) as [[c1 f1]|e] eqn:Hb;
      [|discriminate H].
    apply process_batch_counts in Hb as [Ht Hm].
    apply IH in H as (Hd & Htot & Hout).
    rewrite get_add_count_eq in Hd, Htot.
    rewrite !get_add_count_ne in Hd by discriminate.
    cbn [batches concat map]. rewrite length_app, Hout, <- app_assoc.
    split; [lia|]. split; [lia|reflexivity].
  - injection H as <- <- <-. cbn [batches concat map length].
    rewrite app_nil_r. split; [lia|]. split; [lia|reflexivity].
Qed.

Lemma start_counts (self : DemultiplexWorker.t)
    (in_queue : list (option (list (Read * Read))))
    (counts : Counts) (files files' : Files) (out : list Z) :
  DemultiplexWorker.start process_read_pair self FASTQWorker.new_counts files in_queue
    = Returned counts files' out ->
  FASTQWorker.get counts "total"
  = FASTQWorker.get counts "matched" + FASTQWorker.get counts "unmatched" /\
  FASTQWorker.get counts "total" = Z.of_nat (length (concat (batches in_queue))) /\
  out = map (fun reads => Z.of_nat (length reads)) (batches in_queue).
Proof.
  unfold DemultiplexWorker.start.
  destruct (DemultiplexWriter.open _ _) as [[writer files0]|e]; [|discriminate].
  destruct (DemultiplexWorker.run _ _ _ _ _ _) as [c f o| |] eqn:Hrun; try discriminate.
  destruct (DemultiplexWriter.close writer); [|discriminate].
  intros [= <- <- <-]. apply run_counts in Hrun as (Hd & Htot & Hout).
  rewrite (get_new_counts "total"), (get_new_counts "matched"),
    (get_new_counts "unmatched") in Hd.
  rewrite (get_new_counts "total") in Htot.
  split; [lia|]. split; [lia|exact Hout].
Qed.

End Run.

(** ** One pair and the three counters *)

Lemma counter_name_total : counter_name "total".
Proof. now left. Qed.

Lemma counter_name_matched : counter_name "matched".
Proof. right. now left. Qed.

Lemma counter_name_unmatched : counter_name "unmatched".
Proof. right. now right. Qed.

Lemma add_if_other (counts : Counts) (b : bool) (key name : string) :
  ~ counter_name key -> counter_name name ->
  FASTQWorker.get (if b then FASTQWorker.add_count counts key 1 else counts) name
  = FASTQWorker.get counts name.
Proof. intros Hk Hn. destruct b; [now apply get_add_count_other | reflexivity]. Qed.

(** Counting a match: [matched] goes up by one, the other two stay. *)
Lemma count_matched (counts : Counts) :
  FASTQWorker.get (FASTQWorker.add_count counts "matched" 1) "total"
  = FASTQWorker.get counts "total" /\
  FASTQWorker.get (FASTQWorker.add_count counts "matched" 1) "matched"
  = FASTQWorker.get counts "matched" + 1 /\
  FASTQWorker.get (FASTQWorker.add_count counts "matched" 1) "unmatched"
  = FASTQWorker.get counts "unmatched".
Proof.
  rewrite get_add_count_eq, !get_add_count_ne by discriminate. auto.
Qed.

Lemma count_unmatched (counts : Counts) :
  FASTQWorker.get (FASTQWorker.add_count counts "unmatched" 1) "total"
  = FASTQWorker.get counts "total" /\
  FASTQWorker.get (FASTQWorker.add_count counts "unmatched" 1) "matched"
  = FASTQWorker.get counts "matched" /\
  FASTQWorker.get (FASTQWorker.add_count counts "unmatched" 1) "unmatched"
  = FASTQWorker.get counts "unmatched" + 1.
Proof.
  rewrite get_add_count_eq, !get_add_count_ne by discriminate. auto.
Qed.

Lemma count_other (counts : Counts) (key : string) :
  ~ counter_name key ->
  FASTQWorker.get (FASTQWorker.add_count counts key 1) "total"
  = FASTQWorker.get counts "total" /\
  FASTQWorker.get (FASTQWorker.add_count counts key 1) "matched"
  = FASTQWorker.get counts "matched" /\
  FASTQWorker.get (FASTQWorker.add_count counts key 1) "unmatched"
  = FASTQWorker.get counts "unmatched".
Proof.
  intros Hk.
  auto using get_add_count_other, counter_name_total, counter_name_matched,
    counter_name_unmatched.
Qed.

Lemma truthy_str_nonempty (s : string) : Py.truthy_str s = true -> s <> "".
Proof. destruct s; [discriminate|discriminate]. Qed.

Lemma inline_counts_one_pair (sg_de_stats : Parasail.aligner) (self : DemultiplexWorker.t) :
  Forall (fun adapter => ~ counter_name adapter) (DemultiplexWorker.adapters self) ->
  counts_one_pair (DemultiplexInlineWorker.process_read_pair sg_de_stats self).
Proof.
  intros Hnames [read1 read2] counts barcode r1' r2' counts'.
  unfold DemultiplexInlineWorker.process_read_pair, ReadPair.reads,
    DemultiplexInlineWorker.trim_adapters.
  destruct (ReadPair.valid read1 read2); [|discriminate]. cbn [bind].
  destruct (DemultiplexInlineWorker.trim_read _ _ _ read1) as [[a1 x1]|] eqn:H1;
    [|discriminate].
  cbn [bind].
  destruct (DemultiplexInlineWorker.trim_read _ _ _ read2) as [[a2 x2]|] eqn:H2;
    [|discriminate].
  cbn [bind fst snd].
  apply trim_read_adapter in H1, H2.
  set (counts2 :=
         if Py.truthy_str a2
         then FASTQWorker.add_count
                (if Py.truthy_str a1
                 then FASTQWorker.add_count counts (a1 ++ "_1") 1 else counts)
                (a2 ++ "_2") 1
         else if Py.truthy_str a1
              then FASTQWorker.add_count counts (a1 ++ "_1") 1 else counts).
  assert (Hsame : forall n, counter_name n ->
                            FASTQWorker.get counts2 n = FASTQWorker.get counts n).
  { intros n Hn. unfold counts2.
    rewrite add_if_other by auto using suffix_2_not_counter.
    now rewrite add_if_other by auto using suffix_1_not_counter. }
  set (adapter := if Py.len a2 <? Py.len a1 then a1 else a2).
  assert (Hin : adapter = "" \/ In adapter (DemultiplexWorker.adapters self)).
  { unfold adapter. now destruct (Py.len a2 <? Py.len a1). }
  destruct (Py.truthy_str adapter) eqn:Ht; intros [= <- <- <- <-].
  - apply truthy_str_nonempty in Ht. destruct Hin as [Hin|Hin]; [contradiction|].
    rewrite List.Forall_forall in Hnames. specialize (Hnames _ Hin).
    destruct (count_matched (FASTQWorker.add_count counts2 adapter 1)) as (-> & -> & ->).
    destruct (count_other counts2 adapter Hnames) as (-> & -> & ->).
    rewrite (Hsame _ counter_name_total), (Hsame _ counter_name_matched),
      (Hsame _ counter_name_unmatched).
    split; lia.
  - destruct (count_unmatched counts2) as (-> & -> & ->).
    rewrite (Hsame _ counter_name_total), (Hsame _ counter_name_matched),
      (Hsame _ counter_name_unmatched).
    split; lia.
Qed.

Lemma dual_counts_one_pair (self : DemultiplexWorker.t) :
  Forall (fun adapter => ~ counter_name adapter) (DemultiplexWorker.adapters self) ->
  counts_one_pair (DemultiplexDualIndexWorker.process_read_pair self).
Proof.
  intros Hnames [read1 read2] counts barcode r1' r2' counts'.
  unfold DemultiplexDualIndexWorker.process_read_pair.
  destruct (ReadPair.barcode read1 read2) as [b|]; [|discriminate]. cbn [bind].
  destruct (IlluminaFASTQ.canonicalise b) as [c|]; [|discriminate]. cbn [bind].
  destruct (DemultiplexDualIndexWorker.match_adapters self c) as [a|] eqn:Hm;
    cbn [from_option id].
  - destruct (Py.truthy_str a); cbn [negb]; intros [= <- <- <- <-].
    + apply match_loop_in in Hm as [Hin _].
      rewrite List.Forall_forall in Hnames. specialize (Hnames _ Hin).
      destruct (count_other (FASTQWorker.add_count counts "matched" 1) a Hnames)
        as (-> & -> & ->).
      destruct (count_matched counts) as (-> & -> & ->). split; lia.
    + destruct (count_unmatched counts) as (-> & -> & ->). split; lia.
  - cbn [Py.truthy_str negb]. intros [= <- <- <- <-].
    destruct (count_unmatched counts) as (-> & -> & ->). split; lia.
Qed.

(** C3.  A worker whose adapters are none of the names [total], [matched]
    and [unmatched] - no barcode of the data model is - and whose run has
    returned, inline or dual-index, has counted every pair once:
    [total = matched + unmatched], where [total] is the number of pairs in
    the batches taken from the queue before the poison value, each batch
    added at once and reported on the progress queue. *)
Theorem conservation (sg_de_stats : Parasail.aligner) (self : DemultiplexWorker.t)
    (in_queue : list (option (list (Read * Read))))
    (counts : Counts) (files files' : Files) (out_queue : list Z) :
  Forall (fun adapter => ~ counter_name adapter) (DemultiplexWorker.adapters self) ->
  DemultiplexInlineWorker.start sg_de_stats self FASTQWorker.new_counts files in_queue
    = Returned counts files' out_queue \/
  DemultiplexDualIndexWorker.start self FASTQWorker.new_counts files in_queue
    = Returned counts files' out_queue ->
  FASTQWorker.get counts "total"
  = FASTQWorker.get counts "matched" + FASTQWorker.get counts "unmatched" /\
  FASTQWorker.get counts "total" = Z.of_nat (length (concat (batches in_queue))) /\
  out_queue = map (fun reads => Z.of_nat (length reads)) (batches in_queue).
Proof.
  intros Hnames [H|H].
  - eapply start_counts; [|exact H]. now apply inline_counts_one_pair.
  - eapply start_counts; [|exact H]. now apply dual_counts_one_pair.
Qed.

(** ** Edit distance *)

Section EditDistance.

Import editdistance.

Lemma lev_nil_r (a : list ascii) : lev a [] = length a.
Proof. destruct a; reflexivity. Qed.

Lemma lev_cons (x y : ascii) (a b : list ascii) :
  lev (x :: a) (y :: b)
  = min3 (S (lev a (y :: b))) (S (lev (x :: a) b)) (cost x y + lev a b).
Proof. reflexivity. Qed.

Lemma first_row_spec (b : list ascii) : first_row b = map (lev []) (suffixes b).
Proof. induction b as [|y b IH]; simpl; [reflexivity|]. now rewrite IH. Qed.

Lemma hd_suffixes (f : list ascii -> nat) (b : list ascii) :
  hd 0%nat (map f (suffixes b)) = f b.
Proof. destruct b; reflexivity. Qed.

Lemma next_row_spec (x : ascii) (a b : list ascii) :
  next_row x b (map (lev a) (suffixes b)) = map (lev (x :: a)) (suffixes b).
Proof.
  induction b as [|y b IH].
  - simpl. now rewrite lev_nil_r.
  - cbn [suffixes map next_row]. rewrite IH, !hd_suffixes, lev_cons. reflexivity.
Qed.

(** The rows hold the distances of the recurrence. *)
Lemma rows_spec (a b : list ascii) : rows a b = map (lev a) (suffixes b).
Proof.
  unfold rows. induction a as [|x a IH]; simpl.
  - apply first_row_spec.
  - rewrite IH. apply next_row_spec.
Qed.

Lemma eval_lev (a b : string) :
  eval a b = Z.of_nat (lev (Py.chars a) (Py.chars b)).
Proof. unfold eval. now rewrite rows_spec, hd_suffixes. Qed.

Lemma lev_refl (a : list ascii) : lev a a = 0%nat.
Proof.
  induction a as [|x a IH]; [reflexivity|].
  rewrite lev_cons, IH. unfold cost. rewrite Ascii.eqb_refl. unfold min3. lia.
Qed.

Lemma lev_zero (a b : list ascii) : lev a b = 0%nat -> a = b.
Proof.
  revert b. induction a as [|x a IH]; intros [|y b] H.
  - reflexivity.
  - discriminate H.
  - discriminate H.
  - rewrite lev_cons in H. unfold min3, cost in H.
    destruct (Ascii.eqb_spec x y) as [->|Hne]; [|lia].
    f_equal. apply IH. lia.
Qed.

(** A barcode is at distance zero from itself and from nothing else. *)
Lemma eval_zero (a b : string) : eval a b = 0 <-> a = b.
Proof.
  rewrite eval_lev. split.
  - intros H. apply chars_inj, lev_zero. lia.
  - intros ->. now rewrite lev_refl.
Qed.

Lemma eval_nonneg (a b : string) : 0 <= eval a b.
Proof. rewrite eval_lev. lia. Qed.

End EditDistance.

Example inline_example_init :
  DemultiplexInlineWorker.init [("AAAA", Some "a"); ("GGGGGG", Some "g")]
    None (Py.Int 1) (Py.Int 10) = Ok inline_example.
Proof. reflexivity. Qed.

Example dual_example_init :
  DemultiplexDualIndexWorker.init [("AAAAAAAA+GGGGGGGG", Some "s1")]
    None (Py.Int 1) (Py.Int 10) = Ok dual_example.
Proof. vm_compute. reflexivity. Qed.

Lemma conservation_witness :
  exists counts files out_queue,
    DemultiplexInlineWorker.start SemiGlobal.sg_de_stats inline_example
      FASTQWorker.new_counts ∅
      [Some [(mkRead "r1" "AAAACGTACGT" "IIIIIIIIIII", mkRead "r1" "GGGGGGCGTA" "IIIIIIIIII");
             (mkRead "r2" "TTTTTTTTTT" "IIIIIIIIII", mkRead "r2" "CCCCCCCCCC" "IIIIIIIIII")];
       Some [(mkRead "r3" "GGGGGGAAAA" "IIIIIIIIII", mkRead "r3" "ACGTACGT" "IIIIIIII")];
       None]
    = Returned counts files out_queue /\
    FASTQWorker.get counts "total" = 3 /\
    FASTQWorker.get counts "matched" = 2 /\
    FASTQWorker.get counts "unmatched" = 1 /\
    FASTQWorker.get counts "total"
    = FASTQWorker.get counts "matched" + FASTQWorker.get counts "unmatched".
Proof.
  eexists. eexists. eexists.
  split; [vm_compute; reflexivity|].
  split; [reflexivity|]. split; [reflexivity|]. split; [reflexivity|].
  eapply (conservation SemiGlobal.sg_de_stats inline_example
            [Some [(mkRead "r1" "AAAACGTACGT" "IIIIIIIIIII", mkRead "r1" "GGGGGGCGTA" "IIIIIIIIII");
                   (mkRead "r2" "TTTTTTTTTT" "IIIIIIIIII", mkRead "r2" "CCCCCCCCCC" "IIIIIIIIII")];
             Some [(mkRead "r3" "GGGGGGAAAA" "IIIIIIIIII", mkRead "r3" "ACGTACGT" "IIIIIIII")];
             None] _ ∅).
  - repeat constructor; intros [H|[H|H]]; discriminate H.
  - left. vm_compute. reflexivity.
Defined.

(** ** Opening and closing the writer *)

(** With a prefix for every barcode the writer opens, and every entry it
    holds afterwards is a file. *)
Lemma open_items_ok (items : BarcodeDict) (w : DemultiplexWriter.t) (files : Files) :
  Forall (fun bp => snd bp <> None) items -> entries_open w ->
  exists w' files',
    DemultiplexWriter.open_items items w files = Ok (w', files') /\ entries_open w'.
Proof.
  intros Hitems. revert w files.
  induction Hitems as [|[b prefix] items Hp _ IH]; intros w files Hw.
  - exists w, files. auto.
  - destruct prefix as [p|]; [|now contradiction Hp]. clear Hp.
    cbn [DemultiplexWriter.open_items].
    set (w1 := if DemultiplexWriter.truthy_prefix (Some p) then w
               else DemultiplexWriter.setitem w b None).
    assert (Hpd : DemultiplexWriter.prefix_dict w1 = DemultiplexWriter.prefix_dict w)
      by (unfold w1; now destruct (DemultiplexWriter.truthy_prefix _)).
    assert (Hen : forall fp,
               <[b := Some fp]> (DemultiplexWriter.entries w1)
               = <[b := Some fp]> (DemultiplexWriter.entries w)).
    { intros fp. unfold w1. destruct (DemultiplexWriter.truthy_prefix _); [reflexivity|].
      simpl. apply insert_insert_eq. }
    destruct (DemultiplexWriter.opened w1 (Some p)) as [fp|].
    + apply IH. unfold entries_open. simpl. rewrite Hen.
      apply map_Forall_insert_2; [eauto|exact Hw].
    + cbn [DemultiplexWriter.paired_end_filenames bind DemultiplexWriter.dnaio_open fst snd].
      apply IH. unfold entries_open. simpl. rewrite Hen.
      apply map_Forall_insert_2; [eauto|exact Hw].
Qed.

Lemma open_ok (bd : BarcodeDict) (files : Files) :
  Forall (fun bp => snd bp <> None) bd ->
  exists writer files',
    DemultiplexWriter.open (DemultiplexWriter.init bd) files = Ok (writer, files') /\
    DemultiplexWriter.close writer = Ok tt.
Proof.
  intros Hbd.
  destruct (open_items_ok bd (DemultiplexWriter.init bd) files Hbd) as (w & f & Ho & Hw).
  { unfold entries_open. simpl. apply map_Forall_empty. }
  exists w, f. split; [exact Ho|].
  unfold DemultiplexWriter.close. now rewrite bool_decide_eq_true_2.
Qed.

(** ** Exact barcodes in the dual-index worker *)

(** The threshold of the empty adapter is zero, whatever the error rate. *)
Lemma floor_zero_mul (er : Py.float) (m : Z) :
  bind (Py.mul_int_float 0 er) Py.floor = Ok m -> m = 0.
Proof. destruct er as [s|s| |s mant e]; simpl; congruence. Qed.

Section DualExact.

Variable self : DemultiplexWorker.t.
Hypothesis thresholds :
  Forall (fun adapter => 1 <= threshold self adapter) (DemultiplexWorker.adapters self).
Hypothesis no_empty : ~ In "" (DemultiplexWorker.adapters self).
Hypothesis names :
  Forall (fun adapter => ~ counter_name adapter) (DemultiplexWorker.adapters self).

(** A barcode that is one of the adapters is matched: with the first
    adapter of the table below whose threshold its distance is, which is
    the barcode itself when that threshold is one. *)
Lemma match_loop_exact (l : list string) (c : string) :
  Forall (fun adapter => 1 <= threshold self adapter) l -> In c l ->
  exists a,
    DemultiplexDualIndexWorker.match_loop self l c = Some a /\
    In a l /\
    editdistance.eval c a < threshold self a /\
    (threshold self a <= 1 -> a = c).
Proof.
  induction 1 as [|x l Hx _ IH]; intros Hin; [destruct Hin|].
  cbn [DemultiplexDualIndexWorker.match_loop].
  fold (threshold self x).
  destruct (Z.ltb_spec (editdistance.eval c x) (threshold self x)) as [Hlt|Hge].
  - exists x. split; [reflexivity|]. split; [now left|]. split; [exact Hlt|].
    intros H1. symmetry. apply eval_zero. pose proof (eval_nonneg c x). lia.
  - destruct Hin as [->|Hin].
    + exfalso. assert (editdistance.eval c c = 0) by now apply eval_zero. lia.
    + destruct (IH Hin) as (a & -> & Ha & Hlt & Heq).
      exists a. split; [reflexivity|]. split; [now right|]. auto.
Qed.

Lemma dual_exact_pair (read_pair : Read * Read) (counts : Counts) :
  exact_pair self read_pair ->
  exists a,
    In a (DemultiplexWorker.adapters self) /\
    DemultiplexDualIndexWorker.process_read_pair self read_pair counts
    = Ok (a, fst read_pair, snd read_pair,
          FASTQWorker.add_count (FASTQWorker.add_count counts "matched" 1) a 1).
Proof.
  destruct read_pair as [read1 read2]. intros (c & Hc & Hin).
  unfold header_barcode in Hc. cbn [fst snd] in Hc.
  unfold DemultiplexDualIndexWorker.process_read_pair.
  destruct (ReadPair.barcode read1 read2) as [b|]; [|discriminate Hc].
  cbn [bind] in Hc |- *. rewrite Hc. cbn [bind].
  unfold DemultiplexDualIndexWorker.match_adapters.
  destruct (match_loop_exact _ c thresholds Hin) as (a & -> & Ha & _).
  exists a. split; [exact Ha|]. cbn [from_option id].
  destruct a as [|ch a]; [contradiction|]. reflexivity.
Qed.

Lemma dual_exact_batch (writer : DemultiplexWriter.t) (reads : list (Read * Read))
    (counts : Counts) (files : Files) :
  Forall (exact_pair self) reads ->
  exists counts' files',
    DemultiplexWorker.process_batch (DemultiplexDualIndexWorker.process_read_pair self)
      writer reads counts files = Ok (counts', files') /\
    FASTQWorker.get counts' "total" = FASTQWorker.get counts "total" /\
    FASTQWorker.get counts' "matched"
    = FASTQWorker.get counts "matched" + Z.of_nat (length reads) /\
    FASTQWorker.get counts' "unmatched" = FASTQWorker.get counts "unmatched".
Proof.
  intros Hreads. revert counts files.
  induction Hreads as [|read_pair reads Hp _ IH]; intros counts files.
  - exists counts, files. simpl. repeat split; lia.
  - cbn [DemultiplexWorker.process_batch].
    destruct (dual_exact_pair read_pair counts Hp) as (a & Ha & ->). cbn [bind].
    rewrite List.Forall_forall in names. specialize (names _ Ha).
    match goal with
    | |- context [DemultiplexWorker.process_batch _ _ _ ?c ?f] =>
        destruct (IH c f) as (counts' & files' & -> & Ht & Hm & Hu)
    end.
    exists counts', files'. split; [reflexivity|].
    destruct (count_other (FASTQWorker.add_count counts "matched" 1) a names)
      as (Et & Em & Eu).
    destruct (count_matched counts) as (Et' & Em' & Eu').
    cbn [length]. repeat split; lia.
Qed.

Lemma dual_exact_run (writer : DemultiplexWriter.t) (bs : list (list (Read * Read)))
    (rest : list (option (list (Read * Read))))
    (counts : Counts) (files : Files) (out : list Z) :
  Forall (Forall (exact_pair self)) bs ->
  exists counts' files' out',
    DemultiplexWorker.run (DemultiplexDualIndexWorker.process_read_pair self) writer
      (map Some bs ++ None :: rest) counts files out = Returned counts' files' out' /\
    FASTQWorker.get counts' "total"
    = FASTQWorker.get counts "total" + Z.of_nat (length (concat bs)) /\
    FASTQWorker.get counts' "matched"
    = FASTQWorker.get counts "matched" + Z.of_nat (length (concat bs)) /\
    FASTQWorker.get counts' "unmatched" = FASTQWorker.get counts "unmatched".
Proof.
  intros Hbs. revert counts files out.
  induction Hbs as [|reads bs Hreads _ IH]; intros counts files out.
  - exists counts, files, out. simpl. repeat split; lia.
  - cbn [map app DemultiplexWorker.run].
    destruct (dual_exact_batch writer reads counts files Hreads)
      as (c1 & f1 & -> & Ht & Hm & Hu).
    match goal with
    | |- context [DemultiplexWorker.run _ _ _ ?c ?f ?o] =>
        destruct (IH c f o) as (counts' & files' & out' & -> & Ht' & Hm' & Hu')
    end.
    exists counts', files', out'. split; [reflexivity|].
    rewrite get_add_count_eq in Ht'.
    rewrite get_add_count_ne in Hm', Hu' by discriminate.
    cbn [concat]. rewrite length_app. repeat split; lia.
Qed.

End DualExact.

(** C2, as amended.  Take a dual-index worker whose adapters are barcodes
    (none is a counter name), each with a threshold
    [floor(|adapter| * error_rate)] of at least one - as the 17 characters
    of a dual-index barcode have at the default rate 0.1 - and with a
    prefix for every barcode.  On an input in which the canonical header
    barcode of every pair is one of the adapters the run returns with
    [matched = total], the number of pairs, and [unmatched = 0].  A pair is
    filed under the first adapter of the table whose threshold its edit
    distance is below; that is the adapter it equals when the threshold is
    one. *)
Theorem dual_index_exact_round_trip (bd : BarcodeDict) (er : option Py.float)
    (score penalty : Py.arg) (self : DemultiplexWorker.t)
    (bs : list (list (Read * Read))) (rest : list (option (list (Read * Read))))
    (files : Files) :
  DemultiplexDualIndexWorker.init bd er score penalty = Ok self ->
  Forall (fun bp => snd bp <> None) bd ->
  Forall (fun adapter => ~ counter_name adapter) (DemultiplexWorker.adapters self) ->
  Forall (fun adapter => 1 <= threshold self adapter) (DemultiplexWorker.adapters self) ->
  Forall (Forall (exact_pair self)) bs ->
  (forall adapter, In adapter (DemultiplexWorker.adapters self) ->
     bind (Py.mul_int_float (Py.len adapter) (DemultiplexWorker.error_rate self)) Py.floor
     = Ok (threshold self adapter)) /\
  (exists counts files' out_queue,
     DemultiplexDualIndexWorker.start self FASTQWorker.new_counts files
       (map Some bs ++ None :: rest) = Returned counts files' out_queue /\
     FASTQWorker.get counts "total" = Z.of_nat (length (concat bs)) /\
     FASTQWorker.get counts "matched" = FASTQWorker.get counts "total" /\
     FASTQWorker.get counts "unmatched" = 0) /\
  (forall c, In c (DemultiplexWorker.adapters self) ->
     exists adapter,
       DemultiplexDualIndexWorker.match_adapters self c = Some adapter /\
       In adapter (DemultiplexWorker.adapters self) /\
       editdistance.eval c adapter < threshold self adapter /\
       (threshold self adapter <= 1 -> adapter = c)).
Proof.
  intros Hinit Hbd Hnames Hth Hbs.
  assert (Hlink : forall adapter, In adapter (DemultiplexWorker.adapters self) ->
     bind (Py.mul_int_float (Py.len adapter) (DemultiplexWorker.error_rate self)) Py.floor
     = Ok (threshold self adapter)).
  { unfold DemultiplexDualIndexWorker.init in Hinit. rewrite init_unfold in Hinit.
    destruct (py_min _); [|discriminate].
    destruct (_ =? 0); [discriminate|]. simpl in Hinit.
    destruct (DemultiplexDualIndexWorker.max_errors _ _ _) as [m|e] eqn:Hm;
      [|discriminate].
    simpl in Hinit. injection Hinit as <-. unfold threshold. simpl.
    apply (max_errors_lookup _ _ _ _ Hm). }
  assert (Hne : ~ In "" (DemultiplexWorker.adapters self)).
  { intros Hin. pose proof (Hlink _ Hin) as H0. apply floor_zero_mul in H0.
    rewrite List.Forall_forall in Hth. specialize (Hth _ Hin). lia. }
  split; [exact Hlink|]. split.
  - destruct (open_ok bd files Hbd) as (writer & files0 & Hopen & Hclose).
    assert (Ebd : DemultiplexWorker.barcode_dict self = bd).
    { unfold DemultiplexDualIndexWorker.init in Hinit. rewrite init_unfold in Hinit.
      destruct (py_min _); [|discriminate].
      destruct (_ =? 0); [discriminate|]. simpl in Hinit.
      destruct (DemultiplexDualIndexWorker.max_errors _ _ _); [|discriminate].
      simpl in Hinit. now injection Hinit as <-. }
    destruct (dual_exact_run self Hth Hne Hnames writer bs rest
                FASTQWorker.new_counts files0 [] Hbs)
      as (counts & files' & out & Hrun & Ht & Hm & Hu).
    exists counts, files', out.
    unfold DemultiplexDualIndexWorker.start, DemultiplexWorker.start.
    rewrite Ebd, Hopen, Hrun, Hclose.
    rewrite get_new_counts in Ht, Hm, Hu.
    split; [reflexivity|]. split; [lia|]. split; lia.
  - intros c Hc. apply (match_loop_exact self _ c Hth Hc).
Qed.

Lemma dual_index_exact_round_trip_witness :
  exists counts files' out_queue,
    DemultiplexDualIndexWorker.start dual_example FASTQWorker.new_counts ∅
      (map Some
         [[(mkRead "M0:1:FC:1:1:1:1 1:N:0:AAAAAAAA+CCCCCCCC" "ACGT" "IIII",
            mkRead "M0:1:FC:1:1:1:1 2:N:0:AAAAAAAA+CCCCCCCC" "TTTT" "IIII")]]
       ++ None :: [])
    = Returned counts files' out_queue /\
    FASTQWorker.get counts "total" = 1 /\
    FASTQWorker.get counts "matched" = FASTQWorker.get counts "total" /\
    FASTQWorker.get counts "unmatched" = 0.
Proof.
  apply (proj1 (proj2 (dual_index_exact_round_trip
           [("AAAAAAAA+GGGGGGGG", Some "s1")] None (Py.Int 1) (Py.Int 10) dual_example
           [[(mkRead "M0:1:FC:1:1:1:1 1:N:0:AAAAAAAA+CCCCCCCC" "ACGT" "IIII",
              mkRead "M0:1:FC:1:1:1:1 2:N:0:AAAAAAAA+CCCCCCCC" "TTTT" "IIII")]]
           [] ∅ dual_example_init
           ltac:(repeat constructor; discriminate)
           ltac:(repeat constructor; intros [H|[H|H]]; discriminate H)
           ltac:(repeat constructor; vm_compute; discriminate)
           ltac:(repeat constructor; exists "AAAAAAAA+GGGGGGGG";
                 split; [reflexivity | now left])))).
Defined.

(** The adapter [ACGTACGT] has the threshold [floor(8 * 0.1) = 0] at the
    default rate, and the adapter [AAAAAAAA+GGGGGGGG] the threshold
    [floor(17 * 0.05) = 0] at the rate 0.05: a pair whose header carries
    exactly the adapter is counted as unmatched. *)
Lemma dual_index_exact_unmatched :
  (exists self counts files' out_queue,
     DemultiplexDualIndexWorker.init [("ACGTACGT", Some "s1")] None (Py.Int 1) (Py.Int 10)
     = Ok self /\
     exact_pair self (mkRead "M0:1:FC:1:1:1:1 1:N:0:ACGTACGT" "ACGT" "IIII",
                      mkRead "M0:1:FC:1:1:1:1 2:N:0:ACGTACGT" "TTTT" "IIII") /\
     DemultiplexDualIndexWorker.start self FASTQWorker.new_counts ∅
       [Some [(mkRead "M0:1:FC:1:1:1:1 1:N:0:ACGTACGT" "ACGT" "IIII",
               mkRead "M0:1:FC:1:1:1:1 2:N:0:ACGTACGT" "TTTT" "IIII")];
        None]
     = Returned counts files' out_queue /\
     FASTQWorker.get counts "total" = 1 /\
     FASTQWorker.get counts "matched" = 0 /\
     FASTQWorker.get counts "unmatched" = 1) /\
  (exists self counts files' out_queue,
     DemultiplexDualIndexWorker.init [("AAAAAAAA+GGGGGGGG", Some "s1")]
       (Some (Py.lit 0x1.999999999999ap-5%float)) (Py.Int 1) (Py.Int 10)
     = Ok self /\
     exact_pair self (mkRead "M0:1:FC:1:1:1:1 1:N:0:AAAAAAAA+CCCCCCCC" "ACGT" "IIII",
                      mkRead "M0:1:FC:1:1:1:1 2:N:0:AAAAAAAA+CCCCCCCC" "TTTT" "IIII") /\
     DemultiplexDualIndexWorker.start self FASTQWorker.new_counts ∅
       [Some [(mkRead "M0:1:FC:1:1:1:1 1:N:0:AAAAAAAA+CCCCCCCC" "ACGT" "IIII",
               mkRead "M0:1:FC:1:1:1:1 2:N:0:AAAAAAAA+CCCCCCCC" "TTTT" "IIII")];
        None]
     = Returned counts files' out_queue /\
     FASTQWorker.get counts "total" = 1 /\
     FASTQWorker.get counts "matched" = 0 /\
     FASTQWorker.get counts "unmatched" = 1).
Proof.
  split.
  - eexists. eexists. eexists. eexists.
    split; [vm_compute; reflexivity|].
    split; [exists "ACGTACGT"; split; [reflexivity | now left]|].
    split; [vm_compute; reflexivity|].
    repeat split; reflexivity.
  - eexists. eexists. eexists. eexists.
    split; [vm_compute; reflexivity|].
    split; [exists "AAAAAAAA+GGGGGGGG"; split; [reflexivity | now left]|].
    split; [vm_compute; reflexivity|].
    repeat split; reflexivity.
Qed.

(** ** The scenarios of the specification *)

(** Inline, one adapter, exact match: R1 is trimmed to [CGT], R2 is left
    as it is, and the pair is counted under [AAAA], [AAAA_1] and
    [matched]. *)
Example scenario_inline_exact :
  exists self,
    DemultiplexInlineWorker.init [("AAAA", Some "a")] None (Py.Int 1) (Py.Int 10) = Ok self /\
    DemultiplexInlineWorker.process_read_pair SemiGlobal.sg_de_stats self
      (mkRead "r" "AAAACGT" "IIIIIII", mkRead "r" "GGGGCGT" "IIIIIII") ∅
    = Ok ("AAAA", mkRead "r" "CGT" "III", mkRead "r" "GGGGCGT" "IIIIIII",
          <["matched" := 1]> (<["AAAA" := 1]> (<["AAAA_1" := 1]> ∅))).
Proof. eexists. split; [reflexivity|]. vm_compute. reflexivity. Qed.

(** Dual index, one edit away from an adapter of 17 characters at the
    rate 0.1: the threshold is one and the comparison strict, so the
    barcode is not matched. *)
Example scenario_dual_distance_one :
  editdistance.eval "AAAAAAAA+GGGGGGGC" "AAAAAAAA+GGGGGGGG" = 1 /\
  threshold dual_example "AAAAAAAA+GGGGGGGG" = 1 /\
  DemultiplexDualIndexWorker.match_adapters dual_example "AAAAAAAA+GGGGGGGC" = None.
Proof. repeat split; vm_compute; reflexivity. Qed.

(** The statistics of a run with one adapter. *)
Example scenario_statistics :
  snd (DemultiplexInline.save_statistics
         (<["unmatched" := 1]> (<["total" := 2]> (<["AAAA" := 1]> ∅)))
         ["AAAA"] ∅ "stats.csv" None None)
  = Ok (Some "stats.csv").
Proof. vm_compute. reflexivity. Qed.

(** * Further properties *)

(** ** Ordered dictionaries *)

Section OrderedDict.

Context {K V : Type} `{EqDecision K}.

Lemma get_setitem_eq (d : list (K * V)) (k : K) (v : V) :
  PyLib.get (PyLib.setitem d k v) k = Some v.
Proof.
  induction d as [|[k' v'] d IH]; simpl.
  - now rewrite decide_True.
  - destruct (decide (k = k')) as [->|Hne]; simpl.
    + now rewrite decide_True.
    + now rewrite decide_False.
Qed.

Lemma get_setitem_ne (d : list (K * V)) (k k' : K) (v : V) :
  k <> k' -> PyLib.get (PyLib.setitem d k v) k' = PyLib.get d k'.
Proof.
  intros Hne. induction d as [|[k0 v0] d IH]; simpl.
  - rewrite decide_False by congruence. reflexivity.
  - destruct (decide (k = k0)) as [->|Hk]; simpl.
    + rewrite !decide_False by congruence. reflexivity.
    + destruct (decide (k' = k0)); [reflexivity|exact IH].
Qed.

Lemma get_Some_In (d : list (K * V)) (k : K) (v : V) :
  PyLib.get d k = Some v -> In (k, v) d.
Proof.
  induction d as [|[k' v'] d IH]; simpl; [discriminate|].
  destruct (decide (k = k')) as [->|Hne].
  - intros [= ->]. now left.
  - intros H. right. now apply IH.
Qed.

Lemma get_None_keys (d : list (K * V)) (k : K) :
  PyLib.get d k = None <-> ~ In k (map fst d).
Proof.
  induction d as [|[k' v'] d IH]; simpl; [tauto|].
  destruct (decide (k = k')) as [->|Hne].
  - split; [discriminate|]. intros Hn. exfalso. apply Hn. now left.
  - rewrite IH. split; [intros Hn [Hk|Hk]; [congruence|contradiction] | tauto].
Qed.

Lemma In_get (d : list (K * V)) (k : K) (v : V) :
  NoDup (map fst d) -> In (k, v) d -> PyLib.get d k = Some v.
Proof.
  induction d as [|[k' v'] d IH]; simpl; [intros _ []|].
  intros Hnd [Hin|Hin].
  - injection Hin as -> ->. now rewrite decide_True.
  - apply NoDup_cons in Hnd as [Hk Hnd].
    destruct (decide (k = k')) as [->|Hne]; [|now apply IH].
    exfalso. apply Hk. apply list_elem_of_In.
    change k' with (fst (k', v)). now apply in_map.
Qed.

(** Assigning keeps the keys apart, and adds a key only at the end. *)
Lemma setitem_keys (d : list (K * V)) (k : K) (v : V) :
  map fst (PyLib.setitem d k v)
  = if decide (k ∈ map fst d) then map fst d else (map fst d ++ [k])%list.
Proof.
  induction d as [|[k' v'] d IH].
  - reflexivity.
  - cbn [PyLib.setitem map fst].
    destruct (decide (k = k')) as [->|Hne]; cbn [map fst].
    + rewrite decide_True by left. reflexivity.
    + rewrite IH. destruct (decide (k ∈ map fst d)) as [Hin|Hin].
      * rewrite decide_True by now right. reflexivity.
      * rewrite decide_False; [reflexivity|].
        intros Hk. apply elem_of_cons in Hk as [Hk|Hk]; [congruence|contradiction].
Qed.

Lemma setitem_NoDup (d : list (K * V)) (k : K) (v : V) :
  NoDup (map fst d) -> NoDup (map fst (PyLib.setitem d k v)).
Proof.
  intros Hnd. rewrite setitem_keys. case_decide as Hn; [exact Hnd|].
  apply NoDup_app. split; [exact Hnd|]. split.
  - intros x Hx Hk. apply list_elem_of_singleton in Hk as ->. contradiction.
  - apply NoDup_singleton.
Qed.

End OrderedDict.

(** ** The files of the writer *)

Lemma str_app_inv_tail (p q t : string) : p ++ t = q ++ t -> p = q.
Proof.
  intros H. apply chars_inj. apply (f_equal Py.chars) in H.
  rewrite !chars_app in H. now apply app_inv_tail in H.
Qed.

Lemma names_differ (p q : string) : p ++ ".R1.fastq.gz" <> q ++ ".R2.fastq.gz".
Proof.
  intros H. apply (f_equal Py.chars) in H. rewrite !chars_app in H.
  apply app_inj_2 in H as [_ H]; [discriminate H|reflexivity].
Qed.

Lemma handle_files_differ (p q : string) :
  DemultiplexWriter.file1 (handle_of p) <> DemultiplexWriter.file2 (handle_of q).
Proof. apply names_differ. Qed.

Lemma handle_of_inj (p q : string) :
  DemultiplexWriter.file1 (handle_of p) = DemultiplexWriter.file1 (handle_of q) \/
  DemultiplexWriter.file2 (handle_of p) = DemultiplexWriter.file2 (handle_of q) ->
  p = q.
Proof. intros [H|H]; simpl in H; now apply str_app_inv_tail in H. Qed.

Lemma insert_empty_keeps (files : Files) (n m : string) :
  files !! n = Some [] -> <[m := []]> files !! n = Some [].
Proof.
  intros H. destruct (decide (m = n)) as [->|Hne].
  - apply lookup_insert_eq.
  - now rewrite lookup_insert_ne.
Qed.

(** What [open] has done when it returns: every prefix is a string, every
    barcode has the handle of its prefix, the files of the prefixes are
    empty and no other file has been touched. *)
Lemma open_items_spec (items : BarcodeDict) (w w' : DemultiplexWriter.t)
    (files files' : Files) :
  DemultiplexWriter.open_items items w files = Ok (w', files') ->
  opened_empty w files ->
  opened_empty w' files' /\
  Forall (fun bp => snd bp <> None) items /\
  (NoDup (map fst items) ->
   forall b p, In (b, Some p) items ->
     DemultiplexWriter.entries w' !! b = Some (Some (handle_of p)) /\
     files' !! DemultiplexWriter.file1 (handle_of p) = Some [] /\
     files' !! DemultiplexWriter.file2 (handle_of p) = Some []) /\
  (forall n, ~ named_by items n -> files' !! n = files !! n) /\
  (forall n, files !! n = Some [] -> files' !! n = Some []).
Proof.
  revert w files. induction items as [|[b prefix] items IH]; intros w files H Hw.
  - injection H as <- <-. split; [exact Hw|]. split; [constructor|].
    split; [intros _ ? ? []|]. auto.
  - cbn [DemultiplexWriter.open_items] in H.
    remember (if DemultiplexWriter.truthy_prefix prefix then w
              else DemultiplexWriter.setitem w b None) as w1 eqn:Ew1.
    assert (Hpd : DemultiplexWriter.prefix_dict w1 = DemultiplexWriter.prefix_dict w)
      by (subst w1; now destruct (DemultiplexWriter.truthy_prefix _)).
    clear Ew1.
    assert (Hstep : exists p w2 files2,
              prefix = Some p /\
              DemultiplexWriter.open_items items w2 files2 = Ok (w', files') /\
              opened_empty w2 files2 /\
              DemultiplexWriter.entries w2 !! b = Some (Some (handle_of p)) /\
              files2 !! DemultiplexWriter.file1 (handle_of p) = Some [] /\
              files2 !! DemultiplexWriter.file2 (handle_of p) = Some [] /\
              (forall n, n <> DemultiplexWriter.file1 (handle_of p) ->
                         n <> DemultiplexWriter.file2 (handle_of p) ->
                         files2 !! n = files !! n) /\
              (forall n, files !! n = Some [] -> files2 !! n = Some [])).
    { destruct prefix as [p|].
      - exists p. unfold DemultiplexWriter.opened in H. rewrite Hpd in H.
        destruct (DemultiplexWriter.prefix_dict w !! p) as [fp|] eqn:Hfp.
        + destruct (Hw p fp Hfp) as (-> & Hf1 & Hf2).
          eexists. exists files. split; [reflexivity|]. split; [exact H|].
          split; [intros q h Hq; simpl in Hq; rewrite Hpd in Hq; now apply Hw|].
          split; [simpl; apply lookup_insert_eq|]. auto.
        + cbn [DemultiplexWriter.paired_end_filenames bind
                 DemultiplexWriter.dnaio_open fst snd] in H.
          eexists. eexists. split; [reflexivity|]. split; [exact H|].
          split; [|split; [simpl; apply lookup_insert_eq|]].
          * intros q h Hq. simpl in Hq.
            destruct (decide (p = q)) as [->|Hne].
            -- rewrite lookup_insert_eq in Hq. injection Hq as <-.
               split; [reflexivity|]. split.
               ++ rewrite lookup_insert_ne by (apply not_eq_sym, names_differ).
                  apply lookup_insert_eq.
               ++ apply lookup_insert_eq.
            -- rewrite lookup_insert_ne in Hq by exact Hne.
               destruct (Hw q h Hq) as (-> & Hf1 & Hf2).
               split; [reflexivity|]. split; now do 2 apply insert_empty_keeps.
          * split; [|split; [apply lookup_insert_eq|]].
            -- rewrite lookup_insert_ne by (apply not_eq_sym, names_differ).
               apply lookup_insert_eq.
            -- split.
               ++ intros n H1 H2. simpl in H1, H2.
                  rewrite !lookup_insert_ne by congruence. reflexivity.
               ++ intros n Hn. now do 2 apply insert_empty_keeps.
      - exfalso. unfold DemultiplexWriter.opened in H. simpl in H. discriminate H. }
    destruct Hstep as (p & w2 & files2 & -> & Hrec & Hw2 & Hb & Hf1 & Hf2 & Hother & Hkeep).
    destruct (IH _ _ Hrec Hw2) as (Hw' & Hall & Hent & Hun & Hk').
    split; [exact Hw'|]. split; [constructor; [discriminate|exact Hall]|].
    split; [|split].
    + intros Hnd b0 p0 [Hin|Hin].
      * injection Hin as <- <-. apply NoDup_cons in Hnd as [Hnb _].
        rewrite (open_items_absent _ _ _ _ _ b Hrec), Hb
          by (intros Hi; apply Hnb; now apply list_elem_of_In).
        auto.
      * apply NoDup_cons in Hnd as [_ Hnd]. now apply Hent.
    + intros n Hn. rewrite Hun.
      * apply Hother; intros ->; apply Hn; exists b, p; (split; [now left|auto]).
      * intros (b0 & p0 & Hin & Hor). apply Hn. exists b0, p0. split; [now right|exact Hor].
    + intros n Hn. apply Hk', Hkeep, Hn.
Qed.

Lemma writer_open_spec (bd : BarcodeDict) (files files' : Files)
    (w : DemultiplexWriter.t) :
  NoDup (map fst bd) ->
  DemultiplexWriter.open (DemultiplexWriter.init bd) files = Ok (w, files') ->
  Forall (fun bp => snd bp <> None) bd /\
  (forall b p, In (b, Some p) bd ->
     DemultiplexWriter.get w b = Some (handle_of p) /\
     files' !! DemultiplexWriter.file1 (handle_of p) = Some [] /\
     files' !! DemultiplexWriter.file2 (handle_of p) = Some []) /\
  (forall b, ~ In b (map fst bd) -> DemultiplexWriter.get w b = None).
Proof.
  intros Hnd Ho. unfold DemultiplexWriter.open in Ho. simpl in Ho.
  destruct (open_items_spec _ _ _ _ _ Ho) as (_ & Hall & Hent & _ & _).
  { intros p h Hp. simpl in Hp. rewrite lookup_empty in Hp. discriminate Hp. }
  split; [exact Hall|]. split.
  - intros b p Hin. destruct (Hent Hnd b p Hin) as (He & Hf1 & Hf2).
    unfold DemultiplexWriter.get. rewrite He. auto.
  - intros b Hb. unfold DemultiplexWriter.get.
    rewrite (open_items_absent _ _ _ _ _ b Ho Hb). simpl. now rewrite lookup_empty.
Qed.

(** X1.  When [open] returns on a table with distinct barcodes, every
    prefix of the table is a string, every barcode has the file pair of
    its prefix - so barcodes with one prefix share their files -, these
    files exist and are empty, a barcode outside the table has no file,
    and no file other than those of the prefixes has been touched. *)
Theorem writer_open_files (bd : BarcodeDict) (files files' : Files)
    (w : DemultiplexWriter.t) :
  NoDup (map fst bd) ->
  DemultiplexWriter.open (DemultiplexWriter.init bd) files = Ok (w, files') ->
  Forall (fun bp => snd bp <> None) bd /\
  (forall b p, In (b, Some p) bd ->
     DemultiplexWriter.get w b = Some (handle_of p) /\
     files' !! DemultiplexWriter.file1 (handle_of p) = Some [] /\
     files' !! DemultiplexWriter.file2 (handle_of p) = Some []) /\
  (forall b, ~ In b (map fst bd) -> DemultiplexWriter.get w b = None) /\
  (forall n, ~ named_by bd n -> files' !! n = files !! n).
Proof.
  intros Hnd Ho. unfold DemultiplexWriter.open in Ho. simpl in Ho.
  destruct (open_items_spec _ _ _ _ _ Ho) as (_ & Hall & Hent & Hun & _).
  { intros p h Hp. simpl in Hp. rewrite lookup_empty in Hp. discriminate Hp. }
  split; [exact Hall|]. split; [|split; [|exact Hun]].
  - intros b p Hin. destruct (Hent Hnd b p Hin) as (He & Hf1 & Hf2).
    unfold DemultiplexWriter.get. rewrite He. auto.
  - intros b Hb. unfold DemultiplexWriter.get.
    rewrite (open_items_absent _ _ _ _ _ b Ho Hb). simpl. now rewrite lookup_empty.
Qed.

Lemma writer_open_files_witness :
  exists w files',
    DemultiplexWriter.open
      (DemultiplexWriter.init [("AAAA", Some "s"); ("CCCC", Some "s"); ("GGGG", Some "t")])
      {["old.txt" := [mkRead "r" "ACGT" "IIII"]]} = Ok (w, files') /\
    DemultiplexWriter.get w "AAAA" = Some (handle_of "s") /\
    DemultiplexWriter.get w "CCCC" = Some (handle_of "s") /\
    files' !! "s.R1.fastq.gz" = Some [] /\
    files' !! "old.txt" = Some [mkRead "r" "ACGT" "IIII"].
Proof.
  eexists. eexists. split; [reflexivity|].
  match goal with
  | |- DemultiplexWriter.get ?w _ = _ /\ _ /\ ?f !! _ = _ /\ _ =>
      destruct (writer_open_files
                  [("AAAA", Some "s"); ("CCCC", Some "s"); ("GGGG", Some "t")]
                  {["old.txt" := [mkRead "r" "ACGT" "IIII"]]} f w)
        as (_ & Hent & _ & Hun)
  end.
  - repeat constructor; rewrite ?elem_of_cons, ?elem_of_nil; intuition discriminate.
  - reflexivity.
  - split; [apply (Hent "AAAA" "s"); now left|].
    split; [apply (Hent "CCCC" "s"); right; now left|].
    split; [apply (Hent "AAAA" "s"); now left|].
    reflexivity.
Defined.

Lemma handle_write_spec (fp : DemultiplexWriter.handle) (fs : Files) (read1 read2 : Read) :
  DemultiplexWriter.file1 fp <> DemultiplexWriter.file2 fp ->
  DemultiplexWriter.handle_write fp fs read1 read2 !! DemultiplexWriter.file1 fp
  = Some (default [] (fs !! DemultiplexWriter.file1 fp) ++ [read1])%list /\
  DemultiplexWriter.handle_write fp fs read1 read2 !! DemultiplexWriter.file2 fp
  = Some (default [] (fs !! DemultiplexWriter.file2 fp) ++ [read2])%list /\
  (forall n, n <> DemultiplexWriter.file1 fp -> n <> DemultiplexWriter.file2 fp ->
     DemultiplexWriter.handle_write fp fs read1 read2 !! n = fs !! n).
Proof.
  intros Hne. unfold DemultiplexWriter.handle_write. split; [|split].
  - rewrite lookup_insert_ne by congruence. apply lookup_insert_eq.
  - rewrite lookup_insert_eq, lookup_insert_ne by exact Hne. reflexivity.
  - intros n H1 H2. rewrite !lookup_insert_ne by congruence. reflexivity.
Qed.

(** X2.  A write under a barcode of the table appends the first read to
    the R1 file of its prefix and the second read to the R2 file, and
    leaves every other file as it is. *)
Theorem writer_write_appends (bd : BarcodeDict) (files files0 fs : Files)
    (w : DemultiplexWriter.t) (b p : string) (read1 read2 : Read) :
  NoDup (map fst bd) ->
  DemultiplexWriter.open (DemultiplexWriter.init bd) files = Ok (w, files0) ->
  In (b, Some p) bd ->
  DemultiplexWriter.write w fs b read1 read2 !! (p ++ ".R1.fastq.gz")
  = Some (default [] (fs !! (p ++ ".R1.fastq.gz")%string) ++ [read1])%list /\
  DemultiplexWriter.write w fs b read1 read2 !! (p ++ ".R2.fastq.gz")
  = Some (default [] (fs !! (p ++ ".R2.fastq.gz")%string) ++ [read2])%list /\
  (forall n, n <> p ++ ".R1.fastq.gz" -> n <> p ++ ".R2.fastq.gz" ->
     DemultiplexWriter.write w fs b read1 read2 !! n = fs !! n).
Proof.
  intros Hnd Ho Hin. unfold DemultiplexWriter.open in Ho. simpl in Ho.
  destruct (open_items_spec _ _ _ _ _ Ho) as (_ & _ & Hent & _).
  { intros q h Hq. simpl in Hq. rewrite lookup_empty in Hq. discriminate Hq. }
  destruct (Hent Hnd b p Hin) as (He & _).
  unfold DemultiplexWriter.write, DemultiplexWriter.get. rewrite He.
  apply (handle_write_spec (handle_of p)). apply handle_files_differ.
Qed.

Lemma writer_write_appends_witness :
  exists w files0,
    DemultiplexWriter.open (DemultiplexWriter.init [("AAAA", Some "s")]) ∅ = Ok (w, files0) /\
    DemultiplexWriter.write w {["s.R1.fastq.gz" := [mkRead "a" "AC" "II"]]} "AAAA"
      (mkRead "r" "ACGT" "IIII") (mkRead "r" "TTTT" "IIII") !! ("s" ++ ".R1.fastq.gz")
    = Some (default [] (({["s.R1.fastq.gz" := [mkRead "a" "AC" "II"]]} : Files)
                          !! ("s" ++ ".R1.fastq.gz")%string)
            ++ [mkRead "r" "ACGT" "IIII"])%list.
Proof.
  eexists. eexists. split; [reflexivity|].
  match goal with
  | |- DemultiplexWriter.write ?w _ _ _ _ !! _ = _ =>
      apply (proj1 (writer_write_appends [("AAAA", Some "s")] ∅ _
               {["s.R1.fastq.gz" := [mkRead "a" "AC" "II"]]} w "AAAA" "s"
               (mkRead "r" "ACGT" "IIII") (mkRead "r" "TTTT" "IIII")
               ltac:(repeat constructor; rewrite elem_of_nil; tauto)
               eq_refl
               ltac:(now left)))
  end.
Defined.

(** ** The files a run leaves behind *)

Section RunFiles.

Variable process_read_pair : Read * Read -> Counts -> result (string * Read * Read * Counts).

Lemma process_batch_emitted (w : DemultiplexWriter.t) (reads : list (Read * Read))
    (counts counts' : Counts) (files files' : Files) :
  DemultiplexWorker.process_batch process_read_pair w reads counts files
    = Ok (counts', files') ->
  counts' = counts_after process_read_pair reads counts /\
  files' = write_all w (emitted process_read_pair reads counts) files.
Proof.
  revert counts files. induction reads as [|rp reads IH]; intros counts files H.
  - injection H as <- <-. auto.
  - cbn [DemultiplexWorker.process_batch counts_after emitted] in *.
    destruct (process_read_pair rp counts) as [[[[b r1] r2] c1]|e]; [|discriminate H].
    cbn [bind] in H. apply IH in H as [-> ->]. auto.
Qed.

Lemma run_emitted_files (w : DemultiplexWriter.t)
    (in_queue : list (option (list (Read * Read))))
    (counts counts' : Counts) (files files' : Files) (out out' : list Z) :
  DemultiplexWorker.run process_read_pair w in_queue counts files out
    = Returned counts' files' out' ->
  files' = write_all w (run_emitted process_read_pair in_queue counts) files.
Proof.
  revert counts files out.
  induction in_queue as [|[reads|] in_queue IH]; intros counts files out H;
    cbn [DemultiplexWorker.run run_emitted] in *.
  - discriminate H.
  - destruct (DemultiplexWorker.process_batch _ _ _ _ _) as [[c1 f1]|e] eqn:Hb;
      [|discriminate H].
    apply process_batch_emitted in Hb as [-> ->]. apply IH in H as ->.
    unfold write_all. now rewrite fold_left_app.
  - now injection H as <- <- <-.
Qed.

End RunFiles.

(** The files of a prefix after a list of writes: what they held, and
    the reads of the pairs the table sends to the prefix, in order. *)
Lemma write_all_routed (bd : BarcodeDict) (w : DemultiplexWriter.t)
    (l : list (string * Read * Read)) (fs : Files) (p : string) (old1 old2 : list Read) :
  (forall b q, PyLib.get bd b = Some (Some q) ->
               DemultiplexWriter.get w b = Some (handle_of q)) ->
  (forall b, PyLib.get bd b = None -> DemultiplexWriter.get w b = None) ->
  (forall b, PyLib.get bd b <> Some None) ->
  fs !! DemultiplexWriter.file1 (handle_of p) = Some old1 ->
  fs !! DemultiplexWriter.file2 (handle_of p) = Some old2 ->
  write_all w l fs !! DemultiplexWriter.file1 (handle_of p)
  = Some (old1 ++ map (fun e => snd (fst e)) (routed bd p l))%list /\
  write_all w l fs !! DemultiplexWriter.file2 (handle_of p)
  = Some (old2 ++ map snd (routed bd p l))%list.
Proof.
  intros Hsome Hnone Hno. revert fs old1 old2.
  induction l as [|[[b r1] r2] l IH]; intros fs old1 old2 H1 H2.
  - simpl. rewrite !app_nil_r. auto.
  - change (write_all w ((b, r1, r2) :: l) fs)
      with (write_all w l (DemultiplexWriter.write w fs b r1 r2)).
    assert (Er : routed bd p ((b, r1, r2) :: l)
                 = if decide (PyLib.get bd b = Some (Some p))
                   then (b, r1, r2) :: routed bd p l else routed bd p l)
      by reflexivity.
    rewrite Er. clear Er.
    destruct (PyLib.get bd b) as [[q|]|] eqn:Hb.
    + assert (Ew : DemultiplexWriter.write w fs b r1 r2
                   = DemultiplexWriter.handle_write (handle_of q) fs r1 r2)
        by (unfold DemultiplexWriter.write; now rewrite (Hsome _ _ Hb)).
      rewrite Ew. clear Ew.
      destruct (handle_write_spec (handle_of q) fs r1 r2 (handle_files_differ q q))
        as (W1 & W2 & Wn).
      destruct (decide (q = p)) as [->|Hne].
      * rewrite decide_True by reflexivity. rewrite H1 in W1. rewrite H2 in W2.
        simpl in W1, W2.
        destruct (IH _ _ _ W1 W2) as [-> ->]. cbn [map fst snd].
        rewrite <- !app_assoc. auto.
      * rewrite decide_False by congruence.
        apply IH; rewrite Wn; auto.
        -- intros E. apply Hne. symmetry. apply handle_of_inj. now left.
        -- apply handle_files_differ.
        -- apply not_eq_sym, handle_files_differ.
        -- intros E. apply Hne. symmetry. apply handle_of_inj. now right.
    + now contradiction (Hno b).
    + assert (Ew : DemultiplexWriter.write w fs b r1 r2 = fs)
        by (unfold DemultiplexWriter.write; now rewrite (Hnone _ Hb)).
      rewrite Ew. rewrite decide_False by discriminate. now apply IH.
Qed.

Lemma run_files_routed_aux
    (process_read_pair : Read * Read -> Counts -> result (string * Read * Read * Counts))
    (self : DemultiplexWorker.t) (counts counts' : Counts) (files files' : Files)
    (in_queue : list (option (list (Read * Read)))) (out_queue : list Z) :
  NoDup (map fst (DemultiplexWorker.barcode_dict self)) ->
  DemultiplexWorker.start process_read_pair self counts files in_queue
    = Returned counts' files' out_queue ->
  forall b p, In (b, Some p) (DemultiplexWorker.barcode_dict self) ->
    files' !! (p ++ ".R1.fastq.gz")
    = Some (map (fun e => snd (fst e))
              (routed (DemultiplexWorker.barcode_dict self) p
                 (run_emitted process_read_pair in_queue counts))) /\
    files' !! (p ++ ".R2.fastq.gz")
    = Some (map snd
              (routed (DemultiplexWorker.barcode_dict self) p
                 (run_emitted process_read_pair in_queue counts))).
Proof.
  intros Hnd Hstart b p Hin. unfold DemultiplexWorker.start in Hstart.
  destruct (DemultiplexWriter.open _ _) as [[w files0]|e] eqn:Ho; [|discriminate].
  destruct (DemultiplexWorker.run _ _ _ _ _ _) as [c f o| |] eqn:Hrun; try discriminate.
  destruct (DemultiplexWriter.close w); [|discriminate].
  injection Hstart as <- <- <-.
  apply run_emitted_files in Hrun as ->.
  destruct (writer_open_spec _ _ _ _ Hnd Ho) as (Hall & Hent & Hout).
  destruct (Hent b p Hin) as (_ & Hf1 & Hf2).
  apply (write_all_routed (DemultiplexWorker.barcode_dict self) w _ files0 p [] []).
  - intros b0 q Hb. apply get_Some_In in Hb. now apply Hent.
  - intros b0 Hb. apply Hout. now apply get_None_keys.
  - intros b0 Hb. apply get_Some_In in Hb.
    rewrite List.Forall_forall in Hall. now apply (Hall _ Hb).
  - exact Hf1.
  - exact Hf2.
Qed.


(** X3.  When a run returns, the R1 file of every prefix of the table
    holds the first reads, and its R2 file the second reads, of exactly
    the pairs handed to the writer under a barcode with this prefix, in
    the order in which the worker took them from the queue: the two files
    stay paired, no pair is written twice and none under a prefix other
    than the one of its barcode. *)
Theorem run_files_routed
    (process_read_pair : Read * Read -> Counts -> result (string * Read * Read * Counts))
    (self : DemultiplexWorker.t) (counts counts' : Counts) (files files' : Files)
    (in_queue : list (option (list (Read * Read)))) (out_queue : list Z) :
  NoDup (map fst (DemultiplexWorker.barcode_dict self)) ->
  DemultiplexWorker.start process_read_pair self counts files in_queue
    = Returned counts' files' out_queue ->
  forall b p, In (b, Some p) (DemultiplexWorker.barcode_dict self) ->
    files' !! (p ++ ".R1.fastq.gz")
    = Some (map (fun e => snd (fst e))
              (routed (DemultiplexWorker.barcode_dict self) p
                 (run_emitted process_read_pair in_queue counts))) /\
    files' !! (p ++ ".R2.fastq.gz")
    = Some (map snd
              (routed (DemultiplexWorker.barcode_dict self) p
                 (run_emitted process_read_pair in_queue counts))).
Proof. apply run_files_routed_aux. Qed.

Lemma run_files_routed_witness :
  exists counts' files' out_queue,
    DemultiplexDualIndexWorker.start dual_example FASTQWorker.new_counts ∅
      [Some [(mkRead "M0:1:FC:1:1:1:1 1:N:0:AAAAAAAA+CCCCCCCC" "ACGT" "IIII",
              mkRead "M0:1:FC:1:1:1:1 2:N:0:AAAAAAAA+CCCCCCCC" "TTTT" "IIII")];
       None]
    = Returned counts' files' out_queue /\
    files' !! ("s1" ++ ".R1.fastq.gz")
    = Some (map (fun e => snd (fst e))
              (routed (DemultiplexWorker.barcode_dict dual_example) "s1"
                 (run_emitted (DemultiplexDualIndexWorker.process_read_pair dual_example)
                    [Some [(mkRead "M0:1:FC:1:1:1:1 1:N:0:AAAAAAAA+CCCCCCCC" "ACGT" "IIII",
                            mkRead "M0:1:FC:1:1:1:1 2:N:0:AAAAAAAA+CCCCCCCC" "TTTT" "IIII")];
                     None]
                    FASTQWorker.new_counts))).
Proof.
  destruct (DemultiplexDualIndexWorker.start dual_example FASTQWorker.new_counts ∅
      [Some [(mkRead "M0:1:FC:1:1:1:1 1:N:0:AAAAAAAA+CCCCCCCC" "ACGT" "IIII",
              mkRead "M0:1:FC:1:1:1:1 2:N:0:AAAAAAAA+CCCCCCCC" "TTTT" "IIII")];
       None]) as [c f o|e|] eqn:H.
  - exists c, f, o. split; [reflexivity|].
    apply (proj1 (run_files_routed _ dual_example _ _ _ _ _ _
                    ltac:(repeat constructor; rewrite elem_of_nil; tauto) H
                    "AAAAAAAA+GGGGGGGG" "s1" ltac:(now left))).
  - vm_compute in H. discriminate H.
  - vm_compute in H. discriminate H.
Defined.

(** ** Runs of workers whose output depends on the pair alone *)

Section PureOutput.

Variable process_read_pair : Read * Read -> Counts -> result (string * Read * Read * Counts).
Variable output : Read * Read -> string * Read * Read.
Hypothesis output_spec :
  forall read_pair counts barcode read1 read2 counts',
    process_read_pair read_pair counts = Ok (barcode, read1, read2, counts') ->
    output read_pair = (barcode, read1, read2).

Lemma batch_emitted_map (w : DemultiplexWriter.t) (reads : list (Read * Read))
    (counts counts' : Counts) (files files' : Files) :
  DemultiplexWorker.process_batch process_read_pair w reads counts files
    = Ok (counts', files') ->
  emitted process_read_pair reads counts = map output reads.
Proof.
  revert counts files. induction reads as [|rp reads IH]; intros counts files H.
  - reflexivity.
  - cbn [DemultiplexWorker.process_batch emitted map] in *.
    destruct (process_read_pair rp counts) as [[[[b r1] r2] c1]|e] eqn:Hp; [|discriminate H].
    cbn [bind] in H. rewrite (output_spec _ _ _ _ _ _ Hp). f_equal. eapply IH, H.
Qed.

Lemma run_emitted_map (w : DemultiplexWriter.t)
    (in_queue : list (option (list (Read * Read))))
    (counts counts' : Counts) (files files' : Files) (out out' : list Z) :
  DemultiplexWorker.run process_read_pair w in_queue counts files out
    = Returned counts' files' out' ->
  run_emitted process_read_pair in_queue counts = map output (concat (batches in_queue)).
Proof.
  revert counts files out.
  induction in_queue as [|[reads|] in_queue IH]; intros counts files out H;
    cbn [DemultiplexWorker.run run_emitted batches concat] in *.
  - discriminate H.
  - destruct (DemultiplexWorker.process_batch _ _ _ _ _) as [[c1 f1]|e] eqn:Hb;
      [|discriminate H].
    rewrite map_app, (batch_emitted_map _ _ _ _ _ _ Hb).
    pose proof (process_batch_emitted _ _ _ _ _ _ _ Hb) as [-> _].
    f_equal. eapply IH, H.
  - reflexivity.
Qed.

Lemma start_emitted_map (self : DemultiplexWorker.t)
    (in_queue : list (option (list (Read * Read))))
    (counts counts' : Counts) (files files' : Files) (out : list Z) :
  DemultiplexWorker.start process_read_pair self counts files in_queue
    = Returned counts' files' out ->
  run_emitted process_read_pair in_queue counts = map output (concat (batches in_queue)).
Proof.
  unfold DemultiplexWorker.start.
  destruct (DemultiplexWriter.open _ _) as [[w files0]|e]; [|discriminate].
  destruct (DemultiplexWorker.run _ _ _ _ _ _) as [c f o| |] eqn:Hrun; try discriminate.
  intros _. eapply run_emitted_map, Hrun.
Qed.

End PureOutput.

Lemma routed_map {A : Type} (bd : BarcodeDict) (p : string)
    (output : Read * Read -> string * Read * Read) (f : string * Read * Read -> A)
    (pairs : list (Read * Read)) :
  map f (routed bd p (map output pairs))
  = map (fun rp => f (output rp)) (pairs_for bd (fun rp => fst (fst (output rp))) p pairs).
Proof.
  unfold routed, pairs_for.
  induction pairs as [|rp pairs IH]; [reflexivity|].
  cbn [map]. rewrite !filter_cons. cbn beta.
  destruct (decide (PyLib.get bd (fst (fst (output rp))) = Some (Some p)));
    cbn [map]; now rewrite IH.
Qed.

Lemma dual_output_spec (self : DemultiplexWorker.t) (read_pair : Read * Read)
    (counts : Counts) (barcode : string) (read1 read2 : Read) (counts' : Counts) :
  DemultiplexDualIndexWorker.process_read_pair self read_pair counts
    = Ok (barcode, read1, read2, counts') ->
  (dual_barcode self read_pair, fst read_pair, snd read_pair) = (barcode, read1, read2).
Proof.
  destruct read_pair as [r1 r2].
  unfold DemultiplexDualIndexWorker.process_read_pair, dual_barcode, header_barcode.
  cbn [fst snd].
  destruct (ReadPair.barcode r1 r2) as [b|]; [|discriminate]. cbn [bind].
  destruct (IlluminaFASTQ.canonicalise b) as [c|]; [|discriminate]. cbn [bind].
  destruct (DemultiplexDualIndexWorker.match_adapters self c) as [a|]; cbn [from_option id].
  - destruct (Py.truthy_str a); cbn [negb]; now intros [= <- <- <- <-].
  - cbn [Py.truthy_str negb]. now intros [= <- <- <- <-].
Qed.

(** X4.  When a run of the dual-index worker returns, the R1 and R2
    files of every prefix hold the first and the second reads of exactly
    the input pairs whose barcode - the adapter the header barcode is
    matched with, or [NO_MATCH] - the table sends to that prefix: the
    reads are written as they came in, and in the order of the input. *)
Theorem dual_run_partition (self : DemultiplexWorker.t) (counts counts' : Counts)
    (files files' : Files) (in_queue : list (option (list (Read * Read))))
    (out_queue : list Z) :
  NoDup (map fst (DemultiplexWorker.barcode_dict self)) ->
  DemultiplexDualIndexWorker.start self counts files in_queue
    = Returned counts' files' out_queue ->
  forall b p, In (b, Some p) (DemultiplexWorker.barcode_dict self) ->
    files' !! (p ++ ".R1.fastq.gz")
    = Some (map fst (pairs_for (DemultiplexWorker.barcode_dict self) (dual_barcode self) p
                       (concat (batches in_queue)))) /\
    files' !! (p ++ ".R2.fastq.gz")
    = Some (map snd (pairs_for (DemultiplexWorker.barcode_dict self) (dual_barcode self) p
                       (concat (batches in_queue)))).
Proof.
  intros Hnd Hstart b p Hin.
  pose proof (start_emitted_map _ (fun rp => (dual_barcode self rp, fst rp, snd rp))
                (dual_output_spec self) _ _ _ _ _ _ _ Hstart) as He.
  destruct (run_files_routed_aux _ _ _ _ _ _ _ _ Hnd Hstart b p Hin) as [H1 H2].
  rewrite H1, H2, He, !routed_map. auto.
Qed.

Lemma dual_run_partition_witness :
  exists counts' files' out_queue,
    DemultiplexDualIndexWorker.start dual_example FASTQWorker.new_counts ∅
      [Some [(mkRead "M0:1:FC:1:1:1:1 1:N:0:AAAAAAAA+CCCCCCCC" "ACGT" "IIII",
              mkRead "M0:1:FC:1:1:1:1 2:N:0:AAAAAAAA+CCCCCCCC" "TTTT" "IIII");
             (mkRead "M0:1:FC:1:1:1:2 1:N:0:TTTTTTTT+CCCCCCCC" "GGGG" "IIII",
              mkRead "M0:1:FC:1:1:1:2 2:N:0:TTTTTTTT+CCCCCCCC" "CCCC" "IIII")];
       None]
    = Returned counts' files' out_queue /\
    files' !! ("s1" ++ ".R1.fastq.gz")
    = Some (map fst
              (pairs_for (DemultiplexWorker.barcode_dict dual_example)
                 (dual_barcode dual_example) "s1"
                 (concat (batches
                    [Some [(mkRead "M0:1:FC:1:1:1:1 1:N:0:AAAAAAAA+CCCCCCCC" "ACGT" "IIII",
                            mkRead "M0:1:FC:1:1:1:1 2:N:0:AAAAAAAA+CCCCCCCC" "TTTT" "IIII");
                           (mkRead "M0:1:FC:1:1:1:2 1:N:0:TTTTTTTT+CCCCCCCC" "GGGG" "IIII",
                            mkRead "M0:1:FC:1:1:1:2 2:N:0:TTTTTTTT+CCCCCCCC" "CCCC" "IIII")];
                     None])))) /\
    files' !! "s1.R1.fastq.gz"
    = Some [mkRead "M0:1:FC:1:1:1:1 1:N:0:AAAAAAAA+CCCCCCCC" "ACGT" "IIII"].
Proof.
  destruct (DemultiplexDualIndexWorker.start dual_example FASTQWorker.new_counts ∅
      [Some [(mkRead "M0:1:FC:1:1:1:1 1:N:0:AAAAAAAA+CCCCCCCC" "ACGT" "IIII",
              mkRead "M0:1:FC:1:1:1:1 2:N:0:AAAAAAAA+CCCCCCCC" "TTTT" "IIII");
             (mkRead "M0:1:FC:1:1:1:2 1:N:0:TTTTTTTT+CCCCCCCC" "GGGG" "IIII",
              mkRead "M0:1:FC:1:1:1:2 2:N:0:TTTTTTTT+CCCCCCCC" "CCCC" "IIII")];
       None]) as [c f o|e|] eqn:H.
  - exists c, f, o. split; [reflexivity|].
    pose proof (proj1 (dual_run_partition dual_example _ _ _ _ _ _
                    ltac:(repeat constructor; rewrite elem_of_nil; tauto) H
                    "AAAAAAAA+GGGGGGGG" "s1" ltac:(now left))) as Hf.
    split; [exact Hf|].
    vm_compute in H. injection H as _ <- _. vm_compute. reflexivity.
  - vm_compute in H. discriminate H.
  - vm_compute in H. discriminate H.
Defined.

Lemma inline_output_spec (sg_de_stats : Parasail.aligner) (self : DemultiplexWorker.t)
    (read_pair : Read * Read) (counts : Counts) (barcode : string)
    (read1 read2 : Read) (counts' : Counts) :
  DemultiplexInlineWorker.process_read_pair sg_de_stats self read_pair counts
    = Ok (barcode, read1, read2, counts') ->
  inline_output sg_de_stats self read_pair = (barcode, read1, read2).
Proof.
  destruct read_pair as [r1 r2]. intros H.
  apply process_read_pair_returns in H as (a1 & a2 & _ & H1 & H2 & ->).
  unfold inline_output. cbn [fst snd]. now rewrite H1, H2.
Qed.

(** X5.  When a run of the inline worker returns, the R1 and R2 files of
    every prefix hold, in the order of the input, the reads of exactly the
    input pairs filed under a barcode of that prefix, each read as the
    trimming loop left it: R1 trimmed for the first adapter accepted for
    R1, R2 for the first accepted for R2, and the pair filed under the
    longer of the two. *)
Theorem inline_run_partition (sg_de_stats : Parasail.aligner) (self : DemultiplexWorker.t)
    (counts counts' : Counts) (files files' : Files)
    (in_queue : list (option (list (Read * Read)))) (out_queue : list Z) :
  NoDup (map fst (DemultiplexWorker.barcode_dict self)) ->
  DemultiplexInlineWorker.start sg_de_stats self counts files in_queue
    = Returned counts' files' out_queue ->
  forall b p, In (b, Some p) (DemultiplexWorker.barcode_dict self) ->
    files' !! (p ++ ".R1.fastq.gz")
    = Some (map (fun rp => snd (fst (inline_output sg_de_stats self rp)))
              (pairs_for (DemultiplexWorker.barcode_dict self)
                 (fun rp => fst (fst (inline_output sg_de_stats self rp))) p
                 (concat (batches in_queue)))) /\
    files' !! (p ++ ".R2.fastq.gz")
    = Some (map (fun rp => snd (inline_output sg_de_stats self rp))
              (pairs_for (DemultiplexWorker.barcode_dict self)
                 (fun rp => fst (fst (inline_output sg_de_stats self rp))) p
                 (concat (batches in_queue)))).
Proof.
  intros Hnd Hstart b p Hin.
  pose proof (start_emitted_map _ (inline_output sg_de_stats self)
                (inline_output_spec sg_de_stats self) _ _ _ _ _ _ _ Hstart) as He.
  destruct (run_files_routed_aux _ _ _ _ _ _ _ _ Hnd Hstart b p Hin) as [H1 H2].
  rewrite H1, H2, He, !routed_map. auto.
Qed.

Lemma inline_run_partition_witness :
  exists counts' files' out_queue,
    DemultiplexInlineWorker.start SemiGlobal.sg_de_stats inline_example
      FASTQWorker.new_counts ∅
      [Some [(mkRead "r1" "AAAACGTACGT" "IIIIIIIIIII", mkRead "r1" "GGGGGGCGTA" "IIIIIIIIII");
             (mkRead "r2" "TTTTTTTTTT" "IIIIIIIIII", mkRead "r2" "CCCCCCCCCC" "IIIIIIIIII")];
       None]
    = Returned counts' files' out_queue /\
    files' !! ("g" ++ ".R1.fastq.gz")
    = Some (map (fun rp => snd (fst (inline_output SemiGlobal.sg_de_stats inline_example rp)))
              (pairs_for (DemultiplexWorker.barcode_dict inline_example)
                 (fun rp => fst (fst (inline_output SemiGlobal.sg_de_stats inline_example rp)))
                 "g"
                 (concat (batches
                    [Some [(mkRead "r1" "AAAACGTACGT" "IIIIIIIIIII",
                            mkRead "r1" "GGGGGGCGTA" "IIIIIIIIII");
                           (mkRead "r2" "TTTTTTTTTT" "IIIIIIIIII",
                            mkRead "r2" "CCCCCCCCCC" "IIIIIIIIII")];
                     None])))) /\
    files' !! "g.R1.fastq.gz" = Some [mkRead "r1" "CGTACGT" "IIIIIII"] /\
    files' !! "g.R2.fastq.gz" = Some [mkRead "r1" "CGTA" "IIII"].
Proof.
  destruct (DemultiplexInlineWorker.start SemiGlobal.sg_de_stats inline_example
      FASTQWorker.new_counts ∅
      [Some [(mkRead "r1" "AAAACGTACGT" "IIIIIIIIIII", mkRead "r1" "GGGGGGCGTA" "IIIIIIIIII");
             (mkRead "r2" "TTTTTTTTTT" "IIIIIIIIII", mkRead "r2" "CCCCCCCCCC" "IIIIIIIIII")];
       None]) as [c f o|e|] eqn:H.
  - exists c, f, o. split; [reflexivity|].
    pose proof (proj1 (inline_run_partition SemiGlobal.sg_de_stats inline_example _ _ _ _ _ _
                    ltac:(repeat constructor; rewrite ?elem_of_cons, ?elem_of_nil;
                          intuition discriminate) H
                    "GGGGGG" "g" ltac:(right; now left))) as Hf.
    split; [exact Hf|].
    vm_compute in H. injection H as _ <- _. split; vm_compute; reflexivity.
  - vm_compute in H. discriminate H.
  - vm_compute in H. discriminate H.
Defined.

(** ** The first adapter within the threshold *)

Lemma match_loop_find (self : DemultiplexWorker.t) (er : Py.float) (l : list string)
    (barcode : string) :
  (forall a, In a l -> default 0 (DemultiplexWorker.max_error self !! a) = allowed er a) ->
  DemultiplexDualIndexWorker.match_loop self l barcode = first_within er l barcode.
Proof.
  induction l as [|a l IH]; intros H; [reflexivity|].
  cbn [DemultiplexDualIndexWorker.match_loop first_within List.find].
  rewrite (H a) by now left.
  destruct (editdistance.eval barcode a <? allowed er a); [reflexivity|].
  apply IH. intros a' Ha'. apply H. now right.
Qed.

(** X6.  A dual-index worker that has been constructed matches a barcode
    with the first adapter, in the order of the table, whose edit distance
    from the barcode is below [floor(|adapter| * error_rate)] for the error
    rate in effect, and with none when there is no such adapter: of two
    adapters within their thresholds the earlier one wins, not the closer
    one. *)
Theorem dual_match_first (bd : BarcodeDict) (er : option Py.float)
    (score penalty : Py.arg) (self : DemultiplexWorker.t) (barcode : string) :
  DemultiplexDualIndexWorker.init bd er score penalty = Ok self ->
  DemultiplexDualIndexWorker.match_adapters self barcode
  = first_within (DemultiplexWorker.error_rate self) (map fst bd) barcode.
Proof.
  unfold DemultiplexDualIndexWorker.init. rewrite init_unfold.
  destruct (py_min _) as [shortest|e]; [|discriminate].
  destruct (digits_or penalty 10 =? 0); [discriminate|]. cbn [bind].
  cbn [DemultiplexWorker.error_rate DemultiplexWorker.adapters].
  destruct (DemultiplexDualIndexWorker.max_errors _ _ _) as [m|e] eqn:Hm; [|discriminate].
  cbn [bind]. intros [= <-].
  unfold DemultiplexDualIndexWorker.match_adapters.
  cbn [DemultiplexWorker.adapters DemultiplexWorker.error_rate].
  apply match_loop_find. intros a Ha.
  cbn [DemultiplexWorker.max_error].
  destruct (max_errors_lookup _ _ _ _ Hm) as [Hin _].
  unfold allowed. now rewrite (Hin a Ha).
Qed.

Lemma dual_match_first_witness :
  exists self,
    DemultiplexDualIndexWorker.init
      [("AAAAAAAA+CCCCCCCC", Some "s1"); ("AAAAAAAA+CCCCCCCG", Some "s2")]
      (Some (Py.lit 0x1p-1%float)) Py.None_ Py.None_ = Ok self /\
    DemultiplexDualIndexWorker.match_adapters self "AAAAAAAA+CCCCCCCG"
    = Some "AAAAAAAA+CCCCCCCC".
Proof.
  destruct (DemultiplexDualIndexWorker.init
              [("AAAAAAAA+CCCCCCCC", Some "s1"); ("AAAAAAAA+CCCCCCCG", Some "s2")]
              (Some (Py.lit 0x1p-1%float)) Py.None_ Py.None_) as [self|e] eqn:E;
    [|vm_compute in E; discriminate E].
  exists self. split; [reflexivity|].
  rewrite (dual_match_first _ _ _ _ _ "AAAAAAAA+CCCCCCCG" E).
  vm_compute in E. injection E as <-. vm_compute. reflexivity.
Defined.

(** ** The shape of a trimmed read *)

Lemma chop_0 (s : string) : chop 0 s = s.
Proof. unfold chop. rewrite drop_0. apply str_chars. Qed.

Lemma chop_length (n : nat) (s : string) :
  String.length (chop n s) = (String.length s - n)%nat.
Proof. unfold chop. now rewrite <- chars_length, chars_str, length_drop, chars_length. Qed.

Lemma chop_suffix (n : nat) (s : string) :
  s = (Py.str (take n (Py.chars s)) ++ chop n s)%string.
Proof.
  apply chars_inj. unfold chop. rewrite chars_app, !chars_str. now rewrite take_drop.
Qed.

Lemma trimmed_cut (sg_de_stats : Parasail.aligner) (self : DemultiplexWorker.t)
    (read : Read) (adapter : string) :
  exists n m,
    cut_from read n m (InlineSpec.trimmed sg_de_stats self read adapter) /\
    (String.length (sequence read) = String.length (qualities read) -> n = m).
Proof.
  unfold InlineSpec.trimmed, Py.slice_from, Py.len.
  set (k := Parasail.end_ref _ + 1).
  eexists. eexists. split; [split; [reflexivity|split; reflexivity]|].
  intros ->. reflexivity.
Qed.

Lemma trim_read_cut (sg_de_stats : Parasail.aligner) (self : DemultiplexWorker.t)
    (read : Read) (l : list string) (adapter : string) (read' : Read) :
  DemultiplexInlineWorker.trim_read sg_de_stats self l read = Ok (adapter, read') ->
  exists n m,
    cut_from read n m read' /\
    (String.length (sequence read) = String.length (qualities read) -> n = m).
Proof.
  intros H. apply trim_read_returns in H as [(_ & -> & _)|(? & ? & _ & _ & _ & ->)].
  - exists 0%nat, 0%nat. split; [|reflexivity].
    split; [reflexivity|]. now rewrite !chop_0.
  - apply trimmed_cut.
Qed.

(** X7.  Whatever the aligner reports, the inline worker emits each read
    of a pair under its own name, with a suffix of its sequence and a
    suffix of its qualities; on a read whose sequence and qualities have
    one length the same number of characters is cut off both, so the two
    still have one length. *)
Theorem inline_trim_shape (sg_de_stats : Parasail.aligner) (self : DemultiplexWorker.t)
    (read1 read2 read1' read2' : Read) (counts counts' : Counts) (barcode : string) :
  DemultiplexInlineWorker.process_read_pair sg_de_stats self (read1, read2) counts
    = Ok (barcode, read1', read2', counts') ->
  (exists n m,
     cut_from read1 n m read1' /\
     (String.length (sequence read1) = String.length (qualities read1) ->
      n = m /\ String.length (sequence read1') = String.length (qualities read1'))) /\
  (exists n m,
     cut_from read2 n m read2' /\
     (String.length (sequence read2) = String.length (qualities read2) ->
      n = m /\ String.length (sequence read2') = String.length (qualities read2'))).
Proof.
  intros H. apply process_read_pair_returns in H as (a1 & a2 & _ & H1 & H2 & _).
  apply trim_read_cut in H1 as (n1 & m1 & C1 & E1).
  apply trim_read_cut in H2 as (n2 & m2 & C2 & E2).
  split.
  - exists n1, m1. split; [exact C1|]. intros Hl. split; [auto|].
    destruct C1 as (_ & -> & ->). rewrite !chop_length, (E1 Hl), Hl. reflexivity.
  - exists n2, m2. split; [exact C2|]. intros Hl. split; [auto|].
    destruct C2 as (_ & -> & ->). rewrite !chop_length, (E2 Hl), Hl. reflexivity.
Qed.

Lemma inline_trim_shape_witness :
  (exists n m,
     cut_from (mkRead "r" "AAAACGTACGT" "IIIIIIIIIII") n m (mkRead "r" "CGTACGT" "IIIIIII") /\
     (String.length "AAAACGTACGT" = String.length "IIIIIIIIIII" ->
      n = m /\ String.length "CGTACGT" = String.length "IIIIIII")) /\
  (exists n m,
     cut_from (mkRead "r" "GGGGGGCGTA" "IIIIIIIIII") n m (mkRead "r" "CGTA" "IIII") /\
     (String.length "GGGGGGCGTA" = String.length "IIIIIIIIII" ->
      n = m /\ String.length "CGTA" = String.length "IIII")).
Proof.
  apply (inline_trim_shape SemiGlobal.sg_de_stats inline_example
           (mkRead "r" "AAAACGTACGT" "IIIIIIIIIII") (mkRead "r" "GGGGGGCGTA" "IIIIIIIIII")
           (mkRead "r" "CGTACGT" "IIIIIII") (mkRead "r" "CGTA" "IIII")
           ∅
           (<["matched" := 1]> (<["GGGGGG" := 1]> (<["GGGGGG_2" := 1]> (<["AAAA_1" := 1]> ∅))))
           "GGGGGG").
  vm_compute. reflexivity.
Defined.

(** ** The table of the command line *)

Section ParseBarcodeOutputs.

Import DemultiplexProcess.

Lemma assign_get (barcode_list : list string) (file_prefix : option string)
    (d : BarcodeDict) (b : string) :
  PyLib.get (assign barcode_list file_prefix d) b
  = if decide (b ∈ barcode_list) then Some file_prefix else PyLib.get d b.
Proof.
  revert d. induction barcode_list as [|x l IH]; intros d; cbn [assign].
  - rewrite decide_False by apply not_elem_of_nil. reflexivity.
  - rewrite IH. destruct (decide (b ∈ l)) as [Hl|Hl].
    + rewrite decide_True by now right. reflexivity.
    + destruct (decide (b = x)) as [->|Hne].
      * rewrite decide_True by left. apply get_setitem_eq.
      * rewrite decide_False.
        -- apply get_setitem_ne. congruence.
        -- intros Hb. apply elem_of_cons in Hb as [Hb|Hb]; contradiction.
Qed.

Lemma assign_NoDup (barcode_list : list string) (file_prefix : option string)
    (d : BarcodeDict) :
  NoDup (map fst d) -> NoDup (map fst (assign barcode_list file_prefix d)).
Proof.
  revert d. induction barcode_list as [|x l IH]; intros d Hd; cbn [assign]; [exact Hd|].
  apply IH. now apply setitem_NoDup.
Qed.

Lemma parse_loop_app (outs1 outs2 : list string) (d : BarcodeDict) :
  parse_loop (outs1 ++ outs2) d = parse_loop outs2 (parse_loop outs1 d).
Proof.
  revert d. induction outs1 as [|o outs1 IH]; intros d; [reflexivity|].
  cbn [app parse_loop]. apply IH.
Qed.

Lemma parse_loop_NoDup (outs : list string) (d : BarcodeDict) :
  NoDup (map fst d) -> NoDup (map fst (parse_loop outs d)).
Proof.
  revert d. induction outs as [|o outs IH]; intros d Hd; cbn [parse_loop]; [exact Hd|].
  apply IH. now apply assign_NoDup.
Qed.

Lemma find_snoc {A : Type} (f : A -> bool) (l : list A) (x : A) :
  List.find f (l ++ [x])
  = match List.find f l with
    | Some y => Some y
    | None => if f x then Some x else None
    end.
Proof.
  induction l as [|y l IH]; cbn [app List.find]; [reflexivity|].
  destruct (f y); [reflexivity|exact IH].
Qed.

Lemma parse_loop_get (outs : list string) (d : BarcodeDict) (b : string) :
  PyLib.get (parse_loop outs d) b
  = match last_naming b outs with
    | Some o => Some (file_prefix_of o)
    | None => PyLib.get d b
    end.
Proof.
  revert d. induction outs as [|o outs IH]; intros d; [reflexivity|].
  cbn [parse_loop]. rewrite IH. unfold last_naming. cbn [List.rev].
  rewrite find_snoc.
  destruct (List.find _ (List.rev outs)) as [o'|]; [reflexivity|].
  rewrite assign_get. destruct (decide (b ∈ barcode_list_of o)) as [Hb|Hb].
  - now rewrite bool_decide_eq_true_2.
  - now rewrite bool_decide_eq_false_2.
Qed.

End ParseBarcodeOutputs.

(** X8.  The table [parse_barcode_outputs] makes of the arguments has
    every barcode once, and gives a barcode the prefix of the last
    argument that names it - an argument given later overrides an earlier
    one - and no entry to a barcode that no argument names. *)
Theorem parse_barcode_outputs_lookup (barcode_outputs : list string) :
  NoDup (map fst (DemultiplexProcess.parse_barcode_outputs barcode_outputs)) /\
  forall barcode,
    PyLib.get (DemultiplexProcess.parse_barcode_outputs barcode_outputs) barcode
    = option_map DemultiplexProcess.file_prefix_of (last_naming barcode barcode_outputs).
Proof.
  unfold DemultiplexProcess.parse_barcode_outputs. split.
  - apply parse_loop_NoDup. apply NoDup_nil_2.
  - intros b. rewrite parse_loop_get. now destruct (last_naming b barcode_outputs).
Qed.

(** ** The barcodes and the prefix of one argument *)

Lemma words_chars_spec (l : list ascii) :
  Forall (fun w => w <> [] /\ forall c, In c w -> Py.is_space c = false /\ In c l)
    (PyLib.words_chars l).
Proof.
  induction l as [|c l IH]; [constructor|].
  assert (Hw : Forall (fun w => w <> [] /\
                         forall c0, In c0 w -> Py.is_space c0 = false /\ In c0 (c :: l))
                 (PyLib.words_chars l)).
  { eapply Forall_impl; [exact IH|]. intros w [Hne Hin]. split; [exact Hne|].
    intros c0 Hc0. destruct (Hin c0 Hc0). split; [assumption|now right]. }
  cbn [PyLib.words_chars]. destruct (Py.is_space c) eqn:Hc; [exact Hw|].
  assert (H1 : [c] <> [] /\
               forall c0, In c0 [c] -> Py.is_space c0 = false /\ In c0 (c :: l)).
  { split; [discriminate|]. intros c0 [<-|[]]. split; [exact Hc|now left]. }
  destruct l as [|c' l']; [constructor; [exact H1|constructor]|].
  destruct (Py.is_space c'); [constructor; [exact H1|exact Hw]|].
  destruct (PyLib.words_chars (c' :: l')) as [|w ws]; [constructor; [exact H1|constructor]|].
  apply Forall_cons in Hw as [[Hne Hin] Hws]. constructor; [|exact Hws].
  split; [discriminate|]. intros c0 [<-|Hc0]; [split; [exact Hc|now left]|].
  now apply Hin.
Qed.

Lemma lstrip_In (l : list ascii) (c : ascii) : In c (Py.lstrip l) -> In c l.
Proof.
  induction l as [|x l IH]; cbn [Py.lstrip]; [tauto|].
  destruct (Py.is_space x); [|tauto]. intros H. right. now apply IH.
Qed.

Lemma strip_In (s : string) (c : ascii) :
  In c (Py.chars (Py.strip s)) -> In c (Py.chars s).
Proof.
  unfold Py.strip. rewrite chars_str. intros H.
  apply in_rev in H. apply lstrip_In in H. apply in_rev in H. now apply lstrip_In in H.
Qed.

(** [split("=", 1)]: what stands before the first separator holds none,
    and the rest is kept whole. *)
Lemma split_once_no_sep (sep : ascii) (l : list ascii) :
  ~ In sep l -> PyLib.split_once_chars sep l = [l].
Proof.
  induction l as [|c l IH]; intros Hn; [reflexivity|].
  cbn [PyLib.split_once_chars]. destruct (Ascii.eqb_spec c sep) as [->|Hne].
  - exfalso. apply Hn. now left.
  - rewrite IH; [reflexivity|]. intros H. apply Hn. now right.
Qed.

Lemma split_once_at_sep (sep : ascii) (p r : list ascii) :
  ~ In sep p -> PyLib.split_once_chars sep (p ++ sep :: r) = [p; r].
Proof.
  induction p as [|c p IH]; intros Hn; cbn [app PyLib.split_once_chars].
  - now rewrite Ascii.eqb_refl.
  - destruct (Ascii.eqb_spec c sep) as [->|Hne].
    + exfalso. apply Hn. now left.
    + rewrite IH; [reflexivity|]. intros H. apply Hn. now right.
Qed.

Lemma split_once_head (sep : ascii) (l : list ascii) :
  exists w ws, PyLib.split_once_chars sep l = w :: ws /\ ~ In sep w /\
               forall c, In c w -> In c l.
Proof.
  induction l as [|c l (w & ws & IH & Hn & Hsub)]; cbn [PyLib.split_once_chars].
  - exists [], []. split; [reflexivity|]. split; [intros []|intros c []].
  - destruct (Ascii.eqb_spec c sep) as [->|Hne].
    + exists [], [l]. split; [reflexivity|]. split; [intros []|intros c []].
    + rewrite IH. exists (c :: w), ws. split; [reflexivity|]. split.
      * intros [H|H]; [congruence|contradiction].
      * intros c0 [<-|H]; [now left|right; now apply Hsub].
Qed.

Lemma barcode_list_of_words (output b : string) :
  In b (DemultiplexProcess.barcode_list_of output) -> barcode_word b.
Proof.
  unfold DemultiplexProcess.barcode_list_of, PyLib.words, PyLib.split_once.
  destruct (split_once_head "=" (Py.chars output)) as (w & ws & -> & Hn & _).
  cbn [map hd]. intros Hb. apply in_map_iff in Hb as (x & <- & Hx).
  pose proof (words_chars_spec (Py.chars (Py.strip (Py.str w)))) as Hall.
  rewrite List.Forall_forall in Hall. destruct (Hall x Hx) as [Hne Hc].
  split.
  - intros He. apply Hne. apply (f_equal Py.chars) in He. now rewrite chars_str in He.
  - intros c Hin. rewrite chars_str in Hin. destruct (Hc c Hin) as [Hs Hi].
    split; [exact Hs|]. intros ->. apply Hn.
    apply strip_In in Hi. now rewrite chars_str in Hi.
Qed.

Lemma split_once_prefixed (B P : string) :
  ~ In "="%char (Py.chars B) ->
  PyLib.split_once "=" (B ++ "=" ++ P) = [B; P].
Proof.
  intros Hn. unfold PyLib.split_once. rewrite chars_app.
  change (Py.chars ("=" ++ P)) with ("="%char :: Py.chars P).
  rewrite split_once_at_sep by exact Hn. cbn [map]. now rewrite !str_chars.
Qed.

Lemma split_once_plain (B : string) :
  ~ In "="%char (Py.chars B) -> PyLib.split_once "=" B = [B].
Proof.
  intros Hn. unfold PyLib.split_once. rewrite split_once_no_sep by exact Hn.
  cbn [map]. now rewrite str_chars.
Qed.

(** X9.  Every barcode of the table is a word: not empty, and free of
    whitespace and of the equals sign.  An argument [B=P], where [B] holds
    no equals sign, gives the prefix [P] - whole, equals signs and
    whitespace included - to every word of [B]; the argument [B] alone
    gives these barcodes no prefix at all. *)
Theorem parse_barcode_outputs_argument (barcode_outputs : list string) (B P : string) :
  ~ In "="%char (Py.chars B) ->
  (forall barcode,
     In barcode (map fst (DemultiplexProcess.parse_barcode_outputs barcode_outputs)) ->
     barcode_word barcode) /\
  (forall barcode, In barcode (PyLib.words (Py.strip B)) ->
     PyLib.get (DemultiplexProcess.parse_barcode_outputs
                  (barcode_outputs ++ [B ++ "=" ++ P])) barcode = Some (Some P) /\
     PyLib.get (DemultiplexProcess.parse_barcode_outputs
                  (barcode_outputs ++ [B])) barcode = Some None).
Proof.
  intros Hn. split.
  - intros b Hb.
    destruct (PyLib.get (DemultiplexProcess.parse_barcode_outputs barcode_outputs) b)
      as [v|] eqn:Hg; [|now apply get_None_keys in Hg].
    unfold DemultiplexProcess.parse_barcode_outputs in Hg.
    rewrite parse_loop_get in Hg. cbn [PyLib.get] in Hg.
    destruct (last_naming b barcode_outputs) as [o|] eqn:Ho; [|discriminate Hg].
    unfold last_naming in Ho. apply find_some in Ho as [_ Ho].
    apply bool_decide_eq_true_1 in Ho. apply list_elem_of_In in Ho.
    now apply barcode_list_of_words in Ho.
  - intros b Hb. unfold DemultiplexProcess.parse_barcode_outputs.
    rewrite !parse_loop_app. cbn [DemultiplexProcess.parse_loop].
    rewrite !assign_get.
    unfold DemultiplexProcess.barcode_list_of, DemultiplexProcess.file_prefix_of.
    rewrite split_once_prefixed, split_once_plain by exact Hn. cbn [hd].
    apply list_elem_of_In in Hb. rewrite !decide_True by exact Hb. auto.
Qed.

Lemma parse_barcode_outputs_argument_witness :
  (forall barcode,
     In barcode (map fst (DemultiplexProcess.parse_barcode_outputs ["ACGT=old"])) ->
     barcode_word barcode) /\
  (forall barcode, In barcode (PyLib.words (Py.strip " ACGT TTGA ")) ->
     PyLib.get (DemultiplexProcess.parse_barcode_outputs
                  (["ACGT=old"] ++ [" ACGT TTGA " ++ "=" ++ "out/a=b"])) barcode
     = Some (Some "out/a=b") /\
     PyLib.get (DemultiplexProcess.parse_barcode_outputs
                  (["ACGT=old"] ++ [" ACGT TTGA "])) barcode = Some None).
Proof.
  apply (parse_barcode_outputs_argument ["ACGT=old"] " ACGT TTGA " "out/a=b").
  vm_compute. intros H. repeat (destruct H as [H|H]; [discriminate H|]). exact H.
Defined.

(** ** What is concatenated *)

Section Concatenation.

Import DemultiplexProcess.

Lemma shards_of_spec (barcode : string) (output_list : list (list (string * string)))
    (x : string) :
  In x (shards_of barcode output_list) <->
  exists output_dict,
    In output_dict output_list /\ PyLib.get output_dict barcode = Some x /\ x <> "".
Proof.
  induction output_list as [|od ol IH]; cbn [shards_of].
  - split; [intros []|intros (? & [] & _)].
  - destruct (PyLib.get od barcode) as [path|] eqn:Hg.
    + destruct path as [|c path]; cbn [Py.truthy_str].
      * rewrite IH. split.
        -- intros (od' & Hin & H). exists od'. split; [now right|exact H].
        -- intros (od' & [<-|Hin] & Hx & Hne); [|now exists od'].
           rewrite Hg in Hx. injection Hx as <-. congruence.
      * cbn [In]. rewrite IH. split.
        -- intros [<-|(od' & Hin & H)].
           ++ exists od. split; [now left|]. split; [exact Hg|discriminate].
           ++ exists od'. split; [now right|exact H].
        -- intros (od' & [<-|Hin] & Hx & Hne).
           ++ rewrite Hg in Hx. injection Hx as <-. now left.
           ++ right. now exists od'.
    + rewrite IH. split.
      * intros (od' & Hin & H). exists od'. split; [now right|exact H].
      * intros (od' & [<-|Hin] & Hx & Hne); [|now exists od'].
        rewrite Hg in Hx. discriminate Hx.
Qed.

Lemma shards_for_cons (b : string) (p : option string) (items : BarcodeDict)
    (ol : list (list (string * string))) (fp : option string) :
  shards_for ((b, p) :: items) ol fp
  = if decide (p = fp) then (shards_of b ol ++ shards_for items ol fp)%list
    else shards_for items ol fp.
Proof.
  unfold shards_for. rewrite filter_cons. cbn [snd].
  destruct (decide (p = fp)); reflexivity.
Qed.

Lemma shards_for_absent (items : BarcodeDict) (ol : list (list (string * string)))
    (fp : option string) :
  fp ∉ map snd items -> shards_for items ol fp = [].
Proof.
  induction items as [|[b p] items IH]; intros Hn; [reflexivity|].
  rewrite shards_for_cons. rewrite decide_False.
  - apply IH. intros H. apply Hn. cbn [map snd]. now right.
  - intros ->. apply Hn. cbn [map snd]. left.
Qed.

Lemma shards_for_spec (bd : BarcodeDict) (ol : list (list (string * string)))
    (fp : option string) (x : string) :
  In x (shards_for bd ol fp) <->
  exists b output_dict,
    In (b, fp) bd /\ In output_dict ol /\
    PyLib.get output_dict b = Some x /\ x <> "".
Proof.
  induction bd as [|[b p] bd IH].
  - split; [intros []|intros (? & ? & [] & _)].
  - rewrite shards_for_cons. destruct (decide (p = fp)) as [->|Hne].
    + rewrite in_app_iff, IH, shards_of_spec. split.
      * intros [(od & H)|(b' & od & Hin & H)].
        -- exists b, od. split; [now left|exact H].
        -- exists b', od. split; [now right|exact H].
      * intros (b' & od & [Heq|Hin] & H).
        -- injection Heq as <-. left. now exists od.
        -- right. now exists b', od.
    + rewrite IH. split.
      * intros (b' & od & Hin & H). exists b', od. split; [now right|exact H].
      * intros (b' & od & [Heq|Hin] & H); [congruence|now exists b', od].
Qed.

Lemma collect_prefixes_NoDup (items : BarcodeDict) (ol : list (list (string * string)))
    (d : list (option string * list string)) :
  NoDup (map fst d) -> NoDup (map fst (collect_prefixes items ol d)).
Proof.
  revert d. induction items as [|[b p] items IH]; intros d Hd; [exact Hd|].
  cbn [collect_prefixes]. apply IH. now apply setitem_NoDup.
Qed.

Lemma collect_prefixes_get (items : BarcodeDict) (ol : list (list (string * string)))
    (d : list (option string * list string)) (fp : option string) :
  PyLib.get (collect_prefixes items ol d) fp
  = if decide (fp ∈ map snd items)
    then Some (default [] (PyLib.get d fp) ++ shards_for items ol fp)%list
    else PyLib.get d fp.
Proof.
  revert d. induction items as [|[b p] items IH]; intros d.
  - rewrite decide_False by apply not_elem_of_nil. reflexivity.
  - cbn [collect_prefixes]. rewrite IH, shards_for_cons. cbn [map snd].
    destruct (decide (p = fp)) as [->|Hne].
    + rewrite get_setitem_eq. rewrite (decide_True (P := fp ∈ fp :: map snd items)) by left.
      cbn [default from_option id].
      destruct (decide (fp ∈ map snd items)) as [Hin|Hin].
      * now rewrite app_assoc.
      * now rewrite shards_for_absent, app_nil_r by exact Hin.
    + rewrite get_setitem_ne by exact Hne.
      destruct (decide (fp ∈ map snd items)) as [Hin|Hin].
      * rewrite decide_True by now right. reflexivity.
      * rewrite decide_False; [reflexivity|].
        intros H. apply elem_of_cons in H as [H|H]; [congruence|contradiction].
Qed.

Lemma get_map_value {K A B : Type} `{EqDecision K} (f : A -> B) (d : list (K * A)) (k : K) :
  PyLib.get (map (fun kv => (fst kv, f (snd kv))) d) k = option_map f (PyLib.get d k).
Proof.
  induction d as [|[k' v] d IH]; [reflexivity|]. cbn [map PyLib.get fst snd].
  destruct (decide (k = k')); [reflexivity|exact IH].
Qed.

Lemma prepare_concatenation_spec (bd : BarcodeDict)
    (ol : list (list (string * string))) :
  NoDup (map fst (prepare_concatenation bd ol)) /\
  forall fp,
    PyLib.get (prepare_concatenation bd ol) fp
    = if decide (fp ∈ map snd bd)
      then Some (list_to_set (shards_for bd ol fp)) else None.
Proof.
  unfold prepare_concatenation. split.
  - rewrite map_map. cbn [fst].
    change (fun x : option string * list string => x.1) with (@fst (option string) (list string)).
    apply collect_prefixes_NoDup. apply NoDup_nil_2.
  - intros fp. rewrite get_map_value, collect_prefixes_get. cbn [PyLib.get].
    destruct (decide (fp ∈ map snd bd)); reflexivity.
Qed.

End Concatenation.

(** X10.  [prepare_concatenation] lists every prefix of the table once,
    and no other; under a prefix it has exactly the non-empty paths that
    the tables of the workers hold for a barcode with this prefix, so
    barcodes that share a prefix are merged. *)
Theorem prepare_concatenation_merges (barcode_dict : BarcodeDict)
    (output_list : list (list (string * string))) :
  NoDup (map fst (DemultiplexProcess.prepare_concatenation barcode_dict output_list)) /\
  forall file_prefix,
    match PyLib.get (DemultiplexProcess.prepare_concatenation barcode_dict output_list)
            file_prefix with
    | Some paths =>
        file_prefix ∈ map snd barcode_dict /\
        forall path : string,
          path ∈ paths <->
          exists barcode output_dict,
            In (barcode, file_prefix) barcode_dict /\ In output_dict output_list /\
            PyLib.get output_dict barcode = Some path /\ path <> ""
    | None => file_prefix ∉ map snd barcode_dict
    end.
Proof.
  destruct (prepare_concatenation_spec barcode_dict output_list) as [Hnd Hget].
  split; [exact Hnd|]. intros fp. rewrite Hget.
  destruct (decide (fp ∈ map snd barcode_dict)) as [Hin|Hin]; [|exact Hin].
  split; [exact Hin|]. intros path.
  rewrite elem_of_list_to_set, list_elem_of_In. apply shards_for_spec.
Qed.

(** ** The shards of the workers *)

Section Shards.

Import DemultiplexProcess.

Lemma spawned_fields (self : t) (ids : list Z) :
  barcode_dict (spawned self ids) = barcode_dict self /\
  workspace (spawned self ids) = workspace self /\
  output_list (spawned self ids)
  = (output_list self
     ++ map (fun i => map (fun kv => (fst kv, shard (workspace self) (fst kv) i))
                        (barcode_dict self)) ids)%list.
Proof.
  revert self. induction ids as [|i ids IH]; intros self.
  - cbn. now rewrite app_nil_r.
  - unfold spawned. cbn [fold_left]. fold (spawned (snd (get_worker_args self i)) ids).
    destruct (IH (snd (get_worker_args self i))) as (-> & -> & ->).
    cbn [get_worker_args snd barcode_dict workspace output_list map].
    rewrite <- app_assoc. auto.
Qed.

Lemma get_map_key {V : Type} (g : string -> string) (bd : list (string * V)) (b : string) :
  PyLib.get (map (fun kv => (fst kv, g (fst kv))) bd) b
  = if decide (b ∈ map fst bd) then Some (g b) else None.
Proof.
  induction bd as [|[k v] bd IH].
  - rewrite decide_False by apply not_elem_of_nil. reflexivity.
  - cbn [map PyLib.get fst]. destruct (decide (b = k)) as [->|Hne].
    + rewrite decide_True by left. reflexivity.
    + rewrite IH. destruct (decide (b ∈ map fst bd)) as [Hin|Hin].
      * rewrite decide_True by now right. reflexivity.
      * rewrite decide_False; [reflexivity|].
        intros H. apply elem_of_cons in H as [H|H]; [congruence|contradiction].
Qed.

Lemma app_nonempty (a b : string) : b <> "" -> (a ++ b)%string <> "".
Proof. destruct a; [auto|discriminate]. Qed.

Lemma path_join_nonempty (a b : string) : b <> "" -> PyLib.path_join a b <> "".
Proof.
  intros Hb. unfold PyLib.path_join. destruct (PyLib.startswith "/" b); [exact Hb|].
  destruct (negb (Py.truthy_str a) || PyLib.endswith "/" a).
  - now apply app_nonempty.
  - apply app_nonempty. discriminate.
Qed.

Lemma shard_nonempty (ws b : string) (i : Z) : shard ws b i <> "".
Proof.
  unfold shard, shard_prefix. apply path_join_nonempty.
  apply app_nonempty. discriminate.
Qed.

Lemma spawned_shards (ws : string) (bd : BarcodeDict) (er : option Py.float)
    (sc pn : Py.arg) (ids : list Z) (fp : option string) (path : string) :
  In path (shards_for bd (output_list (spawned (init ws bd er sc pn) ids)) fp) <->
  exists b i, In (b, fp) bd /\ In i ids /\ path = shard ws b i.
Proof.
  rewrite shards_for_spec.
  destruct (spawned_fields (init ws bd er sc pn) ids) as (_ & _ & ->).
  cbn [init output_list workspace barcode_dict app]. split.
  - intros (b & od & Hb & Hod & Hg & _).
    apply in_map_iff in Hod as (i & <- & Hi).
    rewrite (get_map_key (fun k => shard ws k i)) in Hg.
    destruct (decide (b ∈ map fst bd)); [|discriminate Hg].
    injection Hg as <-. now exists b, i.
  - intros (b & i & Hb & Hi & ->).
    exists b, (map (fun kv => (fst kv, shard ws (fst kv) i)) bd).
    split; [exact Hb|]. split; [apply in_map_iff; now exists i|].
    split; [|apply shard_nonempty].
    rewrite (get_map_key (fun k => shard ws k i)). rewrite decide_True; [reflexivity|].
    apply list_elem_of_In. change b with (fst (b, fp)). now apply in_map.
Qed.

End Shards.

(** X11.  After [get_worker_args] has been called for the workers [ids],
    the concatenation lists, under a prefix of the table, exactly the
    shards of these workers for the barcodes with this prefix: the shard of
    every worker for every such barcode, and nothing else. *)
Theorem concatenation_collects_shards (workspace : string) (barcode_dict : BarcodeDict)
    (error_rate : option Py.float) (score penalty : Py.arg) (ids : list Z)
    (barcode0 : string) (file_prefix : option string) :
  In (barcode0, file_prefix) barcode_dict ->
  exists paths : gset string,
    PyLib.get
      (DemultiplexProcess.prepare_concatenation
         (DemultiplexProcess.barcode_dict
            (spawned (DemultiplexProcess.init workspace barcode_dict error_rate score penalty)
               ids))
         (DemultiplexProcess.output_list
            (spawned (DemultiplexProcess.init workspace barcode_dict error_rate score penalty)
               ids)))
      file_prefix = Some paths /\
    forall path : string,
      path ∈ paths <->
      exists barcode i,
        In (barcode, file_prefix) barcode_dict /\ In i ids /\
        path = shard workspace barcode i.
Proof.
  intros Hin.
  destruct (spawned_fields
              (DemultiplexProcess.init workspace barcode_dict error_rate score penalty) ids)
    as (Hbd & _ & _).
  rewrite Hbd. cbn [DemultiplexProcess.init DemultiplexProcess.barcode_dict].
  destruct (prepare_concatenation_spec barcode_dict
              (DemultiplexProcess.output_list
                 (spawned (DemultiplexProcess.init workspace barcode_dict error_rate
                             score penalty) ids))) as [_ Hget].
  rewrite Hget. rewrite decide_True.
  - eexists. split; [reflexivity|]. intros path.
    rewrite elem_of_list_to_set, list_elem_of_In. apply spawned_shards.
  - apply list_elem_of_In. change file_prefix with (snd (barcode0, file_prefix)).
    now apply in_map.
Qed.

Lemma concatenation_collects_shards_witness :
  exists paths : gset string,
    PyLib.get
      (DemultiplexProcess.prepare_concatenation
         (DemultiplexProcess.barcode_dict
            (spawned (DemultiplexProcess.init "/tmp/ws"
                        [("AAAA", Some "out/a"); ("CCCC", Some "out/a"); ("GGGG", None)]
                        None Py.None_ Py.None_) [0; 1]))
         (DemultiplexProcess.output_list
            (spawned (DemultiplexProcess.init "/tmp/ws"
                        [("AAAA", Some "out/a"); ("CCCC", Some "out/a"); ("GGGG", None)]
                        None Py.None_ Py.None_) [0; 1])))
      (Some "out/a") = Some paths /\
    forall path : string,
      path ∈ paths <->
      exists barcode i,
        In (barcode, Some "out/a")
          [("AAAA", Some "out/a"); ("CCCC", Some "out/a"); ("GGGG", None)] /\
        In i [0; 1] /\ path = shard "/tmp/ws" barcode i.
Proof.
  apply (concatenation_collects_shards "/tmp/ws"
           [("AAAA", Some "out/a"); ("CCCC", Some "out/a"); ("GGGG", None)]
           None Py.None_ Py.None_ [0; 1] "AAAA" (Some "out/a")).
  left. reflexivity.
Defined.

(** ** Shards are kept apart *)

Lemma str_of_int_inj (i j : Z) : Py.str_of (Py.Int i) = Py.str_of (Py.Int j) -> i = j.
Proof.
  unfold Py.str_of. intros H.
  assert (Hn : forall z, Z.to_int z <> Decimal.Pos Nil /\ Z.to_int z <> Decimal.Neg Nil).
  { intros z. split; intros Hz; pose proof (DecimalZ.of_to z) as Ho;
      rewrite Hz in Ho; cbn in Ho; subst z; discriminate Hz. }
  apply (f_equal NilZero.int_of_string) in H.
  rewrite !NilZero.isi in H by apply Hn.
  injection H as H. apply (f_equal Z.of_int) in H. now rewrite !DecimalZ.of_to in H.
Qed.

Lemma digit_not_underscore (c : ascii) : Py.is_digit c = true -> c <> "_"%char.
Proof. intros H ->. discriminate H. Qed.

Lemma str_of_int_no_underscore (z : Z) : ~ In "_"%char (Py.chars (Py.str_of (Py.Int z))).
Proof.
  assert (Hu : forall d, ~ In "_"%char (Py.chars (NilZero.string_of_uint d))).
  { intros d Hin.
    assert (Hd : forallb Py.is_digit (Py.chars (NilZero.string_of_uint d)) = true).
    { destruct d; try apply uint_digits. reflexivity. }
    rewrite forallb_forall in Hd. now apply Hd, digit_not_underscore in Hin. }
  unfold Py.str_of. destruct (Z.to_int z) as [d|d]; cbn [NilZero.string_of_int].
  - apply Hu.
  - intros [H|H]; [discriminate H|now apply Hu in H].
Qed.

Lemma last_sep_unique {A : Type} (sep : A) (l1 l2 r1 r2 : list A) :
  (l1 ++ sep :: r1 = l2 ++ sep :: r2)%list -> ~ In sep r1 -> ~ In sep r2 ->
  l1 = l2 /\ r1 = r2.
Proof.
  revert l2. induction l1 as [|x l1 IH]; intros [|y l2] H H1 H2; cbn [app] in H.
  - injection H as ->. auto.
  - injection H as <- ->. exfalso. apply H1. apply in_elt.
  - injection H as -> <-. exfalso. apply H2. apply in_elt.
  - injection H as <- H. destruct (IH _ H H1 H2) as [-> ->]. auto.
Qed.

Lemma str_app_inv_head (a x y : string) : (a ++ x = a ++ y)%string -> x = y.
Proof. induction a as [|c a IH]; cbn; [auto|]. intros [= H]. auto. Qed.

Lemma startswith_app (c : ascii) (b t : string) :
  PyLib.startswith c b = false -> PyLib.startswith c t = false ->
  PyLib.startswith c (b ++ t) = false.
Proof. destruct b; cbn; auto. Qed.

(** X12.  No two shards coincide: for barcodes that do not begin with a
    slash, the shard of worker [i] for a barcode and the shard of worker
    [j] for another are the same path only when the barcodes are the same
    and the workers are, so no worker writes into the files of another and
    no barcode into the files of another. *)
Theorem shards_distinct (workspace barcode barcode' : string) (i j : Z) :
  PyLib.startswith "/" barcode = false ->
  PyLib.startswith "/" barcode' = false ->
  shard workspace barcode i = shard workspace barcode' j ->
  barcode = barcode' /\ i = j.
Proof.
  intros Hb Hb'. unfold shard, DemultiplexProcess.shard_prefix, PyLib.path_join.
  rewrite !startswith_app by (assumption || reflexivity).
  intros H.
  assert (Hx : (barcode ++ "_" ++ "Process_" ++ Py.str_of (Py.Int i)
                = barcode' ++ "_" ++ "Process_" ++ Py.str_of (Py.Int j))%string).
  { destruct (negb (Py.truthy_str workspace) || PyLib.endswith "/" workspace).
    - now apply str_app_inv_head in H.
    - apply str_app_inv_head in H. now apply (str_app_inv_head "/") in H. }
  apply (f_equal Py.chars) in Hx.
  rewrite (chars_app barcode), (chars_app barcode') in Hx.
  change (Py.chars ("_" ++ "Process_" ++ Py.str_of (Py.Int i)))
    with (Py.chars "_Process" ++ "_"%char :: Py.chars (Py.str_of (Py.Int i)))%list in Hx.
  change (Py.chars ("_" ++ "Process_" ++ Py.str_of (Py.Int j)))
    with (Py.chars "_Process" ++ "_"%char :: Py.chars (Py.str_of (Py.Int j)))%list in Hx.
  rewrite !app_assoc in Hx.
  apply last_sep_unique in Hx as [Hl Hr]; try apply str_of_int_no_underscore.
  split.
  - apply app_inv_tail in Hl. now apply chars_inj.
  - apply chars_inj in Hr. now apply str_of_int_inj.
Qed.

Lemma shards_distinct_witness :
  shard "/tmp/ws" "AAAA" 3 = "/tmp/ws/AAAA_Process_3" /\
  shard "/tmp/ws" "AAAA" 3 = shard "/tmp/ws" "AAAA" 3 /\
  ("AAAA" = "AAAA" /\ 3 = 3).
Proof.
  split; [reflexivity|]. split; [reflexivity|].
  apply (shards_distinct "/tmp/ws" "AAAA" "AAAA" 3 3); reflexivity.
Defined.

(** ** Barcodes of a FASTQ file *)

Section BarcodesOfAFile.

Import BarcodeCount.

Lemma process_barcode_step {V : Type} (method : gmap string V -> string -> Z -> V)
    (line : string) (lines : list string) (i : Z) (d : gmap string V) :
  process_barcode method (line :: lines) i d
  = process_barcode method lines (i + 1)
      match line_barcode line with
      | Some barcode => <[barcode := method d barcode i]> d
      | None => d
      end.
Proof.
  cbn [process_barcode]. unfold line_barcode.
  destruct (PyLib.startswith "@" line); cbn [negb]; [|reflexivity].
  destruct (last_str_split ":" (Py.strip line)) as [raw ->]. cbn [bind].
  destruct (IlluminaFASTQ.dual_index_match raw) eqn:Hm; [|reflexivity].
  destruct (canonicalise_ok raw) as [c Hc]. unfold IlluminaFASTQ.canonicalise in Hc.
  rewrite Hm in Hc. rewrite Hc. reflexivity.
Qed.

Lemma rows_of_length (b : string) (lines : list string) (i : Z) :
  Z.of_nat (length (rows_of b lines i)) = reads_of b lines.
Proof.
  unfold reads_of. f_equal. revert i.
  induction lines as [|line lines IH]; intros i; [reflexivity|].
  cbn [rows_of]. rewrite filter_cons.
  destruct (decide (line_barcode line = Some b)); cbn [length]; now rewrite (IH (i + 1)).
Qed.

Lemma group_loop (lines : list string) (i : Z) (d : gmap string (list Z)) :
  exists d',
    process_barcode group_barcode lines i d = Ok d' /\
    forall b, d' !! b
              = match rows_of b lines i with
                | [] => d !! b
                | rows => Some (default [] (d !! b) ++ rows)%list
                end.
Proof.
  revert i d. induction lines as [|line lines IH]; intros i d.
  - exists d. split; [reflexivity|]. reflexivity.
  - rewrite process_barcode_step.
    destruct (IH (i + 1)
                match line_barcode line with
                | Some barcode => <[barcode := group_barcode d barcode i]> d
                | None => d
                end) as (d' & -> & Hd').
    exists d'. split; [reflexivity|]. intros b. rewrite Hd'. cbn [rows_of].
    destruct (line_barcode line) as [c|] eqn:Hl.
    + destruct (decide (Some c = Some b)) as [[= ->]|Hne].
      * rewrite lookup_insert_eq. unfold group_barcode. cbn [default from_option id].
        destruct (rows_of b lines (i + 1)) as [|r rows]; [reflexivity|].
        now rewrite <- app_assoc.
      * rewrite lookup_insert_ne by congruence. reflexivity.
    + rewrite decide_False by discriminate. reflexivity.
Qed.

Lemma count_loop (lines : list string) (i : Z) (d : Counts) :
  exists d',
    process_barcode count_barcode lines i d = Ok d' /\
    forall b, d' !! b
              = if decide (reads_of b lines = 0) then d !! b
                else Some (default 0 (d !! b) + reads_of b lines).
Proof.
  revert i d. induction lines as [|line lines IH]; intros i d.
  - exists d. split; [reflexivity|]. intros b. reflexivity.
  - rewrite process_barcode_step.
    destruct (IH (i + 1)
                match line_barcode line with
                | Some barcode => <[barcode := count_barcode d barcode i]> d
                | None => d
                end) as (d' & -> & Hd').
    exists d'. split; [reflexivity|]. intros b. rewrite Hd'.
    unfold reads_of. rewrite filter_cons.
    destruct (line_barcode line) as [c|] eqn:Hl.
    + destruct (decide (Some c = Some b)) as [[= ->]|Hne].
      * rewrite lookup_insert_eq. unfold count_barcode. cbn [default from_option id length].
        rewrite (decide_False (P := Z.of_nat (S _) = 0)) by lia.
        rewrite Nat2Z.inj_succ.
        destruct (decide (Z.of_nat (length (filter _ lines)) = 0)) as [E|E];
          [rewrite E|]; f_equal; lia.
      * rewrite lookup_insert_ne by congruence. reflexivity.
    + reflexivity.
Qed.

End BarcodesOfAFile.

(** X13.  [group_by_barcode] returns, for every canonical barcode carried
    by more header lines than the threshold (by one at least), the numbers
    of exactly these lines, counted from one and in increasing order, and
    it has no entry for any other barcode; it never raises. *)
Theorem group_by_barcode_rows (lines : list string) (threshold : Z) :
  exists barcode_dict,
    BarcodeCount.group_by_barcode lines threshold = Ok barcode_dict /\
    forall barcode,
      barcode_dict !! barcode
      = if decide (Z.max 0 threshold < reads_of barcode lines)
        then Some (rows_of barcode lines 1) else None.
Proof.
  unfold BarcodeCount.group_by_barcode.
  destruct (group_loop lines 1 ∅) as (d & -> & Hd). cbn [bind].
  assert (Hd' : forall b, d !! b = if decide (0 < reads_of b lines)
                                   then Some (rows_of b lines 1) else None).
  { intros b. rewrite Hd, lookup_empty, <- (rows_of_length b lines 1).
    destruct (rows_of b lines 1); cbn [length default from_option id app].
    - now rewrite decide_False by lia.
    - now rewrite decide_True by lia. }
  destruct (Z.ltb_spec 0 threshold) as [Ht|Ht].
  - eexists. split; [reflexivity|]. intros b.
    destruct (decide (Z.max 0 threshold < reads_of b lines)) as [Hk|Hk].
    + apply map_lookup_filter_Some. split.
      * rewrite Hd'. now rewrite decide_True by lia.
      * cbn [snd]. rewrite rows_of_length. apply Is_true_true, Z.ltb_lt. lia.
    + apply map_lookup_filter_None. destruct (decide (0 < reads_of b lines)) as [Hp|Hp].
      * right. intros rows Hr. rewrite Hd', decide_True in Hr by exact Hp.
        injection Hr as <-. cbn [snd]. rewrite rows_of_length.
        intros Hlt. apply Is_true_true, Z.ltb_lt in Hlt. lia.
      * left. rewrite Hd'. now rewrite decide_False by exact Hp.
  - exists d. split; [reflexivity|]. intros b. rewrite Hd'.
    destruct (decide (0 < reads_of b lines)).
    + now rewrite decide_True by lia.
    + now rewrite decide_False by lia.
Qed.

(** X14.  [count_by_barcode] returns, for every canonical barcode carried
    by more header lines than the threshold (by one at least), the number
    of these lines, and has no entry for any other barcode; it never
    raises.  Only lines that start with [@] and end in a dual-index barcode
    are counted. *)
Theorem count_by_barcode_reads (lines : list string) (threshold : Z) :
  exists barcode_dict,
    BarcodeCount.count_by_barcode lines threshold = Ok barcode_dict /\
    forall barcode,
      barcode_dict !! barcode
      = if decide (Z.max 0 threshold < reads_of barcode lines)
        then Some (reads_of barcode lines) else None.
Proof.
  unfold BarcodeCount.count_by_barcode.
  destruct (count_loop lines 1 ∅) as (d & -> & Hd). cbn [bind].
  assert (Hn : forall b, 0 <= reads_of b lines) by (intros b; unfold reads_of; lia).
  assert (Hd' : forall b, d !! b = if decide (0 < reads_of b lines)
                                   then Some (reads_of b lines) else None).
  { intros b. rewrite Hd, lookup_empty. pose proof (Hn b).
    destruct (decide (reads_of b lines = 0)).
    - now rewrite decide_False by lia.
    - rewrite decide_True by lia. reflexivity. }
  eexists. split; [reflexivity|]. intros b. pose proof (Hn b).
  destruct (decide (Z.max 0 threshold < reads_of b lines)) as [Hk|Hk].
  - apply map_lookup_filter_Some. split.
    + rewrite Hd'. now rewrite decide_True by lia.
    + cbn [snd]. lia.
  - apply map_lookup_filter_None. destruct (decide (0 < reads_of b lines)) as [Hp|Hp].
    + right. intros n Hr. rewrite Hd', decide_True in Hr by exact Hp.
      injection Hr as <-. cbn [snd]. lia.
    + left. rewrite Hd'. now rewrite decide_False by exact Hp.
Qed.

(** ** How a run of the dual-index worker ends *)

Section DualOutcome.

Variable self : DemultiplexWorker.t.

Lemma dual_pair_valid (read_pair : Read * Read) (counts : Counts) :
  valid_pair read_pair ->
  exists barcode counts',
    DemultiplexDualIndexWorker.process_read_pair self read_pair counts
    = Ok (barcode, fst read_pair, snd read_pair, counts').
Proof.
  destruct read_pair as [read1 read2]. unfold valid_pair. cbn [fst snd]. intros Hv.
  unfold DemultiplexDualIndexWorker.process_read_pair, ReadPair.barcode. rewrite Hv.
  destruct (last_str_split ":" (name read1)) as [b ->]. cbn [bind].
  destruct (canonicalise_ok b) as [c ->]. cbn [bind].
  destruct (negb _); eauto.
Qed.

Lemma dual_pair_invalid (read_pair : Read * Read) (counts : Counts) :
  ~ valid_pair read_pair ->
  DemultiplexDualIndexWorker.process_read_pair self read_pair counts
  = Raise (ValueError "Read pair mismatch").
Proof.
  destruct read_pair as [read1 read2]. unfold valid_pair. cbn [fst snd]. intros Hv.
  unfold DemultiplexDualIndexWorker.process_read_pair, ReadPair.barcode.
  destruct (ReadPair.valid read1 read2); [now contradiction Hv|reflexivity].
Qed.

Lemma valid_pair_dec (read_pair : Read * Read) :
  valid_pair read_pair \/ ~ valid_pair read_pair.
Proof.
  unfold valid_pair. destruct (ReadPair.valid _ _); [now left|right; discriminate].
Qed.

Lemma dual_batch_outcome (writer : DemultiplexWriter.t) (reads : list (Read * Read))
    (counts : Counts) (files : Files) :
  (Forall valid_pair reads ->
   exists counts' files',
     DemultiplexWorker.process_batch (DemultiplexDualIndexWorker.process_read_pair self)
       writer reads counts files = Ok (counts', files')) /\
  (Exists (fun read_pair => ~ valid_pair read_pair) reads ->
   DemultiplexWorker.process_batch (DemultiplexDualIndexWorker.process_read_pair self)
     writer reads counts files = Raise (ValueError "Read pair mismatch")).
Proof.
  revert counts files. induction reads as [|read_pair reads IH]; intros counts files.
  - split; [intros _; eexists; eexists; reflexivity|]. intros H. inversion H.
  - cbn [DemultiplexWorker.process_batch].
    destruct (valid_pair_dec read_pair) as [Hv|Hv].
    + destruct (dual_pair_valid read_pair counts Hv) as (b & c' & ->). cbn [bind].
      split.
      * intros Hall. apply Forall_cons in Hall as [_ Hall]. now apply IH.
      * intros Hex. apply Exists_cons in Hex as [Hex|Hex]; [contradiction|].
        now apply IH.
    + rewrite (dual_pair_invalid read_pair counts Hv). cbn [bind]. split.
      * intros Hall. apply Forall_cons in Hall as [Hall _]. contradiction.
      * reflexivity.
Qed.

Lemma dual_run_returns (writer : DemultiplexWriter.t) (bs : list (list (Read * Read)))
    (rest : list (option (list (Read * Read))))
    (counts : Counts) (files : Files) (out : list Z) :
  Forall (Forall valid_pair) bs ->
  exists counts' files',
    DemultiplexWorker.run (DemultiplexDualIndexWorker.process_read_pair self) writer
      (map Some bs ++ None :: rest) counts files out
    = Returned counts' files'
        (out ++ map (fun reads => Z.of_nat (length reads)) bs)%list.
Proof.
  intros Hbs. revert counts files out.
  induction Hbs as [|reads bs Hreads _ IH]; intros counts files out.
  - exists counts, files. cbn. now rewrite app_nil_r.
  - cbn [map app DemultiplexWorker.run].
    destruct (dual_batch_outcome writer reads counts files) as [Hok _].
    destruct (Hok Hreads) as (c1 & f1 & ->).
    match goal with
    | |- context [DemultiplexWorker.run _ _ _ ?c ?f ?o] =>
        destruct (IH c f o) as (counts' & files' & ->)
    end.
    exists counts', files'. now rewrite <- app_assoc.
Qed.

Lemma dual_run_raises (writer : DemultiplexWriter.t) (bs : list (list (Read * Read)))
    (rest : list (option (list (Read * Read))))
    (counts : Counts) (files : Files) (out : list Z) :
  Exists (Exists (fun read_pair => ~ valid_pair read_pair)) bs ->
  DemultiplexWorker.run (DemultiplexDualIndexWorker.process_read_pair self) writer
    (map Some bs ++ rest) counts files out
  = Raised (ValueError "Read pair mismatch").
Proof.
  revert counts files out. induction bs as [|reads bs IH]; intros counts files out Hex.
  - inversion Hex.
  - cbn [map app DemultiplexWorker.run].
    destruct (dual_batch_outcome writer reads counts files) as [Hok Hbad].
    assert (Hr : Exists (fun read_pair => ~ valid_pair read_pair) reads \/
                 Forall valid_pair reads).
    { clear. induction reads as [|rp reads [IH|IH]].
      - right. constructor.
      - left. now apply Exists_cons_tl.
      - destruct (valid_pair_dec rp) as [Hv|Hv].
        + right. now constructor.
        + left. now apply Exists_cons_hd. }
    destruct Hr as [Hr|Hall].
    + now rewrite (Hbad Hr).
    + destruct (Hok Hall) as (c1 & f1 & ->).
      apply IH. apply Exists_cons in Hex as [Hex|Hex]; [|exact Hex].
      exfalso. apply Exists_exists in Hex as (rp & Hin & Hn). apply Hn.
      rewrite Forall_forall in Hall. now apply Hall.
Qed.

End DualOutcome.

(** X15.  A dual-index worker with a prefix for every barcode ends its run
    by the pairs alone.  When the headers of every pair in the batches
    before the poison value agree, the run returns and has reported the
    size of every batch on the progress queue; when one of these pairs has
    headers that disagree, the run raises the error [ReadPair] raises for
    such a pair, whatever else the queue holds. *)
Theorem dual_start_outcome (self : DemultiplexWorker.t) (counts : Counts) (files : Files)
    (bs : list (list (Read * Read))) (rest : list (option (list (Read * Read)))) :
  Forall (fun bp => snd bp <> None) (DemultiplexWorker.barcode_dict self) ->
  (Forall (Forall valid_pair) bs ->
   exists counts' files',
     DemultiplexDualIndexWorker.start self counts files (map Some bs ++ None :: rest)
     = Returned counts' files' (map (fun reads => Z.of_nat (length reads)) bs)) /\
  (Exists (Exists (fun read_pair => ~ valid_pair read_pair)) bs ->
   exists read_pair e,
     In read_pair (concat bs) /\ ~ valid_pair read_pair /\
     ReadPair.barcode (fst read_pair) (snd read_pair) = Raise e /\
     DemultiplexDualIndexWorker.start self counts files (map Some bs ++ rest) = Raised e).
Proof.
  intros Hbd.
  destruct (open_ok (DemultiplexWorker.barcode_dict self) files Hbd)
    as (writer & files0 & Ho & Hc).
  unfold DemultiplexDualIndexWorker.start, DemultiplexWorker.start. rewrite Ho.
  split.
  - intros Hbs.
    destruct (dual_run_returns self writer bs rest counts files0 [] Hbs)
      as (counts' & files' & ->).
    rewrite Hc. now exists counts', files'.
  - intros Hex. rewrite (dual_run_raises self writer bs rest counts files0 [] Hex).
    apply List.Exists_exists in Hex as (reads & Hreads & Hex).
    apply List.Exists_exists in Hex as (rp & Hrp & Hn).
    exists rp, (ValueError "Read pair mismatch").
    split; [apply in_concat; now exists reads|]. split; [exact Hn|].
    split; [|reflexivity].
    unfold valid_pair in Hn. unfold ReadPair.barcode.
    destruct (ReadPair.valid rp.1 rp.2); [now contradiction Hn|reflexivity].
Qed.

Lemma dual_start_outcome_witness :
  (Forall (Forall valid_pair)
     [[(mkRead "M0:1:FC:1:1:1:1 1:N:0:AAAAAAAA+CCCCCCCC" "ACGT" "IIII",
        mkRead "M0:1:FC:1:1:1:1 2:N:0:AAAAAAAA+CCCCCCCC" "TTTT" "IIII")]] ->
   exists counts' files',
     DemultiplexDualIndexWorker.start dual_example FASTQWorker.new_counts ∅
       (map Some
          [[(mkRead "M0:1:FC:1:1:1:1 1:N:0:AAAAAAAA+CCCCCCCC" "ACGT" "IIII",
             mkRead "M0:1:FC:1:1:1:1 2:N:0:AAAAAAAA+CCCCCCCC" "TTTT" "IIII")]]
        ++ None :: [])
     = Returned counts' files'
         (map (fun reads => Z.of_nat (length reads))
            [[(mkRead "M0:1:FC:1:1:1:1 1:N:0:AAAAAAAA+CCCCCCCC" "ACGT" "IIII",
               mkRead "M0:1:FC:1:1:1:1 2:N:0:AAAAAAAA+CCCCCCCC" "TTTT" "IIII")]])) /\
  Forall (Forall valid_pair)
    [[(mkRead "M0:1:FC:1:1:1:1 1:N:0:AAAAAAAA+CCCCCCCC" "ACGT" "IIII",
       mkRead "M0:1:FC:1:1:1:1 2:N:0:AAAAAAAA+CCCCCCCC" "TTTT" "IIII")]].
Proof.
  split.
  - apply (dual_start_outcome dual_example FASTQWorker.new_counts ∅
             [[(mkRead "M0:1:FC:1:1:1:1 1:N:0:AAAAAAAA+CCCCCCCC" "ACGT" "IIII",
                mkRead "M0:1:FC:1:1:1:1 2:N:0:AAAAAAAA+CCCCCCCC" "TTTT" "IIII")]] []).
    repeat constructor. discriminate.
  - repeat constructor.
Defined.

(** ** The counter of a key over a run *)

Section CountKey.

Variable process_read_pair : Read * Read -> Counts -> result (string * Read * Read * Counts).
Variable key : string.
Variable hit : Read * Read -> Prop.
Context {hit_dec : forall read_pair, Decision (hit read_pair)}.

Hypothesis key_not_total : key <> "total".
Hypothesis step :
  forall read_pair counts barcode read1 read2 counts',
    process_read_pair read_pair counts = Ok (barcode, read1, read2, counts') ->
    FASTQWorker.get counts' key
    = FASTQWorker.get counts key + (if decide (hit read_pair) then 1 else 0).

Lemma batch_key (writer : DemultiplexWriter.t) (reads : list (Read * Read))
    (counts counts' : Counts) (files files' : Files) :
  DemultiplexWorker.process_batch process_read_pair writer reads counts files
    = Ok (counts', files') ->
  FASTQWorker.get counts' key
  = FASTQWorker.get counts key + Z.of_nat (length (filter hit reads)).
Proof.
  revert counts files. induction reads as [|read_pair reads IH]; intros counts files H.
  - injection H as <- <-. cbn. lia.
  - cbn [DemultiplexWorker.process_batch] in H.
    destruct (process_read_pair read_pair counts) as [[[[b r1] r2] c1]|e] eqn:Hp;
      [|discriminate H].
    cbn [bind] in H. apply IH in H. apply step in Hp.
    rewrite H, Hp, filter_cons.
    destruct (decide (hit read_pair)); cbn [length]; lia.
Qed.

Lemma run_key (writer : DemultiplexWriter.t)
    (in_queue : list (option (list (Read * Read))))
    (counts counts' : Counts) (files files' : Files) (out out' : list Z) :
  DemultiplexWorker.run process_read_pair writer in_queue counts files out
    = Returned counts' files' out' ->
  FASTQWorker.get counts' key
  = FASTQWorker.get counts key
    + Z.of_nat (length (filter hit (concat (batches in_queue)))).
Proof.
  revert counts files out.
  induction in_queue as [|[reads|] in_queue IH]; intros counts files out H;
    cbn [DemultiplexWorker.run] in H.
  - discriminate H.
  - destruct (DemultiplexWorker.process_batch _ _ _ _ _) as [[c1 f1]|e] eqn:Hb;
      [|discriminate H].
    apply batch_key in Hb. apply IH in H.
    rewrite get_add_count_ne in H by congruence.
    cbn [batches concat]. rewrite filter_app, length_app. lia.
  - injection H as <- <- <-. cbn. lia.
Qed.

Lemma start_key (self : DemultiplexWorker.t)
    (in_queue : list (option (list (Read * Read))))
    (counts : Counts) (files files' : Files) (out : list Z) :
  DemultiplexWorker.start process_read_pair self FASTQWorker.new_counts files in_queue
    = Returned counts files' out ->
  FASTQWorker.get counts key
  = Z.of_nat (length (filter hit (concat (batches in_queue)))).
Proof.
  unfold DemultiplexWorker.start.
  destruct (DemultiplexWriter.open _ _) as [[writer files0]|e]; [|discriminate].
  destruct (DemultiplexWorker.run _ _ _ _ _ _) as [c f o| |] eqn:Hrun; try discriminate.
  destruct (DemultiplexWriter.close writer); [|discriminate].
  intros [= <- <- <-]. apply run_key in Hrun. now rewrite Hrun, get_new_counts.
Qed.

End CountKey.

(** ** The counters of the dual-index worker *)

Lemma dual_pair_key (self : DemultiplexWorker.t) (key : string)
    (read_pair : Read * Read) (counts : Counts) (barcode : string)
    (read1 read2 : Read) (counts' : Counts) :
  ~ counter_name key -> key <> DemultiplexWriter.BARCODE_NOT_MATCHED ->
  DemultiplexDualIndexWorker.process_read_pair self read_pair counts
    = Ok (barcode, read1, read2, counts') ->
  FASTQWorker.get counts' key
  = FASTQWorker.get counts key
    + (if decide (dual_barcode self read_pair = key) then 1 else 0).
Proof.
  intros Hk Hn. destruct read_pair as [r1 r2].
  unfold DemultiplexDualIndexWorker.process_read_pair, dual_barcode, header_barcode.
  cbn [fst snd].
  destruct (ReadPair.barcode r1 r2) as [b|]; [|discriminate]. cbn [bind].
  destruct (IlluminaFASTQ.canonicalise b) as [c|]; [|discriminate]. cbn [bind].
  assert (Hu : forall counts0,
             FASTQWorker.get (FASTQWorker.add_count counts0 "unmatched" 1) key
             = FASTQWorker.get counts0 key).
  { intros counts0. apply get_add_count_ne. intros <-. apply Hk, counter_name_unmatched. }
  assert (Hm : forall counts0,
             FASTQWorker.get (FASTQWorker.add_count counts0 "matched" 1) key
             = FASTQWorker.get counts0 key).
  { intros counts0. apply get_add_count_ne. intros <-. apply Hk, counter_name_matched. }
  destruct (DemultiplexDualIndexWorker.match_adapters self c) as [a|]; cbn [from_option id].
  - destruct (Py.truthy_str a); cbn [negb]; intros [= <- <- <- <-].
    + destruct (decide (a = key)) as [->|Hne].
      * rewrite get_add_count_eq, Hm. reflexivity.
      * rewrite get_add_count_ne, Hm by exact Hne. lia.
    + rewrite Hu. rewrite decide_False by congruence. lia.
  - cbn [Py.truthy_str negb]. intros [= <- <- <- <-].
    rewrite Hu. rewrite decide_False by congruence. lia.
Qed.

(** X16.  When a run of the dual-index worker that began with empty
    counters returns, the counter of every key other than [total],
    [matched], [unmatched] and [NO_MATCH] is the number of input pairs
    filed under that key: the counter of an adapter is the number of pairs
    written to its files, and no other counter is ever made. *)
Theorem dual_counter_is_filed (self : DemultiplexWorker.t) (key : string)
    (in_queue : list (option (list (Read * Read))))
    (counts : Counts) (files files' : Files) (out_queue : list Z) :
  ~ counter_name key -> key <> DemultiplexWriter.BARCODE_NOT_MATCHED ->
  DemultiplexDualIndexWorker.start self FASTQWorker.new_counts files in_queue
    = Returned counts files' out_queue ->
  FASTQWorker.get counts key
  = filed_under (dual_barcode self) key (concat (batches in_queue)).
Proof.
  intros Hk Hn Hstart. unfold filed_under.
  apply (start_key (DemultiplexDualIndexWorker.process_read_pair self) key
           (fun read_pair => dual_barcode self read_pair = key)) in Hstart.
  - exact Hstart.
  - intros ->. apply Hk, counter_name_total.
  - intros rp c b r1 r2 c' Hp. now apply (dual_pair_key self key rp c b r1 r2 c').
Qed.

Lemma dual_counter_is_filed_witness :
  FASTQWorker.get
    (<["total" := 2]> (<["unmatched" := 1]>
       (<["AAAAAAAA+GGGGGGGG" := 1]> (<["matched" := 1]> ∅))))
    "AAAAAAAA+GGGGGGGG"
  = filed_under (dual_barcode dual_example) "AAAAAAAA+GGGGGGGG"
      (concat (batches
         [Some [(mkRead "M0:1:FC:1:1:1:1 1:N:0:AAAAAAAA+CCCCCCCC" "ACGT" "IIII",
                 mkRead "M0:1:FC:1:1:1:1 2:N:0:AAAAAAAA+CCCCCCCC" "TTTT" "IIII");
                (mkRead "M0:1:FC:1:1:1:2 1:N:0:TTTTTTTT+CCCCCCCC" "ACGT" "IIII",
                 mkRead "M0:1:FC:1:1:1:2 2:N:0:TTTTTTTT+CCCCCCCC" "TTTT" "IIII")];
          None])).
Proof.
  apply (dual_counter_is_filed dual_example "AAAAAAAA+GGGGGGGG"
           [Some [(mkRead "M0:1:FC:1:1:1:1 1:N:0:AAAAAAAA+CCCCCCCC" "ACGT" "IIII",
                   mkRead "M0:1:FC:1:1:1:1 2:N:0:AAAAAAAA+CCCCCCCC" "TTTT" "IIII");
                  (mkRead "M0:1:FC:1:1:1:2 1:N:0:TTTTTTTT+CCCCCCCC" "ACGT" "IIII",
                   mkRead "M0:1:FC:1:1:1:2 2:N:0:TTTTTTTT+CCCCCCCC" "TTTT" "IIII")];
            None]
           _ ∅
           (<["s1.R2.fastq.gz" :=
                [mkRead "M0:1:FC:1:1:1:1 2:N:0:AAAAAAAA+CCCCCCCC" "TTTT" "IIII"]]>
              (<["s1.R1.fastq.gz" :=
                   [mkRead "M0:1:FC:1:1:1:1 1:N:0:AAAAAAAA+CCCCCCCC" "ACGT" "IIII"]]> ∅))
           [2]).
  - intros [H|[H|H]]; discriminate H.
  - discriminate.
  - vm_compute. reflexivity.
Defined.

(** ** The counters of the inline worker *)

Lemma get_add_if (counts : Counts) (b : bool) (key' key : string) :
  FASTQWorker.get (if b then FASTQWorker.add_count counts key' 1 else counts) key
  = FASTQWorker.get counts key + (if decide (b = true /\ key' = key) then 1 else 0).
Proof.
  destruct b.
  - destruct (decide (key' = key)) as [->|Hne].
    + rewrite get_add_count_eq. now rewrite decide_True.
    + rewrite get_add_count_ne by exact Hne. rewrite decide_False by tauto. lia.
  - rewrite decide_False by (intros [H _]; discriminate H). lia.
Qed.

Lemma get_add_key (counts : Counts) (key' key : string) :
  FASTQWorker.get (FASTQWorker.add_count counts key' 1) key
  = FASTQWorker.get counts key + (if decide (key' = key) then 1 else 0).
Proof.
  destruct (decide (key' = key)) as [->|Hne].
  - apply get_add_count_eq.
  - rewrite get_add_count_ne by exact Hne. lia.
Qed.

Lemma underscore_in_suffix (a t : string) :
  In "_"%char (Py.chars t) -> ~ no_underscore (a ++ t).
Proof.
  intros Ht Hn. apply Hn. rewrite chars_app. apply in_or_app. now right.
Qed.

Lemma suffix_1_not_2 (a a' : string) : (a ++ "_1")%string <> (a' ++ "_2")%string.
Proof.
  intros H. apply (f_equal Py.chars) in H. rewrite !chars_app in H.
  change (Py.chars "_1") with (["_"%char] ++ ["1"%char])%list in H.
  change (Py.chars "_2") with (["_"%char] ++ ["2"%char])%list in H.
  rewrite !app_assoc in H. apply app_inj_tail in H as [_ H]. discriminate H.
Qed.

Lemma truthy_iff (s : string) : Py.truthy_str s = true <-> s <> "".
Proof. destruct s; cbn; split; congruence. Qed.

Section InlineCounters.

Variable sg_de_stats : Parasail.aligner.
Variable self : DemultiplexWorker.t.

Hypothesis adapter_names :
  Forall (fun adapter => no_underscore adapter /\ ~ counter_name adapter)
    (DemultiplexWorker.adapters self).

Lemma found_adapter (read : Read) (adapter : string) (read' : Read) :
  DemultiplexInlineWorker.trim_read sg_de_stats self (DemultiplexWorker.adapters self) read
    = Ok (adapter, read') ->
  adapter = "" \/ (no_underscore adapter /\ ~ counter_name adapter).
Proof.
  intros H. apply trim_read_adapter in H as [->|Hin]; [now left|right].
  rewrite List.Forall_forall in adapter_names. now apply adapter_names.
Qed.

(** What one pair does to the counter of any key. *)
Lemma inline_pair_counts (read_pair : Read * Read) (counts : Counts) (barcode : string)
    (read1 read2 : Read) (counts' : Counts) (key : string) :
  DemultiplexInlineWorker.process_read_pair sg_de_stats self read_pair counts
    = Ok (barcode, read1, read2, counts') ->
  exists adapter1 adapter2,
    inline_adapters sg_de_stats self read_pair = (adapter1, adapter2) /\
    fst (fst (inline_output sg_de_stats self read_pair)) = pair_barcode adapter1 adapter2 /\
    (adapter1 = "" \/ (no_underscore adapter1 /\ ~ counter_name adapter1)) /\
    (adapter2 = "" \/ (no_underscore adapter2 /\ ~ counter_name adapter2)) /\
    let adapter := if Py.len adapter2 <? Py.len adapter1 then adapter1 else adapter2 in
    FASTQWorker.get counts' key
    = FASTQWorker.get counts key
      + (if decide (Py.truthy_str adapter1 = true /\ (adapter1 ++ "_1")%string = key)
         then 1 else 0)
      + (if decide (Py.truthy_str adapter2 = true /\ (adapter2 ++ "_2")%string = key)
         then 1 else 0)
      + (if decide (Py.truthy_str adapter = true /\ adapter = key) then 1 else 0)
      + (if decide (Py.truthy_str adapter = true /\ "matched" = key) then 1 else 0)
      + (if decide (Py.truthy_str adapter = false /\ "unmatched" = key) then 1 else 0).
Proof.
  destruct read_pair as [r1 r2].
  unfold DemultiplexInlineWorker.process_read_pair, ReadPair.reads,
    DemultiplexInlineWorker.trim_adapters, inline_adapters, inline_output.
  cbn [fst snd].
  destruct (ReadPair.valid r1 r2); [|discriminate]. cbn [bind].
  destruct (DemultiplexInlineWorker.trim_read _ _ _ r1) as [[a1 r1']|] eqn:H1;
    [|discriminate].
  cbn [bind].
  destruct (DemultiplexInlineWorker.trim_read _ _ _ r2) as [[a2 r2']|] eqn:H2;
    [|discriminate].
  cbn [bind fst snd]. intros H. exists a1, a2.
  split; [reflexivity|]. split; [reflexivity|].
  split; [eapply found_adapter, H1|]. split; [eapply found_adapter, H2|].
  cbn zeta.
  destruct (Py.truthy_str (if Py.len a2 <? Py.len a1 then a1 else a2)) eqn:Ht;
    injection H as <- <- <- <-.
  - rewrite !get_add_key, !get_add_if.
    repeat case_decide; try lia; exfalso; intuition congruence.
  - rewrite !get_add_key, !get_add_if.
    repeat case_decide; try lia; exfalso; intuition congruence.
Qed.

End InlineCounters.

Section InlineCounterKeys.

Variable sg_de_stats : Parasail.aligner.
Variable self : DemultiplexWorker.t.
Variable a : string.

Hypothesis adapter_names :
  Forall (fun adapter => no_underscore adapter /\ ~ counter_name adapter)
    (DemultiplexWorker.adapters self).
Hypothesis a_plain : no_underscore a.
Hypothesis a_name : ~ counter_name a.
Hypothesis a_nonempty : a <> "".

Lemma plain_not_suffixed (x t : string) :
  In "_"%char (Py.chars t) -> (x ++ t)%string <> a.
Proof. intros Ht <-. now apply (underscore_in_suffix x t). Qed.

Lemma found_not_suffixed (x y t : string) :
  (x = "" \/ (no_underscore x /\ ~ counter_name x)) ->
  In "_"%char (Py.chars t) -> Py.truthy_str x = true -> x <> (y ++ t)%string.
Proof.
  intros [->|[Hx _]] Ht Hty; [discriminate Hty|].
  intros ->. now apply (underscore_in_suffix y t).
Qed.

Lemma inline_step_barcode (read_pair : Read * Read) (counts : Counts) (barcode : string)
    (read1 read2 : Read) (counts' : Counts) :
  DemultiplexInlineWorker.process_read_pair sg_de_stats self read_pair counts
    = Ok (barcode, read1, read2, counts') ->
  FASTQWorker.get counts' a
  = FASTQWorker.get counts a
    + (if decide (fst (fst (inline_output sg_de_stats self read_pair)) = a) then 1 else 0).
Proof.
  intros H.
  destruct (inline_pair_counts sg_de_stats self adapter_names _ _ _ _ _ _ a H)
    as (a1 & a2 & _ & -> & _ & _ & ->).
  assert (Hno : DemultiplexWriter.BARCODE_NOT_MATCHED <> a).
  { intros <-. apply a_plain. cbn. tauto. }
  assert (H1 : (a1 ++ "_1")%string <> a) by (apply plain_not_suffixed; cbn; tauto).
  assert (H2 : (a2 ++ "_2")%string <> a) by (apply plain_not_suffixed; cbn; tauto).
  assert (Hm : "matched" <> a) by (intros <-; apply a_name, counter_name_matched).
  assert (Hu : "unmatched" <> a) by (intros <-; apply a_name, counter_name_unmatched).
  unfold pair_barcode.
  destruct (Py.truthy_str (if Py.len a2 <? Py.len a1 then a1 else a2));
    repeat case_decide; try lia; exfalso; intuition congruence.
Qed.

Lemma inline_step_mate1 (read_pair : Read * Read) (counts : Counts) (barcode : string)
    (read1 read2 : Read) (counts' : Counts) :
  DemultiplexInlineWorker.process_read_pair sg_de_stats self read_pair counts
    = Ok (barcode, read1, read2, counts') ->
  FASTQWorker.get counts' (a ++ "_1")
  = FASTQWorker.get counts (a ++ "_1")
    + (if decide (fst (inline_adapters sg_de_stats self read_pair) = a) then 1 else 0).
Proof.
  intros H.
  destruct (inline_pair_counts sg_de_stats self adapter_names _ _ _ _ _ _ (a ++ "_1") H)
    as (a1 & a2 & -> & _ & F1 & F2 & ->). cbn [fst].
  assert (H2 : (a2 ++ "_2")%string <> (a ++ "_1")%string)
    by (intros E; symmetry in E; now apply suffix_1_not_2 in E).
  assert (Hm : "matched" <> (a ++ "_1")%string)
    by (intros E; apply (suffix_1_not_counter a); rewrite <- E; apply counter_name_matched).
  assert (Hu : "unmatched" <> (a ++ "_1")%string)
    by (intros E; apply (suffix_1_not_counter a); rewrite <- E;
        apply counter_name_unmatched).
  assert (Ha : Py.truthy_str (if Py.len a2 <? Py.len a1 then a1 else a2) = true ->
               (if Py.len a2 <? Py.len a1 then a1 else a2) <> (a ++ "_1")%string).
  { destruct (Py.len a2 <? Py.len a1); apply found_not_suffixed; try assumption;
      cbn; tauto. }
  assert (Ht : a1 = a -> Py.truthy_str a1 = true) by (intros ->; now apply truthy_iff).
  assert (He : (a1 ++ "_1")%string = (a ++ "_1")%string -> a1 = a)
    by apply str_app_inv_tail.
  repeat case_decide; try lia; exfalso; intuition congruence.
Qed.

Lemma inline_step_mate2 (read_pair : Read * Read) (counts : Counts) (barcode : string)
    (read1 read2 : Read) (counts' : Counts) :
  DemultiplexInlineWorker.process_read_pair sg_de_stats self read_pair counts
    = Ok (barcode, read1, read2, counts') ->
  FASTQWorker.get counts' (a ++ "_2")
  = FASTQWorker.get counts (a ++ "_2")
    + (if decide (snd (inline_adapters sg_de_stats self read_pair) = a) then 1 else 0).
Proof.
  intros H.
  destruct (inline_pair_counts sg_de_stats self adapter_names _ _ _ _ _ _ (a ++ "_2") H)
    as (a1 & a2 & -> & _ & F1 & F2 & ->). cbn [snd].
  assert (H1 : (a1 ++ "_1")%string <> (a ++ "_2")%string) by apply suffix_1_not_2.
  assert (Hm : "matched" <> (a ++ "_2")%string)
    by (intros E; apply (suffix_2_not_counter a); rewrite <- E; apply counter_name_matched).
  assert (Hu : "unmatched" <> (a ++ "_2")%string)
    by (intros E; apply (suffix_2_not_counter a); rewrite <- E;
        apply counter_name_unmatched).
  assert (Ha : Py.truthy_str (if Py.len a2 <? Py.len a1 then a1 else a2) = true ->
               (if Py.len a2 <? Py.len a1 then a1 else a2) <> (a ++ "_2")%string).
  { destruct (Py.len a2 <? Py.len a1); apply found_not_suffixed; try assumption;
      cbn; tauto. }
  assert (Ht : a2 = a -> Py.truthy_str a2 = true) by (intros ->; now apply truthy_iff).
  assert (He : (a2 ++ "_2")%string = (a ++ "_2")%string -> a2 = a)
    by apply str_app_inv_tail.
  repeat case_decide; try lia; exfalso; intuition congruence.
Qed.

End InlineCounterKeys.

(** X17.  Take an inline worker whose adapters hold no underscore and are
    none of [total], [matched] and [unmatched], as barcodes are.  When a
    run that began with empty counters returns, the counter of an adapter
    is the number of input pairs filed under it, its counter [_1] the
    number of pairs whose first read was matched with it and its counter
    [_2] the number of pairs whose second read was, so a pair whose reads
    match two adapters counts once for each read and once, under the
    longer adapter, as a pair. *)
Theorem inline_counters_are_filed (sg_de_stats : Parasail.aligner)
    (self : DemultiplexWorker.t) (adapter : string)
    (in_queue : list (option (list (Read * Read))))
    (counts : Counts) (files files' : Files) (out_queue : list Z) :
  Forall (fun adapter => no_underscore adapter /\ ~ counter_name adapter)
    (DemultiplexWorker.adapters self) ->
  In adapter (DemultiplexWorker.adapters self) -> adapter <> "" ->
  DemultiplexInlineWorker.start sg_de_stats self FASTQWorker.new_counts files in_queue
    = Returned counts files' out_queue ->
  FASTQWorker.get counts adapter
  = filed_under (fun read_pair => fst (fst (inline_output sg_de_stats self read_pair)))
      adapter (concat (batches in_queue)) /\
  FASTQWorker.get counts (adapter ++ "_1")
  = filed_under (fun read_pair => fst (inline_adapters sg_de_stats self read_pair))
      adapter (concat (batches in_queue)) /\
  FASTQWorker.get counts (adapter ++ "_2")
  = filed_under (fun read_pair => snd (inline_adapters sg_de_stats self read_pair))
      adapter (concat (batches in_queue)).
Proof.
  intros Hnames Hin Hne Hstart.
  assert (Ha : no_underscore adapter /\ ~ counter_name adapter).
  { rewrite List.Forall_forall in Hnames. now apply Hnames. }
  destruct Ha as [Hplain Hname]. unfold filed_under.
  split; [|split].
  - apply (start_key (DemultiplexInlineWorker.process_read_pair sg_de_stats self) adapter
             (fun rp => fst (fst (inline_output sg_de_stats self rp)) = adapter))
      with (self := self) (files := files) (files' := files') (out := out_queue).
    + intros ->. apply Hname, counter_name_total.
    + intros rp c b r1 r2 c'.
      now apply (inline_step_barcode sg_de_stats self adapter Hnames Hplain Hname).
    + exact Hstart.
  - apply (start_key (DemultiplexInlineWorker.process_read_pair sg_de_stats self)
             (adapter ++ "_1")
             (fun rp => fst (inline_adapters sg_de_stats self rp) = adapter))
      with (self := self) (files := files) (files' := files') (out := out_queue).
    + intros E. apply (suffix_1_not_counter adapter). rewrite E. apply counter_name_total.
    + intros rp c b r1 r2 c'.
      now apply (inline_step_mate1 sg_de_stats self adapter Hnames Hne).
    + exact Hstart.
  - apply (start_key (DemultiplexInlineWorker.process_read_pair sg_de_stats self)
             (adapter ++ "_2")
             (fun rp => snd (inline_adapters sg_de_stats self rp) = adapter))
      with (self := self) (files := files) (files' := files') (out := out_queue).
    + intros E. apply (suffix_2_not_counter adapter). rewrite E. apply counter_name_total.
    + intros rp c b r1 r2 c'.
      now apply (inline_step_mate2 sg_de_stats self adapter Hnames Hne).
    + exact Hstart.
Qed.

Example inline_example_names :
  Forall (fun adapter => no_underscore adapter /\ ~ counter_name adapter)
    (DemultiplexWorker.adapters inline_example).
Proof.
  repeat constructor; unfold no_underscore, counter_name; cbn; intuition discriminate.
Qed.

Lemma inline_counters_are_filed_witness :
  exists counts files' out_queue,
    DemultiplexInlineWorker.start SemiGlobal.sg_de_stats inline_example
      FASTQWorker.new_counts ∅
      [Some [(mkRead "r1" "AAAACGTACGT" "IIIIIIIIIII", mkRead "r1" "GGGGGGCGTA" "IIIIIIIIII");
             (mkRead "r2" "TTTTTTTTTT" "IIIIIIIIII", mkRead "r2" "CCCCCCCCCC" "IIIIIIIIII")];
       None]
    = Returned counts files' out_queue /\
    FASTQWorker.get counts "AAAA" = 0 /\
    FASTQWorker.get counts ("AAAA" ++ "_1") = 1 /\
    FASTQWorker.get counts ("AAAA" ++ "_2") = 0.
Proof.
  destruct (DemultiplexInlineWorker.start SemiGlobal.sg_de_stats inline_example
      FASTQWorker.new_counts ∅
      [Some [(mkRead "r1" "AAAACGTACGT" "IIIIIIIIIII", mkRead "r1" "GGGGGGCGTA" "IIIIIIIIII");
             (mkRead "r2" "TTTTTTTTTT" "IIIIIIIIII", mkRead "r2" "CCCCCCCCCC" "IIIIIIIIII")];
       None]) as [c f o|e|] eqn:H.
  - exists c, f, o. split; [reflexivity|].
    pose proof (inline_counters_are_filed SemiGlobal.sg_de_stats inline_example "AAAA"
                  _ _ _ _ _ inline_example_names (or_introl eq_refl)
                  ltac:(discriminate) H) as (H0 & H1 & H2).
    rewrite H0, H1, H2. vm_compute. auto.
  - vm_compute in H. discriminate H.
  - vm_compute in H. discriminate H.
Defined.

(** ** The barcodes of the first records *)

Lemma record_barcode_ok (read1 : Read) : exists c, record_barcode read1 = Ok c.
Proof.
  unfold record_barcode.
  destruct (last_str_split ":" (Py.strip (name read1))) as [b ->]. cbn [bind].
  apply canonicalise_ok.
Qed.

Lemma count_barcodes_loop (fastq_in : list Read) (barcode_counts : Counts) (counter : Z) :
  counter <= 3000 ->
  exists counts,
    DemultiplexDualIndex.count_barcodes fastq_in barcode_counts counter = Ok counts /\
    forall b,
      counts !! b
      = if decide (records_of b (Z.to_nat (3001 - counter)) fastq_in = 0)
        then barcode_counts !! b
        else Some (FASTQWorker.get barcode_counts b
                   + records_of b (Z.to_nat (3001 - counter)) fastq_in).
Proof.
  revert barcode_counts counter.
  induction fastq_in as [|read1 fastq_in IH]; intros d counter Hc.
  - exists d. split; [reflexivity|]. intros b. unfold records_of. now rewrite take_nil.
  - cbn [DemultiplexDualIndex.count_barcodes].
    destruct (record_barcode_ok read1) as [c Hrc]. pose proof Hrc as Hrc'.
    unfold record_barcode in Hrc'.
    destruct (Py.last_str (Py.split ":" (Py.strip (name read1)))) as [raw|];
      [|discriminate Hrc'].
    cbn [bind] in Hrc' |- *. rewrite Hrc'. cbn [bind].
    assert (Hn : Z.to_nat (3001 - counter) = S (Z.to_nat (3000 - counter))) by lia.
    assert (Hstep : forall b (rest : list Read),
               Z.of_nat (length (filter (fun r => record_barcode r = Ok b) (read1 :: rest)))
               = (if decide (c = b) then 1 else 0)
                 + Z.of_nat (length (filter (fun r => record_barcode r = Ok b) rest))).
    { intros b rest. rewrite filter_cons, Hrc.
      destruct (decide (c = b)) as [->|Hne].
      - rewrite decide_True by reflexivity. cbn [length]. lia.
      - rewrite decide_False by congruence. lia. }
    destruct (Z.ltb_spec 3000 (counter + 1)) as [Hlt|Hge].
    + eexists. split; [reflexivity|]. intros b. unfold records_of.
      replace (Z.to_nat (3001 - counter)) with 1%nat by lia.
      cbn [take]. rewrite take_0, Hstep. cbn [filter length].
      change (Z.of_nat (length (filter _ (@nil Read)))) with 0.
      destruct (decide (c = b)) as [->|Hne].
      * rewrite lookup_insert_eq. rewrite decide_False by lia. f_equal; lia.
      * rewrite lookup_insert_ne by exact Hne. now rewrite decide_True by lia.
    + destruct (IH (<[c := FASTQWorker.get d c + 1]> d) (counter + 1))
        as (counts & -> & Hcounts); [lia|].
      exists counts. split; [reflexivity|]. intros b. rewrite Hcounts.
      unfold records_of. rewrite Hn. cbn [take].
      replace (Z.to_nat (3001 - (counter + 1))) with (Z.to_nat (3000 - counter)) by lia.
      rewrite Hstep.
      set (n := Z.of_nat (length (filter _ (take _ fastq_in)))).
      assert (0 <= n) by (unfold n; lia).
      destruct (decide (c = b)) as [->|Hne].
      * assert (Hl : <[b := FASTQWorker.get d b + 1]> d !! b
                     = Some (FASTQWorker.get d b + 1)) by apply lookup_insert_eq.
        assert (Hg : FASTQWorker.get (<[b := FASTQWorker.get d b + 1]> d) b
                     = FASTQWorker.get d b + 1)
          by exact (get_add_count_eq d b 1).
        rewrite Hl, Hg. repeat case_decide; try lia; f_equal; lia.
      * assert (Hl : <[c := FASTQWorker.get d c + 1]> d !! b = d !! b)
          by now apply lookup_insert_ne.
        assert (Hg : FASTQWorker.get (<[c := FASTQWorker.get d c + 1]> d) b
                     = FASTQWorker.get d b)
          by exact (get_add_count_ne d c b 1 Hne).
        rewrite Hl, Hg, Z.add_0_l. reflexivity.
Qed.

(** X18.  [determine_adapters] never raises: it hands to [major_barcodes]
    the table that holds, for every barcode, the number of records among
    the first 3,001 of the file that are counted under it, and no entry for
    a barcode that none of them carries.  A record is counted under what
    follows the last colon of its name - reverse-complemented in its second
    half when that is a dual-index barcode, and as it stands when it is
    not. *)
Theorem determine_adapters_counts (major_barcodes : Counts -> list string)
    (r1 : list Read) :
  exists barcode_counts,
    DemultiplexDualIndex.determine_adapters major_barcodes r1
    = Ok (major_barcodes barcode_counts) /\
    forall barcode,
      barcode_counts !! barcode
      = if decide (records_of barcode 3001 r1 = 0) then None
        else Some (records_of barcode 3001 r1).
Proof.
  unfold DemultiplexDualIndex.determine_adapters.
  destruct (count_barcodes_loop r1 ∅ 0) as (counts & -> & Hcounts); [lia|].
  exists counts. split; [reflexivity|]. intros b. rewrite Hcounts.
  change (Z.to_nat (3001 - 0)) with 3001%nat. rewrite lookup_empty.
  destruct (decide (records_of b 3001 r1 = 0)); [reflexivity|].
  f_equal; cbn; lia.
Qed.

(** ** Counting the reads of a compressed file *)

Lemma reads_of_lines_length (file : list string) :
  Z.of_nat (length (reads_of_lines file)) = (Z.of_nat (length file) + 3) / 4.
Proof.
  assert (H : forall n (l : list string), (length l <= n)%nat ->
              Z.of_nat (length (reads_of_lines l)) = (Z.of_nat (length l) + 3) / 4).
  { induction n as [|n IH]; intros l Hl.
    - destruct l; [reflexivity|cbn in Hl; lia].
    - destruct l as [|l0 [|l1 [|l2 [|l3 rest]]]]; try reflexivity.
      cbn [reads_of_lines length]. rewrite Nat2Z.inj_succ, IH by (cbn in Hl; lia).
      rewrite !Nat2Z.inj_succ.
      replace (Z.succ (Z.succ (Z.succ (Z.succ (Z.of_nat (length rest))))) + 3)
        with (Z.of_nat (length rest) + 3 + 1 * 4) by lia.
      rewrite Z.div_add by lia. lia. }
  apply (H (length file)). lia.
Qed.

Lemma to_list_spec (fuel : nat) (file : list string) (current : Z) :
  proper_lines file -> (length file < fuel)%nat ->
  FASTQGzip.to_list fuel {| FASTQGzip.gzip := file; FASTQGzip.current := current |}
  = Some (Ok (reads_of_lines file,
              {| FASTQGzip.gzip := [];
                 FASTQGzip.current := current + Z.of_nat (length (reads_of_lines file)) |})).
Proof.
  revert file current. induction fuel as [|fuel IH]; intros file current Hp Hf; [lia|].
  assert (Ht : forall l, l <> "" -> Py.truthy_str l = true) by (intros []; cbn; congruence).
  destruct file as [|l0 [|l1 [|l2 [|l3 rest]]]].
  - cbn. now rewrite Z.add_0_r.
  - apply Forall_cons in Hp as [H0 _].
    cbn [FASTQGzip.to_list FASTQGzip.next FASTQGzip.readline FASTQGzip.gzip
         FASTQGzip.current FASTQRead.init bind FASTQRead.identifier].
    rewrite (Ht l0 H0).
    destruct fuel as [|fuel]; [cbn in Hf; lia|].
    cbn. reflexivity.
  - apply Forall_cons in Hp as [H0 _].
    cbn [FASTQGzip.to_list FASTQGzip.next FASTQGzip.readline FASTQGzip.gzip
         FASTQGzip.current FASTQRead.init bind FASTQRead.identifier].
    rewrite (Ht l0 H0).
    destruct fuel as [|fuel]; [cbn in Hf; lia|].
    cbn. reflexivity.
  - apply Forall_cons in Hp as [H0 _].
    cbn [FASTQGzip.to_list FASTQGzip.next FASTQGzip.readline FASTQGzip.gzip
         FASTQGzip.current FASTQRead.init bind FASTQRead.identifier].
    rewrite (Ht l0 H0).
    destruct fuel as [|fuel]; [cbn in Hf; lia|].
    cbn. reflexivity.
  - pose proof Hp as Hp'. apply Forall_cons in Hp' as [H0 Hp'].
    apply Forall_cons in Hp' as [_ Hp']. apply Forall_cons in Hp' as [_ Hp'].
    apply Forall_cons in Hp' as [_ Hp'].
    cbn [FASTQGzip.to_list FASTQGzip.next FASTQGzip.readline FASTQGzip.gzip
         FASTQGzip.current FASTQRead.init bind FASTQRead.identifier].
    rewrite (Ht l0 H0). rewrite IH by (try exact Hp'; cbn in Hf; lia).
    cbn [reads_of_lines length]. do 4 f_equal. lia.
Qed.

(** X19.  [read_count] returns: on a stream of proper lines it is the
    number of lines divided by four and rounded up, so the lines left over
    at the end of a file that is cut short count as one more read; the
    reads are the lines taken four at a time, whatever they hold, and
    [current] has gone up by the count. *)
Theorem read_count_rounds_up (fuel : nat) (self : FASTQGzip.t) (file : list string) :
  proper_lines file -> (length file < fuel)%nat ->
  FASTQGzip.read_count fuel self file
  = Some (Ok ((Z.of_nat (length file) + 3) / 4,
              {| FASTQGzip.gzip := [];
                 FASTQGzip.current
                 := FASTQGzip.current self + (Z.of_nat (length file) + 3) / 4 |})) /\
  FASTQGzip.to_list fuel
    {| FASTQGzip.gzip := file; FASTQGzip.current := FASTQGzip.current self |}
  = Some (Ok (reads_of_lines file,
              {| FASTQGzip.gzip := [];
                 FASTQGzip.current
                 := FASTQGzip.current self + (Z.of_nat (length file) + 3) / 4 |})).
Proof.
  intros Hp Hf. unfold FASTQGzip.read_count.
  rewrite (to_list_spec fuel file (FASTQGzip.current self) Hp Hf).
  now rewrite reads_of_lines_length.
Qed.

Lemma read_count_rounds_up_witness :
  FASTQGzip.read_count 10 {| FASTQGzip.gzip := []; FASTQGzip.current := 0 |}
    ["@r1"; "ACGT"; "+"; "IIII"; "@r2"; "AC"]
  = Some (Ok (2, {| FASTQGzip.gzip := []; FASTQGzip.current := 2 |})).
Proof.
  apply (read_count_rounds_up 10 {| FASTQGzip.gzip := []; FASTQGzip.current := 0 |}
           ["@r1"; "ACGT"; "+"; "IIII"; "@r2"; "AC"]).
  - repeat constructor; discriminate.
  - cbn. lia.
Defined.
